(** * mapin-api: the follow state machine and pin visibility

    A shallow embedding of [src/services/follow.service.ts] and
    [src/services/pin.service.ts] over a model of the relational store
    described by the initial migration (tables [users], [follows],
    [follow_requests], [pins], [likes] with their primary keys, unique
    indexes and foreign keys).

    Every [async] method is a program of the [Async] type below: one
    [Await] node per [await prisma....] round trip of the source, so that
    both the sequential meaning ([run]) and the meaning under interference
    from concurrent requests between two round trips ([run_interleaved])
    are available. *)

From stdpp Require Import base decidable option list strings infinite.
From Stdlib Require Import ZArith Floats.PrimFloat.

Open Scope string_scope.
Open Scope list_scope.

(* ===================================================================== *)
(** ** Data model (one record per table of the migration) *)
(* ===================================================================== *)

(** [CREATE TYPE "RequestStatus" AS ENUM ('PENDING', 'ACCEPTED', 'REJECTED')]. *)
Inductive RequestStatus : Type := PENDING | ACCEPTED | REJECTED.

#[global] Instance RequestStatus_eq_dec : EqDecision RequestStatus.
Proof. solve_decision. Defined.

(** Table [users]. Only the columns read by the two services are kept:
    the key and [is_private]; e-mail, name, password, bio and the like
    are never consulted by them. *)
Module User.
Record t : Type := mk { id : string; isPrivate : bool }.
End User.

(** Table [follows]: a directed edge [followerId -> followingId]. *)
Module Follow.
Record t : Type := mk { id : string; followerId : string; followingId : string }.
End Follow.

(** Table [follow_requests]. *)
Module FollowRequest.
Record t : Type :=
  mk { id : string; senderId : string; receiverId : string; status : RequestStatus }.
End FollowRequest.

(** Table [likes]. *)
Module Like.
Record t : Type := mk { id : string; pinId : string; userId : string }.
End Like.

(** Table [pins]. Coordinates are JavaScript numbers, that is IEEE 754
    binary64 values; [createdAt] is the timestamp the listing orders by. *)
Module Pin.
Record t : Type :=
  mk { id : string; authorId : string; lat : float; lng : float;
         isPublic : bool; createdAt : Z }.
End Pin.

(** The database: one list of rows per table, in insertion order. *)
Record Store : Type := mkStore {
  users : list User.t;
  follows : list Follow.t;
  followRequests : list FollowRequest.t;
  pins : list Pin.t;
  likes : list Like.t
}.

Definition with_follows (st : Store) (fs : list Follow.t) : Store :=
  mkStore (users st) fs (followRequests st) (pins st) (likes st).

Definition with_followRequests (st : Store) (rs : list FollowRequest.t) : Store :=
  mkStore (users st) (follows st) rs (pins st) (likes st).

(* ===================================================================== *)
(** ** Exceptions and asynchronous programs *)
(* ===================================================================== *)

(** What a service method can throw: a plain [new Error(message)] raised
    by the service itself, or the store's own
    [PrismaClientKnownRequestError], identified by its [code]. *)
Inductive Exception : Type :=
  | Error (message : string)
  | PrismaClientKnownRequestError (code : string).

#[global] Instance Exception_eq_dec : EqDecision Exception.
Proof. solve_decision. Defined.

(** Prisma error codes: unique constraint, foreign key constraint,
    record required by the operation not found. *)
Definition P2002 : Exception := PrismaClientKnownRequestError "P2002".
Definition P2003 : Exception := PrismaClientKnownRequestError "P2003".
Definition P2025 : Exception := PrismaClientKnownRequestError "P2025".

(** The failure kinds of the specification, as the messages the service
    throws them with. *)
Definition SelfFollowError : Exception := Error "You cannot follow yourself".
Definition AlreadyFollowingError : Exception := Error "Already following this user".
Definition TargetNotFoundError : Exception := Error "User not found".
Definition RequestAlreadyPendingError : Exception := Error "Follow request already pending".
Definition RequestNotFoundError : Exception := Error "Follow request not found".
Definition UnauthorizedError : Exception := Error "Unauthorized".
Definition NotPendingError : Exception := Error "Request is not pending".
Definition CancelNotPendingError : Exception := Error "Can only cancel pending requests".
Definition NotFollowingError : Exception := Error "Not following this user".
Definition NotAFollowerError : Exception := Error "User is not following you".

(** The named failure kinds of the specification's taxonomy. *)
Definition taxonomy : list Exception :=
  [ SelfFollowError; AlreadyFollowingError; TargetNotFoundError;
    RequestAlreadyPendingError; RequestNotFoundError; UnauthorizedError;
    NotPendingError; CancelNotPendingError; NotFollowingError; NotAFollowerError ].

Inductive Result (A : Type) : Type :=
  | Ok (a : A)
  | Thrown (e : Exception).
Arguments Ok {A} a.
Arguments Thrown {A} e.

(** One round trip to the store. A statement that fails leaves the store
    as it was, hence no store in the [Thrown] case. *)
Definition Query (B : Type) : Type := Store -> Result (B * Store).

(** A read-only round trip. *)
Definition read {B : Type} (f : Store -> B) : Query B :=
  fun st => Ok (f st, st).

(** An [async] method body: it returns, throws, or awaits a round trip
    and continues with its result. No method of the two services catches
    an exception of the store, so a failing round trip ends the program. *)
Inductive Async (A : Type) : Type :=
  | Return (a : A)
  | Throw (e : Exception)
  | Await {B : Type} (q : Query B) (k : B -> Async A).
Arguments Return {A} a.
Arguments Throw {A} e.
Arguments Await {A B} q k.

Notation "x ← 'await' q ; k" := (Await q (fun x => k))
  (at level 20, q at level 100, k at level 200, right associativity,
   format "'[v' x  ←  'await'  q ; '/' k ']'").
Notation "'await_' q ; k" := (Await q (fun _ => k))
  (at level 20, q at level 100, k at level 200, right associativity).

(** Sequential execution: the request runs alone. *)
Fixpoint run {A : Type} (p : Async A) (st : Store) : Result A * Store :=
  match p with
  | Return a => (Ok a, st)
  | Throw e => (Thrown e, st)
  | Await q k =>
      match q st with
      | Ok (b, st') => run (k b) st'
      | Thrown e => (Thrown e, st)
      end
  end.

(** Execution under interference: before the n-th round trip of the
    request, the n-th element of [env] (the net effect of whatever other
    requests committed in the meantime) is applied to the store. *)
Fixpoint run_interleaved {A : Type} (env : list (Store -> Store))
    (p : Async A) (st : Store) : Result A * Store :=
  match p with
  | Return a => (Ok a, st)
  | Throw e => (Thrown e, st)
  | Await q k =>
      let st1 := match env with f :: _ => f st | [] => st end in
      match q st1 with
      | Ok (b, st') => run_interleaved (tail env) (k b) st'
      | Thrown e => (Thrown e, st1)
      end
  end.

(** The store transition of a whole request run alone, as interference
    for another one. *)
Definition commit {A : Type} (p : Async A) : Store -> Store :=
  fun st => snd (run p st).

(** JavaScript truthiness of an optional string ([if (userId)]):
    [undefined] and the empty string are falsy. *)
Definition truthy (o : option string) : bool :=
  match o with
  | Some s => bool_decide (s ≠ "")
  | None => false
  end.

(* ===================================================================== *)
(** ** Queries on pins *)
(* ===================================================================== *)

(** [Prisma.PinWhereInput] as the listing builds it. *)
Record PinWhereInput : Type := mkWhere {
  where_authorId : option string;
  where_isPublic : option bool
}.

Definition satisfies (w : PinWhereInput) (p : Pin.t) : bool :=
  (if where_authorId w is Some a then bool_decide (Pin.authorId p = a) else true) &&
  (if where_isPublic w is Some b then bool_decide (Pin.isPublic p = b) else true).

(** A pin row with the relation the query includes: [likes] is the list
    of the viewer's likes of the pin, or absent ([likes: false]). The
    joined [author], [media] and [_count] are pure decoration of the row
    and are left out. *)
Record PinWithLikes : Type := mkPinWithLikes {
  row : Pin.t;
  row_likes : option (list Like.t)
}.

(** What the service hands out: [{ ...pin, isLiked, likes: undefined }]. *)
Record PinView : Type := mkPinView {
  pin : Pin.t;
  isLiked : bool
}.

(** [orderBy: { createdAt: "desc" }], as a stable insertion sort (rows
    with equal timestamps keep their table order). *)
Fixpoint insertDesc (p : Pin.t) (l : list Pin.t) : list Pin.t :=
  match l with
  | [] => [p]
  | q :: l' =>
      if (Pin.createdAt q <=? Pin.createdAt p)%Z then p :: l
      else q :: insertDesc p l'
  end.

Definition orderByCreatedAtDesc (l : list Pin.t) : list Pin.t :=
  foldr insertDesc [] l.

(* ===================================================================== *)
(** ** The Prisma client over the store *)
(* ===================================================================== *)

Module prisma.

(** Keys are generated by the client ([uuid]/[cuid] defaults of the
    schema): modelled as a key not yet used in the table. *)
Definition newId (used : list string) : string := fresh used.

Module user.
(** [prisma.user.findUnique({ where: { id } })]. *)
Definition findUnique (id : string) (st : Store) : option User.t :=
  List.find (fun u => bool_decide (User.id u = id)) (users st).
End user.

Definition userExists (st : Store) (id : string) : bool :=
  bool_decide (is_Some (user.findUnique id st)).

Module follow.
Definition matches (followerId followingId : string) (f : Follow.t) : bool :=
  bool_decide (Follow.followerId f = followerId) &&
  bool_decide (Follow.followingId f = followingId).

(** [findUnique({ where: { followerId_followingId: {...} } })]. *)
Definition findUnique (followerId followingId : string) (st : Store)
    : option Follow.t :=
  List.find (matches followerId followingId) (follows st).

(** [create({ data: { followerId, followingId } })]. The unique index
    [follows_follower_id_following_id_key] is checked when the row is
    inserted (P2002), the two foreign keys to [users] at the end of the
    statement (P2003). *)
Definition create (followerId followingId : string) : Query Follow.t :=
  fun st =>
    if existsb (matches followerId followingId) (follows st) then Thrown P2002
    else if negb (userExists st followerId && userExists st followingId)
    then Thrown P2003
    else
      let row := Follow.mk (newId (Follow.id <$> follows st)) followerId followingId in
      Ok (row, with_follows st (follows st ++ [row])).

(** [delete({ where: { id } })]. *)
Definition delete (id : string) : Query Follow.t :=
  fun st =>
    match List.find (fun f => bool_decide (Follow.id f = id)) (follows st) with
    | Some row =>
        Ok (row, with_follows st
                   (List.filter (fun f => negb (bool_decide (Follow.id f = id)))
                                (follows st)))
    | None => Thrown P2025
    end.

(** [count({ where: { followingId } })] and [count({ where: { followerId } })]. *)
Definition countFollowing (userId : string) (st : Store) : nat :=
  length (List.filter (fun f => bool_decide (Follow.followingId f = userId)) (follows st)).

Definition countFollower (userId : string) (st : Store) : nat :=
  length (List.filter (fun f => bool_decide (Follow.followerId f = userId)) (follows st)).
End follow.

Module followRequest.
Definition matches (senderId receiverId : string) (r : FollowRequest.t) : bool :=
  bool_decide (FollowRequest.senderId r = senderId) &&
  bool_decide (FollowRequest.receiverId r = receiverId).

(** [findUnique({ where: { senderId_receiverId: {...} } })]. *)
Definition findUnique (senderId receiverId : string) (st : Store)
    : option FollowRequest.t :=
  List.find (matches senderId receiverId) (followRequests st).

(** [findUnique({ where: { id } })]. *)
Definition findUniqueById (id : string) (st : Store) : option FollowRequest.t :=
  List.find (fun r => bool_decide (FollowRequest.id r = id)) (followRequests st).

(** [create({ data: { senderId, receiverId } })]: the column default
    makes the status PENDING; the unique index
    [follow_requests_sender_id_receiver_id_key] and the foreign keys are
    checked as for [follow.create]. *)
Definition create (senderId receiverId : string) : Query FollowRequest.t :=
  fun st =>
    if existsb (matches senderId receiverId) (followRequests st) then Thrown P2002
    else if negb (userExists st senderId && userExists st receiverId)
    then Thrown P2003
    else
      let row := FollowRequest.mk (newId (FollowRequest.id <$> followRequests st))
                   senderId receiverId PENDING in
      Ok (row, with_followRequests st (followRequests st ++ [row])).

Definition setStatus (s : RequestStatus) (r : FollowRequest.t) : FollowRequest.t :=
  FollowRequest.mk (FollowRequest.id r) (FollowRequest.senderId r)
                   (FollowRequest.receiverId r) s.

(** The table after the row of key [id] got status [s]. *)
Definition markStatus (id : string) (s : RequestStatus)
    (rows : list FollowRequest.t) : list FollowRequest.t :=
  (fun r => if bool_decide (FollowRequest.id r = id) then setStatus s r else r) <$> rows.

(** [update({ where: { id }, data: { status } })]. *)
Definition update (id : string) (s : RequestStatus) : Query FollowRequest.t :=
  fun st =>
    match findUniqueById id st with
    | Some row =>
        Ok (setStatus s row, with_followRequests st (markStatus id s (followRequests st)))
    | None => Thrown P2025
    end.

(** [delete({ where: { id } })]. *)
Definition delete (id : string) : Query FollowRequest.t :=
  fun st =>
    match findUniqueById id st with
    | Some row =>
        Ok (row, with_followRequests st
                   (List.filter (fun r => negb (bool_decide (FollowRequest.id r = id)))
                                (followRequests st)))
    | None => Thrown P2025
    end.
End followRequest.

Module pin.

(** [include: { likes: userId ? { where: { userId } } : false }]. *)
Definition includeLikes (userId : option string) (st : Store) (p : Pin.t) : PinWithLikes :=
  mkPinWithLikes p
    (match userId with
     | Some u =>
         if truthy userId then
           Some (List.filter (fun l => bool_decide (Like.pinId l = Pin.id p) &&
                                       bool_decide (Like.userId l = u)) (likes st))
         else None
     | None => None
     end).

(** [prisma.pin.findUnique({ where: { id }, include })]. *)
Definition findUnique (id : string) (userId : option string) (st : Store)
    : option PinWithLikes :=
  includeLikes userId st <$> List.find (fun p => bool_decide (Pin.id p = id)) (pins st).

(** [prisma.pin.findMany({ where, include, orderBy, take, skip })]. *)
Definition findMany (w : PinWhereInput) (userId : option string)
    (take skip : nat) (st : Store) : list PinWithLikes :=
  includeLikes userId st <$>
    firstn take (skipn skip (orderByCreatedAtDesc (List.filter (satisfies w) (pins st)))).

(** [prisma.pin.count({ where })]. *)
Definition count (w : PinWhereInput) (st : Store) : nat :=
  length (List.filter (satisfies w) (pins st)).

End pin.

(** [prisma.$transaction([q1, q2])]: the two statements run in order
    inside one database transaction; if either fails nothing is committed
    and the error is thrown. *)
Definition transaction {A B : Type} (q1 : Query A) (q2 : Query B) : Query (A * B) :=
  fun st =>
    match q1 st with
    | Thrown e => Thrown e
    | Ok (a, st1) =>
        match q2 st1 with
        | Thrown e => Thrown e
        | Ok (b, st2) => Ok ((a, b), st2)
        end
    end.

End prisma.

(* ===================================================================== *)
(** ** [FollowService] (src/services/follow.service.ts) *)
(* ===================================================================== *)

(** The value [followUser] resolves to: [{ type: "request", request }] or
    [{ type: "follow", follow }]. The [include] clauses only join the
    other user's public columns to the row and are left out. *)
Inductive FollowResult : Type :=
  | RequestResult (request : FollowRequest.t)
  | FollowingResult (follow : Follow.t).

Definition type (r : FollowResult) : string :=
  match r with
  | RequestResult _ => "request"
  | FollowingResult _ => "follow"
  end.

Module FollowService.

(** Follow a user (or send follow request if private). *)
Definition followUser (followerId followingId : string) : Async FollowResult :=
  (* Check if trying to follow self *)
  if bool_decide (followerId = followingId) then Throw SelfFollowError else
  (* Check if already following *)
  existingFollow ← await read (prisma.follow.findUnique followerId followingId);
  if existingFollow is Some _ then Throw AlreadyFollowingError else
  (* Check if user is private *)
  targetUser ← await read (prisma.user.findUnique followingId);
  match targetUser with
  | None => Throw TargetNotFoundError
  | Some targetUser =>
      if User.isPrivate targetUser then
        (* If user is private, create a follow request *)
        existingRequest ← await read (prisma.followRequest.findUnique followerId followingId);
        let createRequest : Async FollowResult :=
          request ← await prisma.followRequest.create followerId followingId;
          Return (RequestResult request) in
        match existingRequest with
        | Some existingRequest =>
            if bool_decide (FollowRequest.status existingRequest = PENDING) then
              Throw RequestAlreadyPendingError
            else if bool_decide (FollowRequest.status existingRequest = REJECTED) then
              (* Update existing rejected request to pending *)
              request ← await prisma.followRequest.update
                                (FollowRequest.id existingRequest) PENDING;
              Return (RequestResult request)
            else createRequest
        | None => createRequest
        end
      else
        (* If user is public, directly create follow relationship *)
        follow ← await prisma.follow.create followerId followingId;
        Return (FollowingResult follow)
  end.

(** Unfollow a user. *)
Definition unfollowUser (followerId followingId : string) : Async bool :=
  follow ← await read (prisma.follow.findUnique followerId followingId);
  match follow with
  | None => Throw NotFollowingError
  | Some follow =>
      await_ prisma.follow.delete (Follow.id follow);
      Return true
  end.

(** Remove a follower. *)
Definition removeFollower (userId followerId : string) : Async bool :=
  follow ← await read (prisma.follow.findUnique followerId userId);
  match follow with
  | None => Throw NotAFollowerError
  | Some follow =>
      await_ prisma.follow.delete (Follow.id follow);
      Return true
  end.

(** Cancel a follow request (sender cancels). *)
Definition cancelFollowRequest (senderId receiverId : string) : Async bool :=
  request ← await read (prisma.followRequest.findUnique senderId receiverId);
  match request with
  | None => Throw RequestNotFoundError
  | Some request =>
      if bool_decide (FollowRequest.status request ≠ PENDING) then
        Throw CancelNotPendingError
      else
        await_ prisma.followRequest.delete (FollowRequest.id request);
        Return true
  end.

(** Accept a follow request. *)
Definition acceptFollowRequest (receiverId requestId : string) : Async Follow.t :=
  request ← await read (prisma.followRequest.findUniqueById requestId);
  match request with
  | None => Throw RequestNotFoundError
  | Some request =>
      if bool_decide (FollowRequest.receiverId request ≠ receiverId) then
        Throw UnauthorizedError
      else if bool_decide (FollowRequest.status request ≠ PENDING) then
        Throw NotPendingError
      else
        (* Create follow relationship and update request in a transaction *)
        result ← await prisma.transaction
                   (prisma.follow.create (FollowRequest.senderId request)
                                         (FollowRequest.receiverId request))
                   (prisma.followRequest.update requestId ACCEPTED);
        Return (fst result)
  end.

(** Reject a follow request. *)
Definition rejectFollowRequest (receiverId requestId : string) : Async bool :=
  request ← await read (prisma.followRequest.findUniqueById requestId);
  match request with
  | None => Throw RequestNotFoundError
  | Some request =>
      if bool_decide (FollowRequest.receiverId request ≠ receiverId) then
        Throw UnauthorizedError
      else if bool_decide (FollowRequest.status request ≠ PENDING) then
        Throw NotPendingError
      else
        await_ prisma.followRequest.update requestId REJECTED;
        Return true
  end.

(** Check if user is following another user. *)
Definition isFollowing (followerId followingId : string) : Async bool :=
  follow ← await read (prisma.follow.findUnique followerId followingId);
  Return (bool_decide (is_Some follow)).

(** Check follow request status. *)
Definition getFollowRequestStatus (senderId receiverId : string)
    : Async (option RequestStatus) :=
  request ← await read (prisma.followRequest.findUnique senderId receiverId);
  Return (FollowRequest.status <$> request).

(** Get follower and following counts. *)
Definition getFollowCounts (userId : string) : Async (nat * nat) :=
  followersCount ← await read (prisma.follow.countFollowing userId);
  followingCount ← await read (prisma.follow.countFollower userId);
  Return (followersCount, followingCount).

End FollowService.

(** The six state-changing operations of the subsystem, as one type. *)
Inductive Operation : Type :=
  | OpFollowUser (followerId followingId : string)
  | OpAcceptFollowRequest (receiverId requestId : string)
  | OpRejectFollowRequest (receiverId requestId : string)
  | OpCancelFollowRequest (senderId receiverId : string)
  | OpUnfollowUser (followerId followingId : string)
  | OpRemoveFollower (userId followerId : string).

(** The store after an operation run alone (its result is dropped). *)
Definition perform (op : Operation) : Store -> Store :=
  match op with
  | OpFollowUser a b => commit (FollowService.followUser a b)
  | OpAcceptFollowRequest r i => commit (FollowService.acceptFollowRequest r i)
  | OpRejectFollowRequest r i => commit (FollowService.rejectFollowRequest r i)
  | OpCancelFollowRequest s r => commit (FollowService.cancelFollowRequest s r)
  | OpUnfollowUser a b => commit (FollowService.unfollowUser a b)
  | OpRemoveFollower u f => commit (FollowService.removeFollower u f)
  end.

(* ===================================================================== *)
(** ** [PinService] (src/services/pin.service.ts) *)
(* ===================================================================== *)

(** The functions of the JavaScript [Math] object used by the distance
    helper whose results the language leaves to the engine. *)
Class MathLib : Type := {
  Math_sin : float -> float;
  Math_cos : float -> float;
  Math_atan2 : float -> float -> float
}.

(** [Math.PI], the binary64 value nearest to pi. *)
Definition Math_PI : float := 0x1.921fb54442d18p+1%float.

(** [Math.sqrt] is the IEEE 754 square root. *)
Definition Math_sqrt : float -> float := PrimFloat.sqrt.

(** Parameters of [getPins]; every field is optional. [limit] and
    [offset] are row counts. *)
Record GetPinsParams : Type := mkParams {
  userId : option string;
  authorId : option string;
  lat : option float;
  lng : option float;
  radius : option float;
  isPublic : option bool;
  limit : option nat;
  offset : option nat;
  requestingUserId : option string
}.

Record PinList : Type := mkPinList {
  pinViews : list PinView;
  total : nat
}.

Module PinService.
Section WithMath.
Context {M : MathLib}.

Definition deg2rad (deg : float) : float := (deg * (Math_PI / 180))%float.

(** Helper function to calculate distance between two coordinates. *)
Definition calculateDistance (lat1 lon1 lat2 lon2 : float) : float :=
  let R := 6371%float in (* Radius of the Earth in kilometers *)
  let dLat := deg2rad (lat2 - lat1) in
  let dLon := deg2rad (lon2 - lon1) in
  let a :=
    (Math_sin (dLat / 2) * Math_sin (dLat / 2) +
     Math_cos (deg2rad lat1) * Math_cos (deg2rad lat2) *
       Math_sin (dLon / 2) * Math_sin (dLon / 2))%float in
  let c := (2 * Math_atan2 (Math_sqrt a) (Math_sqrt (1 - a)))%float in
  (R * c)%float.

(** [isLiked: userId ? pin.likes.length > 0 : false]. *)
Definition withLikeStatus (userId : option string) (p : PinWithLikes) : PinView :=
  mkPinView (row p)
    (if truthy userId
     then match row_likes p with Some ls => bool_decide (0 < length ls) | None => false end
     else false).

Definition getPinById (pinId : string) (userId : option string)
    : Async (option PinView) :=
  pin ← await read (prisma.pin.findUnique pinId userId);
  match pin with
  | None => Return None
  | Some pin =>
      let granted := Return (Some (withLikeStatus userId pin)) in
      (* Check if user has access to this pin *)
      if negb (Pin.isPublic (row pin)) &&
         bool_decide (userId ≠ Some (Pin.authorId (row pin))) then
        (* If pin is private, check if the requesting user follows the author *)
        match userId with
        | Some u =>
            if truthy userId then
              isFollowing ← await read (prisma.follow.findUnique u (Pin.authorId (row pin)));
              if isFollowing is None then Return None else granted
            else Return None
        | None => Return None
        end
      else granted
  end.

(** Filter by location if coordinates provided. *)
Definition filterByLocation (p : GetPinsParams) (pins : list PinWithLikes)
    : list PinWithLikes :=
  match lat p, lng p, radius p with
  | Some lat, Some lng, Some radius =>
      List.filter (fun pin =>
        let distance := calculateDistance lat lng (Pin.lat (row pin)) (Pin.lng (row pin)) in
        (distance <=? radius)%float) pins
  | _, _, _ => pins
  end.

(** The part of [getPins] after the author gate: the [isPublic] clause,
    the query, the in-memory distance filter, the like status, the count.
    The [console.log] calls are left out. *)
Definition listPins (p : GetPinsParams) (w : PinWhereInput) : Async PinList :=
  let w := if isPublic p is Some b then mkWhere (where_authorId w) (Some b) else w in
  (* For location-based queries, we'll get all pins and filter in memory *)
  pins ← await read (prisma.pin.findMany w (requestingUserId p)
                       (default 50 (limit p)) (default 0 (offset p)));
  let filteredPins := filterByLocation p pins in
  let pinsWithLikeStatus := withLikeStatus (requestingUserId p) <$> filteredPins in
  total ← await read (prisma.pin.count w);
  Return (mkPinList pinsWithLikeStatus total).

Definition getPins (p : GetPinsParams) : Async PinList :=
  match authorId p with
  | Some a =>
      if truthy (authorId p) then
        let w := mkWhere (Some a) None in
        (* If requesting pins from a specific author, check privacy *)
        if bool_decide (requestingUserId p ≠ Some a) then
          author ← await read (prisma.user.findUnique a);
          if (if author is Some author then User.isPrivate author else false) then
            (* Check if requesting user follows the author *)
            match requestingUserId p with
            | Some r =>
                if truthy (requestingUserId p) then
                  isFollowing ← await read (prisma.follow.findUnique r a);
                  if isFollowing is None then Return (mkPinList [] 0)
                  else listPins p w
                else Return (mkPinList [] 0)
            | None => Return (mkPinList [] 0)
            end
          else listPins p w
        else listPins p w
      else listPins p (mkWhere None None)
  | None => listPins p (mkWhere None None)
  end.

End WithMath.
End PinService.

(* ===================================================================== *)
(** ** The constraints of the schema *)
(* ===================================================================== *)

Definition followKey (f : Follow.t) : string * string :=
  (Follow.followerId f, Follow.followingId f).

Definition requestKey (r : FollowRequest.t) : string * string :=
  (FollowRequest.senderId r, FollowRequest.receiverId r).

(** A store satisfies the schema when the primary keys and unique
    indexes hold no duplicate and every foreign key of [follows] and
    [follow_requests] names a row of [users]. *)
Record schema_ok (st : Store) : Prop := mkSchemaOk {
  users_pkey : NoDup (User.id <$> users st);
  follows_pkey : NoDup (Follow.id <$> follows st);
  follows_follower_id_following_id_key : NoDup (followKey <$> follows st);
  follows_fkeys :
    Forall (fun f => prisma.userExists st (Follow.followerId f) = true /\
                     prisma.userExists st (Follow.followingId f) = true) (follows st);
  follow_requests_pkey : NoDup (FollowRequest.id <$> followRequests st);
  follow_requests_sender_id_receiver_id_key : NoDup (requestKey <$> followRequests st);
  follow_requests_fkeys :
    Forall (fun r => prisma.userExists st (FollowRequest.senderId r) = true /\
                     prisma.userExists st (FollowRequest.receiverId r) = true)
           (followRequests st)
}.

(** Number of [Follow] edges and of [FollowRequest] rows of an ordered pair. *)
Definition edgeCount (st : Store) (a b : string) : nat :=
  length (List.filter (prisma.follow.matches a b) (follows st)).

Definition requestCount (st : Store) (a b : string) : nat :=
  length (List.filter (prisma.followRequest.matches a b) (followRequests st)).


(** The store after both effects of accepting the request of key
    [requestId]: the edge appended to [follows] and the request row
    marked ACCEPTED. *)
Definition accepted (st : Store) (requestId : string) (edge : Follow.t) : Store :=
  mkStore (users st) (follows st ++ [edge])
          (prisma.followRequest.markStatus requestId ACCEPTED (followRequests st))
          (pins st) (likes st).

(** A property of every round trip a program can make. *)
Fixpoint all_queries {A : Type} (P : forall B, Query B -> Prop) (p : Async A) : Prop :=
  match p with
  | Return _ | Throw _ => True
  | Await q k => P _ q /\ forall b, all_queries P (k b)
  end.

(** A round trip that, when it succeeds, takes the store along [R]. *)
Definition steps_along (R : Store -> Store -> Prop) (B : Type) (q : Query B) : Prop :=
  forall st b st', q st = Ok (b, st') -> R st st'.

(** What the operations of the subsystem keep: they touch no table but
    [follows] and [follow_requests], keep the unique index on the pairs
    of [follow_requests], and keep the whole schema valid. *)
Definition keeps (st st' : Store) : Prop :=
  users st' = users st /\ pins st' = pins st /\ likes st' = likes st /\
  (NoDup (requestKey <$> followRequests st) -> NoDup (requestKey <$> followRequests st')) /\
  (schema_ok st -> schema_ok st').

(* ===================================================================== *)
(** ** Vocabulary of the statements on pins *)
(* ===================================================================== *)

(** The visibility rule of the specification for a pin [P] and a viewer
    [v]: the pin is public, or the viewer is its author, or the viewer
    follows its author. *)
Definition visibleTo (st : Store) (v : option string) (P : Pin.t) : Prop :=
  Pin.isPublic P = true \/
  v = Some (Pin.authorId P) \/
  exists u, v = Some u /\ is_Some (prisma.follow.findUnique u (Pin.authorId P) st).

(** The store with another [users] table. *)
Definition with_users (st : Store) (us : list User.t) : Store :=
  mkStore us (follows st) (followRequests st) (pins st) (likes st).

(** The [where] clause [getPins] ends up querying with. *)
Definition wherePins (p : GetPinsParams) : PinWhereInput :=
  mkWhere (if truthy (authorId p) then authorId p else None) (isPublic p).

(** The page [getPins] retrieves from the store. *)
Definition retrievedPage (p : GetPinsParams) (st : Store) : list PinWithLikes :=
  prisma.pin.findMany (wherePins p) (requestingUserId p)
    (default 50 (limit p)) (default 0 (offset p)) st.

(** Whether the author gate of [getPins] ends the listing with the empty
    result: an author is asked for, is not the requester, is private, and
    the requester is absent or has no edge to the author. *)
Definition authorGateBlocks (p : GetPinsParams) (st : Store) : bool :=
  match authorId p with
  | Some a =>
      truthy (authorId p) &&
      bool_decide (requestingUserId p ≠ Some a) &&
      (if prisma.user.findUnique a st is Some author then User.isPrivate author else false) &&
      negb (match requestingUserId p with
            | Some r => truthy (requestingUserId p) &&
                        bool_decide (is_Some (prisma.follow.findUnique r a st))
            | None => false
            end)
  | None => false
  end.

(** The same call without coordinates. *)
Definition withoutLocation (p : GetPinsParams) : GetPinsParams :=
  mkParams (userId p) (authorId p) None None None (isPublic p)
           (limit p) (offset p) (requestingUserId p).

(** Whether a pin passes the location filter of a call: always, unless
    [lat], [lng] and [radius] are all supplied, and then when its
    distance from ([lat], [lng]) is at most [radius]. *)
Definition inRange {M : MathLib} (p : GetPinsParams) (q : Pin.t) : bool :=
  match lat p, lng p, radius p with
  | Some la, Some lo, Some rad =>
      (PinService.calculateDistance la lo (Pin.lat q) (Pin.lng q) <=? rad)%float
  | _, _, _ => true
  end.

(** The haversine term of two points given in degrees:
    sin^2(dLat/2) + cos(lat1) cos(lat2) sin^2(dLon/2). *)
Definition haversineTerm {M : MathLib} (lat1 lon1 lat2 lon2 : float) : float :=
  let rad := fun deg => (deg * (Math_PI / 180))%float in
  (Math_sin (rad (lat2 - lat1) / 2) * Math_sin (rad (lat2 - lat1) / 2) +
   Math_cos (rad lat1) * Math_cos (rad lat2) *
     Math_sin (rad (lon2 - lon1) / 2) * Math_sin (rad (lon2 - lon1) / 2))%float.

(** Small-angle stand-ins for the engine's trigonometry, good enough for
    points a few kilometres apart; used to evaluate examples. *)
Definition smallAngleMath : MathLib :=
  {| Math_sin := fun x => x;
     Math_cos := fun _ => 1%float;
     Math_atan2 := fun y x => (y / x)%float |}.

(* ===================================================================== *)
(** ** Concrete stores used in the examples *)
(* ===================================================================== *)

(** Three users: [u1] is public, [u2] and [u3] are private. *)
Definition threeUsers : list User.t :=
  [User.mk "u1" false; User.mk "u2" true; User.mk "u3" true].

Definition emptyRelations : Store := mkStore threeUsers [] [] [] [].

(** [u2] asked to follow [u3] and the request is pending. *)
Definition pendingStore : Store :=
  mkStore threeUsers [] [FollowRequest.mk "r1" "u2" "u3" PENDING] [] [].

(** [u3] rejected the request of [u2]. *)
Definition rejectedStore : Store :=
  mkStore threeUsers [] [FollowRequest.mk "r1" "u2" "u3" REJECTED] [] [].

(** The request of [u2] to [u3] was accepted and [u2] unfollowed later:
    the ACCEPTED row is still there, the edge is gone. *)
Definition acceptedThenUnfollowedStore : Store :=
  mkStore threeUsers [] [FollowRequest.mk "r1" "u2" "u3" ACCEPTED] [] [].

(** A pending request of [u2] to [u3] next to an edge [u2 -> u3]. *)
Definition pendingWithEdgeStore : Store :=
  mkStore threeUsers [Follow.mk "f1" "u2" "u3"]
          [FollowRequest.mk "r1" "u2" "u3" PENDING] [] [].

(** A request row of [u2] to the public user [u1], and no edge. *)
Definition publicWithRequestStore : Store :=
  mkStore threeUsers [] [FollowRequest.mk "r1" "u2" "u1" REJECTED] [] [].

(** [u2] follows [u1]. *)
Definition followingStore : Store :=
  mkStore threeUsers [Follow.mk "f1" "u2" "u1"] [] [] [].

(** Two pins of the private user [u3]: the newer one in Lisbon, public;
    the older one in Porto, not public. *)
Definition lisbonPin : Pin.t := Pin.mk "p2" "u3" 38.75%float (-9.125)%float true 200.
Definition portoPin : Pin.t := Pin.mk "p1" "u3" 41.125%float (-8.625)%float false 100.

Definition pinStore : Store :=
  mkStore threeUsers [] [] [portoPin; lisbonPin] [].

(** The same pins once [u2] follows [u3]. *)
Definition pinStoreFollowed : Store :=
  mkStore threeUsers [Follow.mk "f1" "u2" "u3"] [] [portoPin; lisbonPin] [].

(** Pins around Porto, one row per page, asked by the author. *)
Definition nearPorto : GetPinsParams :=
  mkParams None (Some "u3") (Some 41.125%float) (Some (-8.625)%float) (Some 5%float)
           None (Some 1) None (Some "u3").

(** All pins of [u3], asked by an anonymous requester. *)
Definition anonymousListing : GetPinsParams :=
  mkParams None (Some "u3") None None None None None None None.

(** An edge of [u2] to a user that is no longer in [users]. *)
Definition danglingEdgeStore : Store :=
  mkStore threeUsers [Follow.mk "f9" "u2" "u9"] [] [] [].

(** [u2] likes the pin in Lisbon. *)
Definition likedStore : Store :=
  mkStore threeUsers [] [] [portoPin; lisbonPin] [Like.mk "l1" "p2" "u2"].



(* ===================================================================== *)
(** ** Sequencing and [try]/[catch] of asynchronous programs *)
(* ===================================================================== *)

(** [const x = await p(...); k(x)] for a method [p] of a service. *)
Fixpoint bind {A B : Type} (p : Async A) (k : A -> Async B) : Async B :=
  match p with
  | Return a => k a
  | Throw e => Throw e
  | Await q k' => Await q (fun x => bind (k' x) k)
  end.

(** [try { p } catch (error) { handler(error) }]: an exception thrown by
    [p] itself or by one of its round trips (which then leaves the store
    as it was) is passed to the handler. *)
Fixpoint tryCatch {A : Type} (p : Async A) (handler : Exception -> Async A) : Async A :=
  match p with
  | Return a => Return a
  | Throw e => handler e
  | Await q k =>
      Await (fun st => match q st with
                       | Ok (b, st') => Ok (inl b, st')
                       | Thrown e => Ok (inr e, st)
                       end)
            (fun r => match r with
                      | inl b => tryCatch (k b) handler
                      | inr e => handler e
                      end)
  end.

(* ===================================================================== *)
(** ** The Prisma client: likes and writes to pins *)
(* ===================================================================== *)

Definition with_pins (st : Store) (ps : list Pin.t) : Store :=
  mkStore (users st) (follows st) (followRequests st) ps (likes st).

Definition with_likes (st : Store) (ls : list Like.t) : Store :=
  mkStore (users st) (follows st) (followRequests st) (pins st) ls.

Module prisma_like.
Definition matches (pinId userId : string) (l : Like.t) : bool :=
  bool_decide (Like.pinId l = pinId) && bool_decide (Like.userId l = userId).

Definition pinExists (st : Store) (id : string) : bool :=
  existsb (fun p => bool_decide (Pin.id p = id)) (pins st).

(** [prisma.like.create({ data: { pinId, userId } })]: the unique index
    [likes_pin_id_user_id_key] (P2002), then the foreign keys to [pins]
    and [users] (P2003). *)
Definition create (pinId userId : string) : Query Like.t :=
  fun st =>
    if existsb (matches pinId userId) (likes st) then Thrown P2002
    else if negb (pinExists st pinId && prisma.userExists st userId) then Thrown P2003
    else
      let row := Like.mk (prisma.newId (Like.id <$> likes st)) pinId userId in
      Ok (row, with_likes st (likes st ++ [row])).

(** [prisma.like.delete({ where: { pinId_userId: { pinId, userId } } })]. *)
Definition delete (pinId userId : string) : Query Like.t :=
  fun st =>
    match List.find (matches pinId userId) (likes st) with
    | Some row =>
        Ok (row, with_likes st (List.filter (fun l => negb (matches pinId userId l)) (likes st)))
    | None => Thrown P2025
    end.
End prisma_like.

(** The columns of a pin an update can set, of those the model keeps. *)
Record PinUpdateInput : Type := mkPinUpdate {
  data_isPublic : option bool
}.

Module prisma_pin.
(** [prisma.pin.findUnique({ where: { id } })], without relations. *)
Definition findUnique (id : string) (st : Store) : option Pin.t :=
  List.find (fun p => bool_decide (Pin.id p = id)) (pins st).

(** [prisma.pin.create({ data })] for data without event and media: the
    foreign key to the author (P2003); [is_public] defaults to false and
    [created_at] to the current time [now] of the database. *)
Definition create (authorId : string) (lat lng : float) (isPublic : option bool)
    (now : Z) : Query Pin.t :=
  fun st =>
    if negb (prisma.userExists st authorId) then Thrown P2003
    else
      let row := Pin.mk (prisma.newId (Pin.id <$> pins st)) authorId lat lng
                        (default false isPublic) now in
      Ok (row, with_pins st (pins st ++ [row])).

Definition applyUpdate (data : PinUpdateInput) (p : Pin.t) : Pin.t :=
  Pin.mk (Pin.id p) (Pin.authorId p) (Pin.lat p) (Pin.lng p)
         (default (Pin.isPublic p) (data_isPublic data)) (Pin.createdAt p).

(** [prisma.pin.update({ where: { id }, data })]. *)
Definition update (id : string) (data : PinUpdateInput) : Query Pin.t :=
  fun st =>
    match findUnique id st with
    | Some row =>
        Ok (applyUpdate data row,
            with_pins st ((fun p => if bool_decide (Pin.id p = id)
                                    then applyUpdate data p else p) <$> pins st))
    | None => Thrown P2025
    end.

(** [prisma.pin.delete({ where: { id } })]; the likes of the pin go with
    it ([likes_pin_id_fkey ... ON DELETE CASCADE]). *)
Definition delete (id : string) : Query Pin.t :=
  fun st =>
    match findUnique id st with
    | Some row =>
        Ok (row,
            mkStore (users st) (follows st) (followRequests st)
              (List.filter (fun p => negb (bool_decide (Pin.id p = id))) (pins st))
              (List.filter (fun l => negb (bool_decide (Like.pinId l = id))) (likes st)))
    | None => Thrown P2025
    end.
End prisma_pin.

(* ===================================================================== *)
(** ** [PinService], the methods that write *)
(* ===================================================================== *)

Module PinWrites.

(** [createPin] for a call without [eventId] and [mediaUrls]; [content],
    [moodScale] and [feeling] are columns the model does not keep. *)
Definition createPin (authorId : string) (lat lng : float) (isPublic : option bool)
    (now : Z) : Async Pin.t :=
  pin ← await prisma_pin.create authorId lat lng isPublic now;
  Return pin.

Definition updatePin (pinId userId : string) (data : PinUpdateInput)
    : Async (option Pin.t) :=
  (* Check if user owns the pin *)
  pin ← await read (prisma_pin.findUnique pinId);
  match pin with
  | None => Return None
  | Some pin =>
      if bool_decide (Pin.authorId pin ≠ userId) then Return None
      else
        updatedPin ← await prisma_pin.update pinId data;
        Return (Some updatedPin)
  end.

Definition deletePin (pinId userId : string) : Async bool :=
  (* Check if user owns the pin *)
  pin ← await read (prisma_pin.findUnique pinId);
  match pin with
  | None => Return false
  | Some pin =>
      if bool_decide (Pin.authorId pin ≠ userId) then Return false
      else
        await_ prisma_pin.delete pinId;
        Return true
  end.

Definition likePin (pinId userId : string) : Async (option Like.t) :=
  tryCatch
    (like ← await prisma_like.create pinId userId;
     Return (Some like))
    (fun error =>
       (* If already liked (unique constraint violation) *)
       match error with
       | PrismaClientKnownRequestError code =>
           if bool_decide (code = "P2002") then Return None else Throw error
       | Error _ => Throw error
       end).

Definition unlikePin (pinId userId : string) : Async bool :=
  tryCatch
    (await_ prisma_like.delete pinId userId;
     Return true)
    (fun _ => Return false).

End PinWrites.

(* ===================================================================== *)
(** ** Controllers *)
(* ===================================================================== *)

(** What a handler sends: the JSON body, by shape. *)
Inductive Payload : Type :=
  | ErrorPayload (error : string)
  | MessagePayload (message : string)
  | RequestSentPayload (message : string) (request : FollowRequest.t)
  | FollowedPayload (message : string) (follow : Follow.t)
  | PinPayload (pin : PinView)
  | LikePayload (like : Like.t).

(** A reply: its HTTP status ([reply.send] alone answers 200) and body. *)
Record Reply : Type := mkReply {
  statusCode : nat;
  payload : Payload
}.

Definition internalServerError : Reply :=
  mkReply 500 (ErrorPayload "Internal server error").

(** [error.message === m] for one of the literals of the services. The
    message of an error of the store is the client's report of the failed
    invocation and is none of these literals. *)
Definition messageIs (error : Exception) (m : string) : bool :=
  match error with
  | Error message => bool_decide (message = m)
  | PrismaClientKnownRequestError _ => false
  end.

(** [{ error: error.message }], used where the message is a known literal. *)
Definition errorMessage (error : Exception) : string :=
  match error with
  | Error message => message
  | PrismaClientKnownRequestError code => code
  end.

(** src/controllers/user.controller.ts; [request.log.error] is left out. *)
Module UserController.

Definition followUser (followerId followingId : string) : Async Reply :=
  tryCatch
    (bind (FollowService.followUser followerId followingId) (fun result =>
       match result with
       | RequestResult request =>
           Return (mkReply 201 (RequestSentPayload "Follow request sent" request))
       | FollowingResult follow =>
           Return (mkReply 201 (FollowedPayload "Successfully followed user" follow))
       end))
    (fun error =>
       if messageIs error "Already following this user" ||
          messageIs error "Follow request already pending" ||
          messageIs error "You cannot follow yourself"
       then Return (mkReply 400 (ErrorPayload (errorMessage error)))
       else if messageIs error "User not found"
       then Return (mkReply 404 (ErrorPayload (errorMessage error)))
       else Return internalServerError).

Definition unfollowUser (followerId followingId : string) : Async Reply :=
  tryCatch
    (bind (FollowService.unfollowUser followerId followingId) (fun _ =>
       Return (mkReply 200 (MessagePayload "Successfully unfollowed user"))))
    (fun error =>
       if messageIs error "Not following this user"
       then Return (mkReply 400 (ErrorPayload (errorMessage error)))
       else Return internalServerError).

Definition removeFollower (userId followerId : string) : Async Reply :=
  tryCatch
    (bind (FollowService.removeFollower userId followerId) (fun _ =>
       Return (mkReply 200 (MessagePayload "Successfully removed follower"))))
    (fun error =>
       if messageIs error "User is not following you"
       then Return (mkReply 400 (ErrorPayload (errorMessage error)))
       else Return internalServerError).

Definition cancelFollowRequest (senderId receiverId : string) : Async Reply :=
  tryCatch
    (bind (FollowService.cancelFollowRequest senderId receiverId) (fun _ =>
       Return (mkReply 200 (MessagePayload "Follow request cancelled"))))
    (fun error =>
       if messageIs error "Follow request not found" ||
          messageIs error "Can only cancel pending requests"
       then Return (mkReply 400 (ErrorPayload (errorMessage error)))
       else Return internalServerError).

Definition acceptFollowRequest (receiverId requestId : string) : Async Reply :=
  tryCatch
    (bind (FollowService.acceptFollowRequest receiverId requestId) (fun follow =>
       Return (mkReply 200 (FollowedPayload "Follow request accepted" follow))))
    (fun error =>
       if messageIs error "Follow request not found" ||
          messageIs error "Request is not pending"
       then Return (mkReply 400 (ErrorPayload (errorMessage error)))
       else if messageIs error "Unauthorized"
       then Return (mkReply 403 (ErrorPayload (errorMessage error)))
       else Return internalServerError).

Definition rejectFollowRequest (receiverId requestId : string) : Async Reply :=
  tryCatch
    (bind (FollowService.rejectFollowRequest receiverId requestId) (fun _ =>
       Return (mkReply 200 (MessagePayload "Follow request rejected"))))
    (fun error =>
       if messageIs error "Follow request not found" ||
          messageIs error "Request is not pending"
       then Return (mkReply 400 (ErrorPayload (errorMessage error)))
       else if messageIs error "Unauthorized"
       then Return (mkReply 403 (ErrorPayload (errorMessage error)))
       else Return internalServerError).

End UserController.

(** The pin handlers of src/controllers/auth.controller.ts. *)
Module PinController.

Definition getPin (id : string) (userId : option string) : Async Reply :=
  tryCatch
    (bind (PinService.getPinById id userId) (fun pin =>
       match pin with
       | None =>
           Return (mkReply 404 (ErrorPayload "Pin not found or you don't have access to it"))
       | Some pin => Return (mkReply 200 (PinPayload pin))
       end))
    (fun _ => Return internalServerError).

Definition likePin (id userId : string) : Async Reply :=
  tryCatch
    (bind (PinWrites.likePin id userId) (fun like =>
       match like with
       | None => Return (mkReply 400 (ErrorPayload "Pin already liked"))
       | Some like => Return (mkReply 201 (LikePayload like))
       end))
    (fun _ => Return internalServerError).

Definition unlikePin (id userId : string) : Async Reply :=
  tryCatch
    (bind (PinWrites.unlikePin id userId) (fun success =>
       if success then Return (mkReply 200 (MessagePayload "Pin unliked successfully"))
       else Return (mkReply 404 (ErrorPayload "Like not found"))))
    (fun _ => Return internalServerError).

Definition deletePin (id userId : string) : Async Reply :=
  tryCatch
    (bind (PinWrites.deletePin id userId) (fun success =>
       if success then Return (mkReply 200 (MessagePayload "Pin deleted successfully"))
       else Return (mkReply 404
              (ErrorPayload "Pin not found or you don't have permission to delete it"))))
    (fun _ => Return internalServerError).

End PinController.

(* ===================================================================== *)
(** ** Consistency of requests and edges *)
(* ===================================================================== *)

(** A request row is in order when its receiver is a private user and,
    unless it is ACCEPTED, no edge from its sender to its receiver exists. *)
Definition requestInOrder (st : Store) (r : FollowRequest.t) : Prop :=
  (exists u, prisma.user.findUnique (FollowRequest.receiverId r) st = Some u /\
             User.isPrivate u = true) /\
  (FollowRequest.status r ≠ ACCEPTED ->
   prisma.follow.findUnique (FollowRequest.senderId r) (FollowRequest.receiverId r) st = None).

(** A store is consistent when it satisfies the schema and all its
    request rows are in order. *)
Definition consistent (st : Store) : Prop :=
  schema_ok st /\ Forall (requestInOrder st) (followRequests st).

(** The store after a sequence of operations, run one after the other. *)
Definition performAll (ops : list Operation) (st : Store) : Store :=
  foldl (fun s op => perform op s) st ops.

(** What one operation can do to the store, with what its guards have
    established when it does it. *)
Inductive Effect (st : Store) : Store -> Prop :=
  | NoEffect : Effect st st
  | EdgeAdded (a b : string) (u : User.t) :
      prisma.follow.findUnique a b st = None ->
      prisma.user.findUnique b st = Some u -> User.isPrivate u = false ->
      Effect st (with_follows st
                   (follows st ++ [Follow.mk (prisma.newId (Follow.id <$> follows st)) a b]))
  | RequestAdded (a b : string) (u : User.t) :
      prisma.follow.findUnique a b st = None ->
      prisma.user.findUnique b st = Some u -> User.isPrivate u = true ->
      Effect st (with_followRequests st
                   (followRequests st ++
                      [FollowRequest.mk (prisma.newId (FollowRequest.id <$> followRequests st))
                                        a b PENDING]))
  | RequestRevived (a b : string) (r : FollowRequest.t) :
      prisma.follow.findUnique a b st = None ->
      prisma.followRequest.findUnique a b st = Some r ->
      Effect st (with_followRequests st
                   (prisma.followRequest.markStatus (FollowRequest.id r) PENDING
                      (followRequests st)))
  | RequestAccepted (i : string) (q : FollowRequest.t) :
      prisma.followRequest.findUniqueById i st = Some q ->
      FollowRequest.status q = PENDING ->
      Effect st (accepted st i
                   (Follow.mk (prisma.newId (Follow.id <$> follows st))
                              (FollowRequest.senderId q) (FollowRequest.receiverId q)))
  | RequestRejected (i : string) (q : FollowRequest.t) :
      prisma.followRequest.findUniqueById i st = Some q ->
      FollowRequest.status q = PENDING ->
      Effect st (with_followRequests st
                   (prisma.followRequest.markStatus i REJECTED (followRequests st)))
  | RequestCancelled (i : string) :
      Effect st (with_followRequests st
                   (List.filter (fun r => negb (bool_decide (FollowRequest.id r = i)))
                                (followRequests st)))
  | EdgeRemoved (i : string) :
      Effect st (with_follows st
                   (List.filter (fun f => negb (bool_decide (Follow.id f = i))) (follows st))).

(* ===================================================================== *)
(** ** Lemmas on the store primitives *)
(* ===================================================================== *)

Section ListFacts.
Context {A : Type}.
Implicit Types (f : A -> bool) (l : list A).

Lemma find_none_existsb f l : List.find f l = None -> existsb f l = false.
Proof.
  induction l as [|x l IH]; simpl; [done|].
  destruct (f x); [done|]. exact IH.
Qed.

Lemma find_some_existsb f l x : List.find f l = Some x -> existsb f l = true.
Proof.
  induction l as [|y l IH]; simpl; [done|].
  destruct (f y); [done|]. exact IH.
Qed.

Lemma find_none_filter f l : List.find f l = None -> List.filter f l = [].
Proof.
  induction l as [|x l IH]; simpl; [done|].
  destruct (f x); [done|]. exact IH.
Qed.

Lemma find_app_none f l x : List.find f l = None -> List.find f (l ++ [x]) = (if f x then Some x else None).
Proof.
  induction l as [|y l IH]; simpl; [done|].
  destruct (f y); [done|]. exact IH.
Qed.

Lemma find_some_in f l x : List.find f l = Some x -> x ∈ l /\ f x = true.
Proof.
  induction l as [|y l IH]; simpl; [done|].
  destruct (f y) eqn:E.
  - intros [= ->]. split; [left|done].
  - intros H. destruct (IH H). split; [by right|done].
Qed.

Lemma filter_app_length f l x :
  length (List.filter f (l ++ [x])) = length (List.filter f l) + (if f x then 1 else 0).
Proof.
  rewrite List.filter_app, length_app. simpl. by destruct (f x).
Qed.

End ListFacts.

Lemma follow_matches_self (f : Follow.t) :
  prisma.follow.matches (Follow.followerId f) (Follow.followingId f) f = true.
Proof. unfold prisma.follow.matches. by rewrite !bool_decide_eq_true_2. Qed.

Lemma request_matches_self (r : FollowRequest.t) :
  prisma.followRequest.matches (FollowRequest.senderId r) (FollowRequest.receiverId r) r = true.
Proof. unfold prisma.followRequest.matches. by rewrite !bool_decide_eq_true_2. Qed.

Lemma follow_matches_iff a b (f : Follow.t) :
  prisma.follow.matches a b f = true <-> followKey f = (a, b).
Proof.
  unfold prisma.follow.matches, followKey.
  rewrite andb_true_iff, !bool_decide_eq_true. split; [intros [-> ->]|intros [= -> ->]]; done.
Qed.

Lemma request_matches_iff a b (r : FollowRequest.t) :
  prisma.followRequest.matches a b r = true <-> requestKey r = (a, b).
Proof.
  unfold prisma.followRequest.matches, requestKey.
  rewrite andb_true_iff, !bool_decide_eq_true. split; [intros [-> ->]|intros [= -> ->]]; done.
Qed.

(** Case analysis on the guards of an [if bool_decide ...]. *)
Ltac decide_guards :=
  repeat match goal with
  | |- context [bool_decide ?P] => destruct (bool_decide_reflect P); try congruence; try done
  end.

(** [follow.create] on a pair with no edge, between existing users. *)
Lemma follow_create_ok st a b :
  prisma.follow.findUnique a b st = None ->
  prisma.userExists st a = true -> prisma.userExists st b = true ->
  prisma.follow.create a b st =
    Ok (Follow.mk (prisma.newId (Follow.id <$> follows st)) a b,
        with_follows st (follows st ++ [Follow.mk (prisma.newId (Follow.id <$> follows st)) a b])).
Proof.
  intros Hnone Ha Hb. unfold prisma.follow.create.
  rewrite (find_none_existsb _ _ Hnone), Ha, Hb. reflexivity.
Qed.

Lemma follow_create_dup st a b :
  is_Some (prisma.follow.findUnique a b st) -> prisma.follow.create a b st = Thrown P2002.
Proof.
  intros [f Hf]. unfold prisma.follow.create.
  by rewrite (find_some_existsb _ _ _ Hf).
Qed.

Lemma followRequest_create_ok st a b :
  prisma.followRequest.findUnique a b st = None ->
  prisma.userExists st a = true -> prisma.userExists st b = true ->
  prisma.followRequest.create a b st =
    Ok (FollowRequest.mk (prisma.newId (FollowRequest.id <$> followRequests st)) a b PENDING,
        with_followRequests st
          (followRequests st ++
             [FollowRequest.mk (prisma.newId (FollowRequest.id <$> followRequests st)) a b PENDING])).
Proof.
  intros Hnone Ha Hb. unfold prisma.followRequest.create.
  rewrite (find_none_existsb _ _ Hnone), Ha, Hb. reflexivity.
Qed.

Lemma followRequest_create_dup st a b :
  is_Some (prisma.followRequest.findUnique a b st) ->
  prisma.followRequest.create a b st = Thrown P2002.
Proof.
  intros [f Hf]. unfold prisma.followRequest.create.
  by rewrite (find_some_existsb _ _ _ Hf).
Qed.

Lemma user_findUnique_exists st b u :
  prisma.user.findUnique b st = Some u -> prisma.userExists st b = true.
Proof. intros H. unfold prisma.userExists. rewrite H. by apply bool_decide_eq_true_2. Qed.

(** A generated key is not a key of the table. *)
Lemma newId_fresh (used : list string) : prisma.newId used ∉ used.
Proof. apply infinite_is_fresh. Qed.

(** [markStatus] changes neither the pairs nor the keys of the table. *)
Lemma requestKey_markStatus i s rows :
  requestKey <$> prisma.followRequest.markStatus i s rows = requestKey <$> rows.
Proof.
  unfold prisma.followRequest.markStatus. rewrite <- list_fmap_compose.
  apply list_fmap_ext. intros ? x ?. simpl. by destruct (bool_decide _).
Qed.

Lemma requestId_markStatus i s rows :
  FollowRequest.id <$> prisma.followRequest.markStatus i s rows = FollowRequest.id <$> rows.
Proof.
  unfold prisma.followRequest.markStatus. rewrite <- list_fmap_compose.
  apply list_fmap_ext. intros ? x ?. simpl. by destruct (bool_decide _).
Qed.

Lemma length_markStatus i s rows :
  length (prisma.followRequest.markStatus i s rows) = length rows.
Proof. unfold prisma.followRequest.markStatus. apply length_fmap. Qed.

(** The row found for a pair is found again, with its new status, after
    the row of its key was updated. *)
Lemma findUnique_markStatus st a b r s :
  prisma.followRequest.findUnique a b st = Some r ->
  prisma.followRequest.findUnique a b
    (with_followRequests st (prisma.followRequest.markStatus (FollowRequest.id r) s (followRequests st)))
  = Some (prisma.followRequest.setStatus s r).
Proof.
  unfold prisma.followRequest.findUnique. simpl.
  induction (followRequests st) as [|x l IH]; simpl; [done|].
  destruct (prisma.followRequest.matches a b x) eqn:Hx.
  - intros [= ->]. rewrite bool_decide_eq_true_2 by done.
    change (prisma.followRequest.matches a b (prisma.followRequest.setStatus s r))
      with (prisma.followRequest.matches a b r).
    by rewrite Hx.
  - intros Hr.
    assert (prisma.followRequest.matches a b
              (if bool_decide (FollowRequest.id x = FollowRequest.id r)
               then prisma.followRequest.setStatus s x else x) = false) as ->.
    { by destruct (bool_decide _). }
    by apply IH.
Qed.

(** The row found for a key is found again, with its new status, after
    the update of that key. *)
Lemma findUniqueById_markStatus (rows : list FollowRequest.t) i r s :
  List.find (fun x => bool_decide (FollowRequest.id x = i)) rows = Some r ->
  List.find (fun x => bool_decide (FollowRequest.id x = i))
            (prisma.followRequest.markStatus i s rows)
  = Some (prisma.followRequest.setStatus s r).
Proof.
  induction rows as [|x l IH]; simpl; [done|].
  destruct (bool_decide_reflect (FollowRequest.id x = i)) as [Hx|Hx].
  - intros [= ->]. simpl. by rewrite bool_decide_eq_true_2.
  - intros Hr. rewrite bool_decide_eq_false_2 by done. by apply IH.
Qed.

(** A row of the table is found by its key (some row of that key is). *)
Lemma findUniqueById_in st r :
  r ∈ followRequests st ->
  is_Some (prisma.followRequest.findUniqueById (FollowRequest.id r) st).
Proof.
  intros Hin. unfold prisma.followRequest.findUniqueById.
  destruct (List.find _ _) eqn:Hid; [done|].
  apply find_none_existsb in Hid.
  assert (existsb (fun x => bool_decide (FollowRequest.id x = FollowRequest.id r))
                  (followRequests st) = true) as Hex.
  { apply existsb_exists. exists r. split; [by apply list_elem_of_In|].
    by apply bool_decide_eq_true_2. }
  congruence.
Qed.

(* ===================================================================== *)
(** ** [followUser] *)
(* ===================================================================== *)

Lemma run_read {A B : Type} (f : Store -> B) (k : B -> Async A) (st : Store) :
  run (Await (read f) k) st = run (k (f st)) st.
Proof. reflexivity. Qed.

(** What is left of [followUser] once its three guards have passed, for
    a private and for a public target. *)
Lemma followUser_private st a b u :
  a ≠ b ->
  prisma.follow.findUnique a b st = None ->
  prisma.user.findUnique b st = Some u -> User.isPrivate u = true ->
  run (FollowService.followUser a b) st =
    match prisma.followRequest.findUnique a b st with
    | Some r =>
        match FollowRequest.status r with
        | PENDING => (Thrown RequestAlreadyPendingError, st)
        | REJECTED =>
            match prisma.followRequest.update (FollowRequest.id r) PENDING st with
            | Ok (request, st') => (Ok (RequestResult request), st')
            | Thrown e => (Thrown e, st)
            end
        | ACCEPTED =>
            match prisma.followRequest.create a b st with
            | Ok (request, st') => (Ok (RequestResult request), st')
            | Thrown e => (Thrown e, st)
            end
        end
    | None =>
        match prisma.followRequest.create a b st with
        | Ok (request, st') => (Ok (RequestResult request), st')
        | Thrown e => (Thrown e, st)
        end
    end.
Proof.
  intros Hab Hnone Hu Hpriv. unfold FollowService.followUser.
  rewrite bool_decide_eq_false_2 by done.
  rewrite run_read, Hnone, run_read, Hu, Hpriv, run_read.
  destruct (prisma.followRequest.findUnique a b st) as [r|]; simpl.
  - destruct (FollowRequest.status r); simpl.
    + reflexivity.
    + destruct (prisma.followRequest.create a b st) as [[? ?]|]; reflexivity.
    + destruct (prisma.followRequest.update _ _ st) as [[? ?]|]; reflexivity.
  - destruct (prisma.followRequest.create a b st) as [[? ?]|]; reflexivity.
Qed.

Lemma followUser_public st a b u :
  a ≠ b ->
  prisma.follow.findUnique a b st = None ->
  prisma.user.findUnique b st = Some u -> User.isPrivate u = false ->
  run (FollowService.followUser a b) st =
    match prisma.follow.create a b st with
    | Ok (follow, st') => (Ok (FollowingResult follow), st')
    | Thrown e => (Thrown e, st)
    end.
Proof.
  intros Hab Hnone Hu Hpub. unfold FollowService.followUser.
  rewrite bool_decide_eq_false_2 by done.
  rewrite run_read, Hnone, run_read, Hu, Hpub. simpl.
  destruct (prisma.follow.create a b st) as [[? ?]|]; reflexivity.
Qed.

(** C6. [followUser] checks self-follow first, then an existing edge,
    then the existence of the target: a self-follow fails with
    SelfFollowError whatever the store holds; otherwise an existing edge
    fails with AlreadyFollowingError whether or not the target is still a
    user; only then a missing target fails with TargetNotFoundError. The
    store is left as it was in all three cases. *)
Theorem followUser_guard_order (st : Store) (a t : string) :
  (a = t -> run (FollowService.followUser a t) st = (Thrown SelfFollowError, st)) /\
  (a ≠ t -> is_Some (prisma.follow.findUnique a t st) ->
   run (FollowService.followUser a t) st = (Thrown AlreadyFollowingError, st)) /\
  (a ≠ t -> prisma.follow.findUnique a t st = None ->
   prisma.user.findUnique t st = None ->
   run (FollowService.followUser a t) st = (Thrown TargetNotFoundError, st)).
Proof.
  unfold FollowService.followUser. repeat split.
  - intros ->. by rewrite bool_decide_eq_true_2.
  - intros Hne [f Hf]. rewrite bool_decide_eq_false_2 by done.
    by rewrite run_read, Hf.
  - intros Hne Hf Hu. rewrite bool_decide_eq_false_2 by done.
    by rewrite run_read, Hf, run_read, Hu.
Qed.

(** A rejected request row is set back to PENDING in place. *)
Lemma followUser_resurrects (st : Store) (a b : string) (u : User.t) (r : FollowRequest.t) :
  a ≠ b ->
  prisma.user.findUnique b st = Some u -> User.isPrivate u = true ->
  prisma.follow.findUnique a b st = None ->
  prisma.followRequest.findUnique a b st = Some r ->
  FollowRequest.status r = REJECTED ->
  exists request,
    run (FollowService.followUser a b) st =
      (Ok (RequestResult request),
       with_followRequests st
         (prisma.followRequest.markStatus (FollowRequest.id r) PENDING (followRequests st))) /\
    FollowRequest.id request = FollowRequest.id r /\
    FollowRequest.status request = PENDING.
Proof.
  intros Hab Hu Hpriv Hedge Hr Hs.
  pose proof (followUser_private st a b u Hab Hedge Hu Hpriv) as Hrun.
  rewrite Hr, Hs in Hrun.
  destruct (find_some_in _ _ _ Hr) as [Hin Hm].
  unfold prisma.followRequest.update in Hrun.
  destruct (findUniqueById_in st r Hin) as [r' Hid]. rewrite Hid in Hrun.
  destruct (find_some_in _ _ _ Hid) as [_ Hid'%bool_decide_eq_true].
  eexists. split; [exact Hrun|]. by split.
Qed.

(** What [rejectFollowRequest] does to a pending request of the caller. *)
Lemma rejectFollowRequest_pending (st : Store) (r : FollowRequest.t) :
  prisma.followRequest.findUniqueById (FollowRequest.id r) st = Some r ->
  FollowRequest.status r = PENDING ->
  run (FollowService.rejectFollowRequest (FollowRequest.receiverId r) (FollowRequest.id r)) st =
    (Ok true,
     with_followRequests st
       (prisma.followRequest.markStatus (FollowRequest.id r) REJECTED (followRequests st))).
Proof.
  intros Hid Hs. unfold FollowService.rejectFollowRequest.
  rewrite run_read, Hid.
  rewrite bool_decide_eq_false_2 by (intros H; by apply H).
  rewrite bool_decide_eq_false_2 by (intros H; by apply H).
  simpl. unfold prisma.followRequest.update. by rewrite Hid.
Qed.

(** C5. Following a private user [b] one does not follow yet: with no
    request row for the pair a PENDING row is created and the result has
    type "request"; with a PENDING row the call fails with
    RequestAlreadyPendingError and writes nothing; with a REJECTED row
    that very row (same key) is set back to PENDING and no row is added.
    So when the receiver rejects a pending request and the sender asks
    again, the one row of the pair goes from PENDING to REJECTED and back
    to PENDING, the table keeping its keys and pairs. *)
Theorem followUser_private_target (st : Store) (a b : string) (u : User.t) :
  a ≠ b ->
  prisma.userExists st a = true ->
  prisma.user.findUnique b st = Some u -> User.isPrivate u = true ->
  prisma.follow.findUnique a b st = None ->
  (prisma.followRequest.findUnique a b st = None ->
   exists request,
     run (FollowService.followUser a b) st =
       (Ok (RequestResult request),
        with_followRequests st (followRequests st ++ [request])) /\
     type (RequestResult request) = "request" /\
     (FollowRequest.id request ∉ FollowRequest.id <$> followRequests st) /\
     requestKey request = (a, b) /\ FollowRequest.status request = PENDING) /\
  (forall r, prisma.followRequest.findUnique a b st = Some r ->
   FollowRequest.status r = PENDING ->
   run (FollowService.followUser a b) st = (Thrown RequestAlreadyPendingError, st)) /\
  (forall r, prisma.followRequest.findUnique a b st = Some r ->
   FollowRequest.status r = REJECTED ->
   exists request st',
     run (FollowService.followUser a b) st = (Ok (RequestResult request), st') /\
     type (RequestResult request) = "request" /\
     FollowRequest.id request = FollowRequest.id r /\
     FollowRequest.status request = PENDING /\
     prisma.followRequest.findUnique a b st' = Some (prisma.followRequest.setStatus PENDING r) /\
     requestKey <$> followRequests st' = requestKey <$> followRequests st /\
     FollowRequest.id <$> followRequests st' = FollowRequest.id <$> followRequests st /\
     follows st' = follows st) /\
  (forall r, prisma.followRequest.findUnique a b st = Some r ->
   prisma.followRequest.findUniqueById (FollowRequest.id r) st = Some r ->
   FollowRequest.status r = PENDING ->
   let st1 := commit (FollowService.rejectFollowRequest b (FollowRequest.id r)) st in
   let st2 := commit (FollowService.followUser a b) st1 in
   prisma.followRequest.findUnique a b st1 = Some (prisma.followRequest.setStatus REJECTED r) /\
   prisma.followRequest.findUnique a b st2 = Some r /\
   requestKey <$> followRequests st2 = requestKey <$> followRequests st /\
   FollowRequest.id <$> followRequests st2 = FollowRequest.id <$> followRequests st).
Proof.
  intros Hab Ha Hu Hpriv Hedge.
  pose proof (followUser_private st a b u Hab Hedge Hu Hpriv) as Hrun.
  pose proof (user_findUnique_exists _ _ _ Hu) as Hb.
  split; [|split; [|split]].
  - intros Hreq. rewrite Hreq in Hrun.
    rewrite (followRequest_create_ok st a b Hreq Ha Hb) in Hrun.
    eexists. split; [exact Hrun|]. repeat split. apply newId_fresh.
  - intros r Hr Hs. by rewrite Hr, Hs in Hrun.
  - intros r Hr Hs.
    destruct (followUser_resurrects st a b u r Hab Hu Hpriv Hedge Hr Hs)
      as (request & Hres & Hid & Hst).
    do 2 eexists. split; [exact Hres|]. repeat split; simpl; try done.
    + by apply findUnique_markStatus.
    + apply requestKey_markStatus.
    + apply requestId_markStatus.
  - intros r Hr Hid Hs st1 st2.
    destruct (find_some_in _ _ _ Hr) as [_ Hkey%request_matches_iff].
    assert (FollowRequest.receiverId r = b) as Hrecv by (by injection Hkey).
    assert (st1 = with_followRequests st
              (prisma.followRequest.markStatus (FollowRequest.id r) REJECTED (followRequests st)))
      as Hst1.
    { unfold st1, commit. rewrite <- Hrecv. by rewrite rejectFollowRequest_pending. }
    pose proof (findUnique_markStatus st a b r REJECTED Hr) as Hr1.
    rewrite <- Hst1 in Hr1.
    destruct (followUser_resurrects st1 a b u
                (prisma.followRequest.setStatus REJECTED r) Hab)
      as (request & Hres & _);
      [by rewrite Hst1|done|by rewrite Hst1|exact Hr1|done|].
    change (FollowRequest.id (prisma.followRequest.setStatus REJECTED r))
      with (FollowRequest.id r) in Hres.
    assert (st2 = with_followRequests st1
              (prisma.followRequest.markStatus (FollowRequest.id r) PENDING (followRequests st1)))
      as Hst2.
    { unfold st2, commit. by rewrite Hres. }
    split; [exact Hr1|]. split; [|split].
    + rewrite Hst2.
      pose proof (findUnique_markStatus st1 a b _ PENDING Hr1) as Hr2.
      change (FollowRequest.id (prisma.followRequest.setStatus REJECTED r))
        with (FollowRequest.id r) in Hr2.
      rewrite Hr2.
      f_equal. destruct r as [i s t x]. simpl in Hs. by rewrite Hs.
    + rewrite Hst2, Hst1. simpl. by rewrite !requestKey_markStatus.
    + rewrite Hst2, Hst1. simpl. by rewrite !requestId_markStatus.
Qed.

(** C3, as amended. Following a public user [b] one does not follow yet
    succeeds with a result of type "follow" and appends one edge, after
    which exactly one edge [a -> b] exists; the [follow_requests] table is
    not touched, so a request row of the pair is there afterwards exactly
    when it was there before. *)
Theorem followUser_public_target (st : Store) (a b : string) (u : User.t) :
  a ≠ b ->
  prisma.userExists st a = true ->
  prisma.user.findUnique b st = Some u -> User.isPrivate u = false ->
  prisma.follow.findUnique a b st = None ->
  exists follow st',
    run (FollowService.followUser a b) st = (Ok (FollowingResult follow), st') /\
    type (FollowingResult follow) = "follow" /\
    followKey follow = (a, b) /\
    follows st' = follows st ++ [follow] /\
    edgeCount st' a b = 1 /\
    followRequests st' = followRequests st /\
    requestCount st' a b = requestCount st a b.
Proof.
  intros Hab Ha Hu Hpub Hedge.
  pose proof (followUser_public st a b u Hab Hedge Hu Hpub) as Hrun.
  rewrite (follow_create_ok st a b Hedge Ha (user_findUnique_exists _ _ _ Hu)) in Hrun.
  do 2 eexists. split; [exact Hrun|]. repeat split.
  unfold edgeCount. simpl. rewrite filter_app_length.
  unfold prisma.follow.findUnique in Hedge.
  rewrite (find_none_filter _ _ Hedge). simpl.
  pose proof (follow_matches_self (Follow.mk (prisma.newId (Follow.id <$> follows st)) a b)) as Hm.
  simpl in Hm. by rewrite Hm.
Qed.

(** C3 fails as stated: [u1] is public, [u2] does not follow [u1], and a
    request row of the pair exists; the follow succeeds and the request
    row is still there. *)
Lemma followUser_public_keeps_request_row :
  "u2" ≠ "u1" /\
  prisma.user.findUnique "u1" publicWithRequestStore = Some (User.mk "u1" false) /\
  prisma.follow.findUnique "u2" "u1" publicWithRequestStore = None /\
  run (FollowService.followUser "u2" "u1") publicWithRequestStore =
    (Ok (FollowingResult (Follow.mk "0" "u2" "u1")),
     mkStore threeUsers [Follow.mk "0" "u2" "u1"]
             [FollowRequest.mk "r1" "u2" "u1" REJECTED] [] []) /\
  requestCount (snd (run (FollowService.followUser "u2" "u1") publicWithRequestStore))
               "u2" "u1" = 1.
Proof. repeat split; try done. Qed.

Lemma P2002_not_in_taxonomy : P2002 ∉ taxonomy.
Proof.
  unfold taxonomy. intros H.
  repeat (apply elem_of_cons in H as [H|H]; [discriminate H|]).
  by apply elem_of_nil in H.
Qed.

(** C10. With an ACCEPTED request row of the pair, a private target and
    no edge, [followUser] goes past both the pending and the rejected
    branch to the insert of a new request row; the unique index on
    (sender, receiver) rejects it, the call ends with the store's P2002
    fault, which is none of the named errors, nothing is written, and
    the same holds however often the call is repeated. *)
Theorem followUser_accepted_row_blocks (st : Store) (a b : string)
    (u : User.t) (r : FollowRequest.t) :
  a ≠ b ->
  prisma.user.findUnique b st = Some u -> User.isPrivate u = true ->
  prisma.follow.findUnique a b st = None ->
  prisma.followRequest.findUnique a b st = Some r ->
  FollowRequest.status r = ACCEPTED ->
  run (FollowService.followUser a b) st =
    match prisma.followRequest.create a b st with
    | Ok (request, st') => (Ok (RequestResult request), st')
    | Thrown e => (Thrown e, st)
    end /\
  prisma.followRequest.create a b st = Thrown P2002 /\
  run (FollowService.followUser a b) st = (Thrown P2002, st) /\
  (P2002 ∉ taxonomy) /\
  forall n : nat,
    run (FollowService.followUser a b)
        (Nat.iter n (commit (FollowService.followUser a b)) st) = (Thrown P2002, st).
Proof.
  intros Hab Hu Hpriv Hedge Hr Hs.
  pose proof (followUser_private st a b u Hab Hedge Hu Hpriv) as Hrun.
  rewrite Hr, Hs in Hrun.
  assert (prisma.followRequest.create a b st = Thrown P2002) as Hdup.
  { apply followRequest_create_dup. by rewrite Hr. }
  assert (run (FollowService.followUser a b) st = (Thrown P2002, st)) as Hfail.
  { by rewrite Hrun, Hdup. }
  split; [exact Hrun|]. split; [exact Hdup|]. split; [exact Hfail|].
  split; [exact P2002_not_in_taxonomy|].
  intros n. induction n as [|n IH]; simpl; [exact Hfail|].
  unfold commit at 1. by rewrite IH.
Qed.

(** C4, as amended. When another request has inserted the edge after
    the existing-edge check of [followUser] and before its insert for a
    public target, the insert is rejected by the unique index and the call
    ends with the store's own P2002 fault, passed on as it is; this is not
    AlreadyFollowingError, which only the check at the start raises. *)
Theorem followUser_lost_race (st : Store) (a b : string) (u : User.t)
    (e1 e2 e3 : Store -> Store) :
  a ≠ b ->
  prisma.follow.findUnique a b (e1 st) = None ->
  prisma.user.findUnique b (e2 (e1 st)) = Some u -> User.isPrivate u = false ->
  is_Some (prisma.follow.findUnique a b (e3 (e2 (e1 st)))) ->
  run_interleaved [e1; e2; e3] (FollowService.followUser a b) st =
    (Thrown P2002, e3 (e2 (e1 st))) /\
  P2002 ≠ AlreadyFollowingError.
Proof.
  intros Hab Hedge Hu Hpub Hrace. split; [|done].
  unfold FollowService.followUser.
  rewrite bool_decide_eq_false_2 by done. simpl.
  unfold read at 1. rewrite Hedge. simpl.
  unfold read at 1. rewrite Hu, Hpub. simpl.
  by rewrite (follow_create_dup _ _ _ Hrace).
Qed.

(** C4 fails as stated: two requests of [u2] to follow the public [u1]
    run concurrently; the second commits between the target lookup of the
    first and its insert. The first ends with P2002, not with
    AlreadyFollowingError. *)
Lemma followUser_race_not_translated :
  let winner := commit (FollowService.followUser "u2" "u1") in
  prisma.follow.findUnique "u2" "u1" emptyRelations = None /\
  prisma.follow.findUnique "u2" "u1" (winner emptyRelations) = Some (Follow.mk "0" "u2" "u1") /\
  run_interleaved [id; id; winner] (FollowService.followUser "u2" "u1") emptyRelations =
    (Thrown P2002, winner emptyRelations) /\
  fst (run_interleaved [id; id; winner] (FollowService.followUser "u2" "u1") emptyRelations)
    ≠ Thrown AlreadyFollowingError.
Proof. repeat split; try done. Qed.

(* ===================================================================== *)
(** ** [acceptFollowRequest] *)
(* ===================================================================== *)

(** Closes [schema_ok] on a concrete store by evaluation. *)
Ltac solve_schema_ok :=
  constructor; apply (bool_decide_unpack _); vm_compute; exact I.

Lemma request_fkeys st r :
  schema_ok st -> r ∈ followRequests st ->
  prisma.userExists st (FollowRequest.senderId r) = true /\
  prisma.userExists st (FollowRequest.receiverId r) = true.
Proof.
  intros Hok Hin. pose proof (follow_requests_fkeys st Hok) as Hfk.
  rewrite Forall_forall in Hfk. by apply Hfk.
Qed.

(** The transaction of [acceptFollowRequest] either fails as a whole or
    yields the store with both effects. *)
Lemma accept_transaction st requestId a b :
  match prisma.transaction (prisma.follow.create a b)
                           (prisma.followRequest.update requestId ACCEPTED) st with
  | Thrown _ => True
  | Ok ((edge, _), st') =>
      st' = accepted st requestId edge /\ followKey edge = (a, b) /\
      is_Some (prisma.followRequest.findUniqueById requestId st)
  end.
Proof.
  unfold prisma.transaction, prisma.follow.create.
  destruct (existsb _ _); [done|]. destruct (negb _); [done|].
  unfold prisma.followRequest.update, prisma.followRequest.findUniqueById. simpl.
  destruct (List.find _ (followRequests st)); done.
Qed.

(** C1, as amended. [acceptFollowRequest] fails with
    RequestNotFoundError when no request has the key, else with
    UnauthorizedError when the caller is not its receiver, else with
    NotPendingError when it is not PENDING, and writes nothing in these
    cases. For a PENDING request of the caller, when no edge from the
    sender to the receiver exists yet, one transaction appends the edge
    and marks the request ACCEPTED, after which [isFollowing] answers
    true and the stored status is ACCEPTED; when the edge exists already
    the transaction is rejected as a whole with the store's P2002 fault.
    Whatever other requests do between the two round trips, the store
    the call leaves is either the one it found or the one with both
    effects. *)
Theorem acceptFollowRequest_atomic (st : Store) (receiver requestId : string) :
  schema_ok st ->
  (prisma.followRequest.findUniqueById requestId st = None ->
   run (FollowService.acceptFollowRequest receiver requestId) st =
     (Thrown RequestNotFoundError, st)) /\
  (forall r, prisma.followRequest.findUniqueById requestId st = Some r ->
   FollowRequest.receiverId r ≠ receiver ->
   run (FollowService.acceptFollowRequest receiver requestId) st =
     (Thrown UnauthorizedError, st)) /\
  (forall r, prisma.followRequest.findUniqueById requestId st = Some r ->
   FollowRequest.receiverId r = receiver -> FollowRequest.status r ≠ PENDING ->
   run (FollowService.acceptFollowRequest receiver requestId) st =
     (Thrown NotPendingError, st)) /\
  (forall r, prisma.followRequest.findUniqueById requestId st = Some r ->
   FollowRequest.receiverId r = receiver -> FollowRequest.status r = PENDING ->
   prisma.follow.findUnique (FollowRequest.senderId r) (FollowRequest.receiverId r) st = None ->
   exists edge,
     followKey edge = (FollowRequest.senderId r, FollowRequest.receiverId r) /\
     run (FollowService.acceptFollowRequest receiver requestId) st =
       (Ok edge, accepted st requestId edge) /\
     run (FollowService.isFollowing (FollowRequest.senderId r) (FollowRequest.receiverId r))
         (accepted st requestId edge) = (Ok true, accepted st requestId edge) /\
     FollowRequest.status <$>
       prisma.followRequest.findUniqueById requestId (accepted st requestId edge)
     = Some ACCEPTED) /\
  (forall r, prisma.followRequest.findUniqueById requestId st = Some r ->
   FollowRequest.receiverId r = receiver -> FollowRequest.status r = PENDING ->
   is_Some (prisma.follow.findUnique (FollowRequest.senderId r)
                                     (FollowRequest.receiverId r) st) ->
   run (FollowService.acceptFollowRequest receiver requestId) st = (Thrown P2002, st)) /\
  (forall (e1 e2 : Store -> Store) res st',
   run_interleaved [e1; e2] (FollowService.acceptFollowRequest receiver requestId) st
     = (res, st') ->
   st' = e1 st \/ st' = e2 (e1 st) \/
   exists edge, res = Ok edge /\ st' = accepted (e2 (e1 st)) requestId edge).
Proof.
  intros Hok. unfold FollowService.acceptFollowRequest.
  split; [|split; [|split; [|split; [|split]]]].
  - intros Hnone. by rewrite run_read, Hnone.
  - intros r Hr Hne. rewrite run_read, Hr.
    by rewrite bool_decide_eq_true_2.
  - intros r Hr Heq Hs. rewrite run_read, Hr.
    rewrite bool_decide_eq_false_2 by (intros ?; congruence).
    by rewrite bool_decide_eq_true_2.
  - intros r Hr Heq Hs Hedge. rewrite run_read, Hr.
    rewrite bool_decide_eq_false_2 by (intros ?; congruence).
    rewrite bool_decide_eq_false_2 by (intros ?; congruence).
    destruct (find_some_in _ _ _ Hr) as [Hin _].
    destruct (request_fkeys st r Hok Hin) as [Hs1 Hs2].
    simpl. unfold prisma.transaction.
    rewrite (follow_create_ok st _ _ Hedge Hs1 Hs2).
    set (edge := Follow.mk _ _ _).
    unfold prisma.followRequest.update.
    change (prisma.followRequest.findUniqueById requestId (with_follows st (follows st ++ [edge])))
      with (prisma.followRequest.findUniqueById requestId st).
    rewrite Hr. simpl. exists edge. split; [done|]. split; [done|]. split.
    + unfold prisma.follow.findUnique. simpl.
      unfold prisma.follow.findUnique in Hedge.
      rewrite (find_app_none _ _ edge Hedge).
      pose proof (follow_matches_self edge) as Hm. simpl in Hm. rewrite Hm.
      by rewrite bool_decide_eq_true_2.
    + unfold prisma.followRequest.findUniqueById. simpl.
      by rewrite (findUniqueById_markStatus _ _ _ ACCEPTED Hr).
  - intros r Hr Heq Hs Hedge. rewrite run_read, Hr.
    rewrite bool_decide_eq_false_2 by (intros ?; congruence).
    rewrite bool_decide_eq_false_2 by (intros ?; congruence).
    simpl. unfold prisma.transaction.
    by rewrite (follow_create_dup _ _ _ Hedge).
  - intros e1 e2 res st'. simpl.
    destruct (prisma.followRequest.findUniqueById requestId (e1 st)) as [r|];
      [|intros [= <- <-]; by left].
    destruct (bool_decide _); [intros [= <- <-]; by left|].
    destruct (bool_decide _); [intros [= <- <-]; by left|].
    simpl.
    pose proof (accept_transaction (e2 (e1 st)) requestId
                  (FollowRequest.senderId r) (FollowRequest.receiverId r)) as Htx.
    destruct (prisma.transaction _ _ (e2 (e1 st))) as [[[edge upd] st2]|e].
    + destruct Htx as (-> & _ & _). simpl. intros [= <- <-].
      right; right. by exists edge.
    + intros [= <- <-]. right; by left.
Qed.

(** C1 fails as stated: the request of [u2] to [u3] is PENDING and [u3]
    accepts it, but an edge [u2 -> u3] exists already; the transaction is
    rejected and the request stays PENDING. *)
Lemma acceptFollowRequest_pending_with_edge :
  schema_ok pendingWithEdgeStore /\
  prisma.followRequest.findUniqueById "r1" pendingWithEdgeStore
    = Some (FollowRequest.mk "r1" "u2" "u3" PENDING) /\
  run (FollowService.acceptFollowRequest "u3" "r1") pendingWithEdgeStore
    = (Thrown P2002, pendingWithEdgeStore) /\
  FollowRequest.status <$>
    prisma.followRequest.findUniqueById "r1"
      (snd (run (FollowService.acceptFollowRequest "u3" "r1") pendingWithEdgeStore))
    = Some PENDING.
Proof. split; [solve_schema_ok|]. repeat split. Qed.

(* ===================================================================== *)
(** ** Invariants of the subsystem *)
(* ===================================================================== *)

Section KeyedTables.
Context {A K : Type} (key : A -> K).

Lemma NoDup_key_filter (P : A -> bool) (l : list A) :
  NoDup (key <$> l) -> NoDup (key <$> List.filter P l).
Proof.
  induction l as [|x l IH]; simpl; [done|].
  rewrite NoDup_cons. intros [Hx Hl].
  destruct (P x); simpl; [|by apply IH].
  rewrite NoDup_cons. split; [|by apply IH].
  intros Hin. apply Hx.
  apply list_elem_of_fmap in Hin as (y & -> & Hy). apply list_elem_of_fmap.
  exists y. split; [done|].
  apply list_elem_of_In in Hy. apply List.filter_In in Hy as [Hy _].
  by apply list_elem_of_In.
Qed.

Lemma NoDup_key_snoc (l : list A) (x : A) :
  NoDup (key <$> l) -> key x ∉ key <$> l -> NoDup (key <$> l ++ [x]).
Proof.
  intros Hl Hx. rewrite fmap_app, NoDup_app. split; [done|]. split.
  - intros y Hy Hy'. simpl in Hy'. apply list_elem_of_singleton in Hy'. by subst.
  - apply NoDup_singleton.
Qed.

End KeyedTables.

Lemma follow_key_absent a b (l : list Follow.t) :
  existsb (prisma.follow.matches a b) l = false -> (a, b) ∉ followKey <$> l.
Proof.
  intros Hex Hin. apply list_elem_of_fmap in Hin as (f & Hf & Hin).
  assert (existsb (prisma.follow.matches a b) l = true); [|congruence].
  apply existsb_exists. exists f. split; [by apply list_elem_of_In|].
  by apply follow_matches_iff.
Qed.

Lemma request_key_absent a b (l : list FollowRequest.t) :
  existsb (prisma.followRequest.matches a b) l = false -> (a, b) ∉ requestKey <$> l.
Proof.
  intros Hex Hin. apply list_elem_of_fmap in Hin as (f & Hf & Hin).
  assert (existsb (prisma.followRequest.matches a b) l = true); [|congruence].
  apply existsb_exists. exists f. split; [by apply list_elem_of_In|].
  by apply request_matches_iff.
Qed.

(** With the unique index in force a pair has at most one request row. *)
Lemma request_rows_le_1 (l : list FollowRequest.t) s r :
  NoDup (requestKey <$> l) -> length (List.filter (prisma.followRequest.matches s r) l) <= 1.
Proof.
  induction l as [|x l IH]; simpl; [lia|].
  rewrite NoDup_cons. intros [Hx Hl].
  destruct (prisma.followRequest.matches s r x) eqn:Hm; [|by apply IH].
  apply request_matches_iff in Hm. simpl.
  assert (List.filter (prisma.followRequest.matches s r) l = []) as ->; [|simpl; lia].
  apply find_none_filter.
  destruct (List.find _ l) as [y|] eqn:Hy; [|done].
  destruct (find_some_in _ _ _ Hy) as [Hin Hy'%request_matches_iff].
  exfalso. apply Hx. apply list_elem_of_fmap. exists y. split; [congruence|done].
Qed.

Lemma keeps_refl st : keeps st st.
Proof. unfold keeps. repeat apply conj; auto. Qed.

Lemma keeps_trans st1 st2 st3 : keeps st1 st2 -> keeps st2 st3 -> keeps st1 st3.
Proof.
  intros (Hu & Hp & Hl & Hk & Hs) (Hu' & Hp' & Hl' & Hk' & Hs').
  unfold keeps. repeat apply conj; try congruence; auto.
Qed.

(** A program all of whose round trips go along a preorder goes along it. *)
Lemma run_steps_along {A : Type} (R : Store -> Store -> Prop) (p : Async A) :
  (forall st, R st st) -> (forall x y z, R x y -> R y z -> R x z) ->
  all_queries (steps_along R) p -> forall st, R st (snd (run p st)).
Proof.
  intros Hrefl Htrans. induction p as [a|e|B q k IH]; simpl; intros Hall st.
  - apply Hrefl.
  - apply Hrefl.
  - destruct Hall as [Hq Hk]. destruct (q st) as [[b st']|e] eqn:Hqst.
    + eapply Htrans; [by eapply Hq|]. by apply IH.
    + apply Hrefl.
Qed.

Lemma read_keeps {B : Type} (f : Store -> B) : steps_along keeps B (read f).
Proof. intros st b st' [= _ <-]. apply keeps_refl. Qed.

Lemma userExists_frame st st' x :
  users st' = users st -> prisma.userExists st' x = prisma.userExists st x.
Proof. intros H. unfold prisma.userExists, prisma.user.findUnique. by rewrite H. Qed.

Lemma follow_create_keeps a b : steps_along keeps _ (prisma.follow.create a b).
Proof.
  intros st row st'. unfold prisma.follow.create.
  destruct (existsb _ _) eqn:Hex; [done|].
  destruct (negb _) eqn:Hfk; [done|]. intros [= <- <-].
  apply negb_false_iff, andb_true_iff in Hfk as [Ha Hb].
  unfold keeps; repeat apply conj; try done.
  intros [H1 H2 H3 H4 H5 H6 H7]. constructor; simpl; try done.
  - apply (NoDup_key_snoc Follow.id); [done|]. apply newId_fresh.
  - apply (NoDup_key_snoc followKey); [done|]. by apply follow_key_absent.
  - apply Forall_app. split; [done|]. by repeat constructor.
Qed.

Lemma follow_delete_keeps i : steps_along keeps _ (prisma.follow.delete i).
Proof.
  intros st row st'. unfold prisma.follow.delete.
  destruct (List.find _ _); [|done]. intros [= _ <-].
  unfold keeps; repeat apply conj; try done.
  intros [H1 H2 H3 H4 H5 H6 H7]. constructor; simpl; try done.
  - by apply NoDup_key_filter.
  - by apply NoDup_key_filter.
  - rewrite Forall_forall in H4 |- *. intros f Hf. apply H4.
    apply list_elem_of_In in Hf. apply List.filter_In in Hf as [Hf _].
    by apply list_elem_of_In.
Qed.

Lemma followRequest_create_keeps a b : steps_along keeps _ (prisma.followRequest.create a b).
Proof.
  intros st row st'. unfold prisma.followRequest.create.
  destruct (existsb _ _) eqn:Hex; [done|].
  destruct (negb _) eqn:Hfk; [done|]. intros [= <- <-].
  apply negb_false_iff, andb_true_iff in Hfk as [Ha Hb].
  unfold keeps; repeat apply conj; try done.
  - simpl. intros Hk. apply (NoDup_key_snoc requestKey); [done|].
    by apply request_key_absent.
  - intros [H1 H2 H3 H4 H5 H6 H7]. constructor; simpl; try done.
    + apply (NoDup_key_snoc FollowRequest.id); [done|]. apply newId_fresh.
    + apply (NoDup_key_snoc requestKey); [done|]. by apply request_key_absent.
    + apply Forall_app. split; [done|]. by repeat constructor.
Qed.

Lemma followRequest_update_keeps i s : steps_along keeps _ (prisma.followRequest.update i s).
Proof.
  intros st row st'. unfold prisma.followRequest.update.
  destruct (prisma.followRequest.findUniqueById _ _); [|done]. intros [= _ <-].
  unfold keeps; repeat apply conj; try done.
  - simpl. by rewrite requestKey_markStatus.
  - intros [H1 H2 H3 H4 H5 H6 H7]. constructor; simpl; try done.
    + by rewrite requestId_markStatus.
    + by rewrite requestKey_markStatus.
    + unfold prisma.followRequest.markStatus. apply Forall_fmap.
      eapply Forall_impl; [exact H7|]. intros x Hx. simpl.
      by destruct (bool_decide _).
Qed.

Lemma followRequest_delete_keeps i : steps_along keeps _ (prisma.followRequest.delete i).
Proof.
  intros st row st'. unfold prisma.followRequest.delete.
  destruct (prisma.followRequest.findUniqueById _ _); [|done]. intros [= _ <-].
  unfold keeps; repeat apply conj; try done.
  - simpl. by apply NoDup_key_filter.
  - intros [H1 H2 H3 H4 H5 H6 H7]. constructor; simpl; try done.
    + by apply NoDup_key_filter.
    + by apply NoDup_key_filter.
    + rewrite Forall_forall in H7 |- *. intros f Hf. apply H7.
      apply list_elem_of_In in Hf. apply List.filter_In in Hf as [Hf _].
      by apply list_elem_of_In.
Qed.

Lemma transaction_keeps {A B : Type} (q1 : Query A) (q2 : Query B) :
  steps_along keeps _ q1 -> steps_along keeps _ q2 ->
  steps_along keeps _ (prisma.transaction q1 q2).
Proof.
  intros H1 H2 st [a b] st'. unfold prisma.transaction.
  destruct (q1 st) as [[a' st1]|] eqn:Hq1; [|done].
  destruct (q2 st1) as [[b' st2]|] eqn:Hq2; [|done].
  intros [= _ _ <-]. eapply keeps_trans; [by eapply H1|by eapply H2].
Qed.

Create HintDb keeps discriminated.
#[local] Hint Resolve read_keeps follow_create_keeps follow_delete_keeps
  followRequest_create_keeps followRequest_update_keeps followRequest_delete_keeps
  transaction_keeps : keeps.

(** Every round trip of every operation keeps the invariants. *)
Lemma operations_keep (op : Operation) (st : Store) : keeps st (perform op st).
Proof.
  assert (forall A (p : Async A), all_queries (steps_along keeps) p ->
                                  keeps st (commit p st)) as Hrun.
  { intros A p Hp. unfold commit.
    apply (run_steps_along keeps); eauto using keeps_refl, keeps_trans. }
  destruct op; simpl; apply Hrun.
  - unfold FollowService.followUser.
    destruct (bool_decide _); simpl; [done|]. split; [auto with keeps|].
    intros [?|]; simpl; [done|]. split; [auto with keeps|].
    intros [u|]; simpl; [|done]. destruct (User.isPrivate u); simpl.
    + split; [auto with keeps|]. intros [r|]; simpl.
      * destruct (bool_decide _); simpl; [done|].
        destruct (bool_decide _); simpl; (split; [auto with keeps|done]).
      * split; [auto with keeps|done].
    + split; [auto with keeps|done].
  - unfold FollowService.acceptFollowRequest. simpl. split; [auto with keeps|].
    intros [r|]; simpl; [|done].
    destruct (bool_decide _); simpl; [done|].
    destruct (bool_decide _); simpl; [done|].
    split; [auto with keeps|done].
  - unfold FollowService.rejectFollowRequest. simpl. split; [auto with keeps|].
    intros [r|]; simpl; [|done].
    destruct (bool_decide _); simpl; [done|].
    destruct (bool_decide _); simpl; [done|].
    split; [auto with keeps|done].
  - unfold FollowService.cancelFollowRequest. simpl. split; [auto with keeps|].
    intros [r|]; simpl; [|done].
    destruct (bool_decide _); simpl; [done|].
    split; [auto with keeps|done].
  - unfold FollowService.unfollowUser. simpl. split; [auto with keeps|].
    intros [r|]; simpl; [|done]. split; [auto with keeps|done].
  - unfold FollowService.removeFollower. simpl. split; [auto with keeps|].
    intros [r|]; simpl; [|done]. split; [auto with keeps|done].
Qed.

(** The constraints of the schema are an invariant of the subsystem. *)
Lemma operations_keep_schema (ops : list Operation) (st : Store) :
  schema_ok st -> schema_ok (foldl (fun s op => perform op s) st ops).
Proof.
  revert st. induction ops as [|op ops IH]; simpl; intros st Hok; [done|].
  apply IH. by apply (operations_keep op st).
Qed.

(** C7. Every operation of the subsystem keeps the unique index on the
    (sender, receiver) pairs of [follow_requests]: a pair has at most one
    request row before and after. The operations write to no table other
    than [follows] and [follow_requests], and the status read back for a
    pair is the status field of that one row. *)
Theorem follow_requests_unique_invariant (op : Operation) (st : Store) :
  NoDup (requestKey <$> followRequests st) ->
  NoDup (requestKey <$> followRequests (perform op st)) /\
  (forall s r, requestCount (perform op st) s r <= 1) /\
  (users (perform op st) = users st /\ pins (perform op st) = pins st /\
   likes (perform op st) = likes st) /\
  (forall s r x,
   run (FollowService.getFollowRequestStatus s r) (perform op st)
     = (Ok (Some x), perform op st) <->
   exists row, row ∈ followRequests (perform op st) /\
               requestKey row = (s, r) /\ FollowRequest.status row = x).
Proof.
  intros Hk. destruct (operations_keep op st) as (Hu & Hp & Hl & Hk' & _).
  specialize (Hk' Hk). split; [done|]. split; [|split; [done|]].
  - intros s r. by apply request_rows_le_1.
  - intros s r x. unfold FollowService.getFollowRequestStatus.
    rewrite run_read. simpl. unfold prisma.followRequest.findUnique.
    generalize dependent (followRequests (perform op st)). clear.
    intros l Hl. split.
    + destruct (List.find _ l) as [row|] eqn:Hrow; simpl; [|done].
      intros [= <-]. destruct (find_some_in _ _ _ Hrow) as [Hin Hm].
      exists row. by rewrite <- request_matches_iff.
    + intros (row & Hin & Hkey & <-). apply request_matches_iff in Hkey.
      induction l as [|y l IH]; [by apply elem_of_nil in Hin|].
      simpl in *. apply NoDup_cons in Hl as [Hy Hl].
      apply elem_of_cons in Hin as [<-|Hin]; [by rewrite Hkey|].
      destruct (prisma.followRequest.matches s r y) eqn:Hym; [|by apply IH].
      exfalso. apply Hy. apply list_elem_of_fmap. exists row. split; [|done].
      apply request_matches_iff in Hym, Hkey. congruence.
Qed.

(* ===================================================================== *)
(** ** [getPinById] and [getPins] *)
(* ===================================================================== *)

(** C2. For a pin [P] of the store and a viewer [v] (absent, or a
    non-empty user key), [getPinById] hands out the pin exactly when the
    pin is public, or [v] is its author, or [v] follows its author, and
    null otherwise. An absent viewer never gets a pin that is not public,
    and the [users] table, hence the author's privacy flag, has no
    influence on the answer. *)
Theorem getPinById_visibility (st : Store) (pinId : string)
    (v : option string) (P : Pin.t) :
  v ≠ Some "" ->
  List.find (fun p => bool_decide (Pin.id p = pinId)) (pins st) = Some P ->
  (visibleTo st v P ->
   exists liked, run (PinService.getPinById pinId v) st = (Ok (Some (mkPinView P liked)), st)) /\
  (~ visibleTo st v P -> run (PinService.getPinById pinId v) st = (Ok None, st)) /\
  (v = None -> Pin.isPublic P = false ->
   run (PinService.getPinById pinId v) st = (Ok None, st)) /\
  (forall us, fst (run (PinService.getPinById pinId v) (with_users st us))
              = fst (run (PinService.getPinById pinId v) st)).
Proof.
  intros Hv HP.
  assert (forall s, pins s = pins st -> follows s = follows st ->
    run (PinService.getPinById pinId v) s =
      if Pin.isPublic P then
        (Ok (Some (PinService.withLikeStatus v (prisma.pin.includeLikes v s P))), s)
      else if bool_decide (v = Some (Pin.authorId P)) then
        (Ok (Some (PinService.withLikeStatus v (prisma.pin.includeLikes v s P))), s)
      else match v with
           | Some u =>
               if prisma.follow.findUnique u (Pin.authorId P) st is Some _ then
                 (Ok (Some (PinService.withLikeStatus v (prisma.pin.includeLikes v s P))), s)
               else (Ok None, s)
           | None => (Ok None, s)
           end) as Hrun.
  { intros s Hp Hf. unfold PinService.getPinById.
    rewrite run_read. unfold prisma.pin.findUnique. rewrite Hp, HP. simpl.
    destruct (Pin.isPublic P); simpl; [done|].
    destruct (bool_decide_reflect (v = Some (Pin.authorId P))) as [->|Hne].
    - by rewrite bool_decide_eq_false_2 by (intros H; by apply H).
    - rewrite bool_decide_eq_true_2 by done.
      destruct v as [u|]; [|done].
      assert (u ≠ "") as Hu by (intros ->; by apply Hv).
      unfold truthy. rewrite bool_decide_eq_true_2 by done.
      rewrite run_read. unfold prisma.follow.findUnique. rewrite Hf.
      by destruct (List.find _ (follows st)). }
  split; [|split; [|split]].
  - intros Hvis. rewrite (Hrun st eq_refl eq_refl).
    destruct (Pin.isPublic P) eqn:Hpub; [by eexists|].
    destruct (bool_decide_reflect (v = Some (Pin.authorId P))) as [->|Hne]; [by eexists|].
    destruct Hvis as [?|[?|(u & -> & [f Hf])]]; [congruence|done|].
    rewrite Hf. by eexists.
  - intros Hvis. rewrite (Hrun st eq_refl eq_refl).
    destruct (Pin.isPublic P) eqn:Hpub; [exfalso; apply Hvis; by left|].
    destruct (bool_decide_reflect (v = Some (Pin.authorId P))) as [->|Hne];
      [exfalso; apply Hvis; right; by left|].
    destruct v as [u|]; [|done].
    destruct (prisma.follow.findUnique u (Pin.authorId P) st) as [f|] eqn:Hf; [|done].
    exfalso; apply Hvis. right; right. exists u. by rewrite Hf.
  - intros -> Hpub. rewrite (Hrun st eq_refl eq_refl), Hpub. done.
  - intros us. rewrite (Hrun st eq_refl eq_refl), (Hrun (with_users st us) eq_refl eq_refl).
    destruct (Pin.isPublic P); [done|].
    destruct (bool_decide _); [done|].
    destruct v as [u|]; [|done].
    by destruct (prisma.follow.findUnique u (Pin.authorId P) st).
Qed.

Section WithMath.
Context {M : MathLib}.

(** What [listPins] computes: one page query, the in-memory filter, one
    count; the store is only read. *)
Lemma listPins_run (p : GetPinsParams) (a : option string) (st : Store) :
  run (PinService.listPins p (mkWhere a None)) st =
    (Ok (mkPinList
           (PinService.withLikeStatus (requestingUserId p) <$>
              PinService.filterByLocation p
                (prisma.pin.findMany (mkWhere a (isPublic p)) (requestingUserId p)
                   (default 50 (limit p)) (default 0 (offset p)) st))
           (prisma.pin.count (mkWhere a (isPublic p)) st)), st).
Proof.
  unfold PinService.listPins. rewrite run_read, run_read. simpl.
  by destruct (isPublic p).
Qed.

(** [getPins] is the author gate followed by the listing. *)
Lemma getPins_run (p : GetPinsParams) (st : Store) :
  run (PinService.getPins p) st =
    if authorGateBlocks p st then (Ok (mkPinList [] 0), st)
    else
      (Ok (mkPinList
             (PinService.withLikeStatus (requestingUserId p) <$>
                PinService.filterByLocation p (retrievedPage p st))
             (prisma.pin.count (wherePins p) st)), st).
Proof.
  unfold PinService.getPins, authorGateBlocks, retrievedPage, wherePins.
  destruct (authorId p) as [a|]; [|apply listPins_run].
  destruct (truthy (Some a)); [|apply listPins_run].
  destruct (bool_decide (requestingUserId p ≠ Some a)); [|apply listPins_run].
  rewrite run_read.
  destruct (prisma.user.findUnique a st) as [author|]; [|apply listPins_run].
  destruct (User.isPrivate author); [|apply listPins_run].
  destruct (requestingUserId p) as [r|] eqn:Hr; [|done].
  destruct (truthy (Some r)); [|done]. rewrite run_read.
  destruct (prisma.follow.findUnique r a st) as [f|]; [|done].
  rewrite bool_decide_eq_true_2 by done.
  rewrite listPins_run. by rewrite Hr.
Qed.

Lemma insertDesc_perm (q : Pin.t) (l : list Pin.t) : insertDesc q l ≡ₚ q :: l.
Proof.
  induction l as [|x l IH]; simpl; [done|].
  destruct (_ <=? _)%Z; [done|]. rewrite IH. apply Permutation_swap.
Qed.

Lemma orderByCreatedAtDesc_perm (l : list Pin.t) : orderByCreatedAtDesc l ≡ₚ l.
Proof.
  induction l as [|x l IH]; simpl; [done|].
  rewrite insertDesc_perm. by rewrite IH.
Qed.

(** A row of a page satisfies the [where] clause of the query. *)
Lemma findMany_satisfies w req take skip st (x : PinWithLikes) :
  x ∈ prisma.pin.findMany w req take skip st -> satisfies w (row x) = true.
Proof.
  unfold prisma.pin.findMany. intros Hx.
  apply list_elem_of_fmap in Hx as (q & -> & Hq). simpl.
  apply subseteq_take, subseteq_drop in Hq.
  rewrite orderByCreatedAtDesc_perm in Hq.
  apply list_elem_of_In, List.filter_In in Hq. tauto.
Qed.

Lemma length_findMany w req take skip st :
  length (prisma.pin.findMany w req take skip st) <= take.
Proof.
  unfold prisma.pin.findMany. rewrite length_fmap. apply firstn_le_length.
Qed.

Lemma filterByLocation_inRange (p : GetPinsParams) (l : list PinWithLikes) :
  PinService.filterByLocation p l = List.filter (fun x => inRange p (row x)) l.
Proof.
  unfold PinService.filterByLocation, inRange.
  destruct (lat p), (lng p), (radius p); try done;
    induction l as [|x l IH]; simpl; congruence.
Qed.

Lemma row_filter_includeLikes (f : Pin.t -> bool) req st (l : list Pin.t) :
  row <$> List.filter (fun x => f (row x)) (prisma.pin.includeLikes req st <$> l)
  = List.filter f l.
Proof.
  induction l as [|q l IH]; [done|].
  rewrite fmap_cons. simpl. destruct (f q); [rewrite fmap_cons; simpl|];
    by rewrite IH.
Qed.

Lemma pin_withLikeStatus req (l : list PinWithLikes) :
  pin <$> (PinService.withLikeStatus req <$> l) = row <$> l.
Proof. rewrite <- list_fmap_compose. by apply list_fmap_ext. Qed.

Lemma length_filter_le {A : Type} (f : A -> bool) (l : list A) :
  length (List.filter f l) <= length l.
Proof. induction l as [|x l IH]; simpl; [lia|]. destruct (f x); simpl; lia. Qed.

(** C8. A listing by author: when the author is private and the
    requester is not the author and has no edge to the author (an absent
    requester has none), the result is empty with total 0. When the
    [isPublic] parameter is supplied, every pin returned has that value
    of the flag. Beyond that gate the listing applies no visibility rule
    per pin: it returns the page of all pins of the author that match the
    supplied [isPublic], only restricted by the location filter. *)
Theorem getPins_author_gate (p : GetPinsParams) (st : Store) (a : string) :
  authorId p = Some a -> a ≠ "" ->
  (forall author,
   prisma.user.findUnique a st = Some author -> User.isPrivate author = true ->
   requestingUserId p ≠ Some a ->
   (forall r, requestingUserId p = Some r -> prisma.follow.findUnique r a st = None) ->
   run (PinService.getPins p) st = (Ok (mkPinList [] 0), st)) /\
  (forall b res st', isPublic p = Some b ->
   run (PinService.getPins p) st = (Ok res, st') ->
   forall view, view ∈ pinViews res -> Pin.isPublic (pin view) = b) /\
  (authorGateBlocks p st = false ->
   exists res,
     run (PinService.getPins p) st = (Ok res, st) /\
     pin <$> pinViews res =
       List.filter (inRange p)
         (firstn (default 50 (limit p)) (skipn (default 0 (offset p))
            (orderByCreatedAtDesc
               (List.filter
                  (fun q => bool_decide (Pin.authorId q = a) &&
                            (if isPublic p is Some b
                             then bool_decide (Pin.isPublic q = b) else true))
                  (pins st)))))).
Proof.
  intros Ha Hne.
  assert (truthy (authorId p) = true) as Htr.
  { rewrite Ha. simpl. by apply bool_decide_eq_true_2. }
  split; [|split].
  - intros author Hau Hpriv Hreq Hnofollow. rewrite getPins_run.
    unfold authorGateBlocks. rewrite Ha, <- Ha, Htr, Ha, Hau, Hpriv.
    rewrite bool_decide_eq_true_2 by done. simpl.
    destruct (requestingUserId p) as [r|]; [|done].
    rewrite (Hnofollow r eq_refl).
    rewrite bool_decide_eq_false_2 by (by intros [? ?]).
    by rewrite andb_false_r.
  - intros b res st' Hb. rewrite getPins_run.
    destruct (authorGateBlocks p st).
    + intros [= <- _] view Hview. by apply elem_of_nil in Hview.
    + intros [= <- _] view Hview. simpl in Hview.
      apply list_elem_of_fmap in Hview as (x & -> & Hx). simpl.
      rewrite filterByLocation_inRange in Hx.
      apply list_elem_of_In, List.filter_In in Hx as [Hx _].
      apply list_elem_of_In, findMany_satisfies in Hx.
      unfold satisfies, wherePins in Hx. simpl in Hx. rewrite Hb in Hx.
      apply andb_true_iff in Hx as [_ Hx]. by apply bool_decide_eq_true in Hx.
  - intros Hopen. rewrite getPins_run, Hopen. eexists. split; [done|]. simpl.
    rewrite pin_withLikeStatus, filterByLocation_inRange.
    unfold retrievedPage, prisma.pin.findMany.
    rewrite row_filter_includeLikes.
    unfold wherePins, satisfies. rewrite Htr, Ha. simpl. done.
Qed.

(** C9. With [lat], [lng] and [radius] all supplied (and the listing
    not ended by the author gate) the store is asked for the same page of
    at most [limit] rows as without them, and the list returned consists
    of exactly those rows of that page whose distance from ([lat],
    [lng]) is at most [radius], in the order of the page; it can
    therefore be shorter than the page. The total returned is the count
    of the rows matching the [where] clause, whatever their distance. The
    distance is 6371 times the angle 2 atan2(sqrt a, sqrt (1 - a)) of the
    haversine term [a]. *)
Theorem getPins_distance_filter (p : GetPinsParams) (st : Store) (la lo rad : float) :
  lat p = Some la -> lng p = Some lo -> radius p = Some rad ->
  authorGateBlocks p st = false ->
  run (PinService.getPins (withoutLocation p)) st =
    (Ok (mkPinList (PinService.withLikeStatus (requestingUserId p) <$> retrievedPage p st)
                   (prisma.pin.count (wherePins p) st)), st) /\
  run (PinService.getPins p) st =
    (Ok (mkPinList
           (PinService.withLikeStatus (requestingUserId p) <$>
              List.filter
                (fun x => (PinService.calculateDistance la lo (Pin.lat (row x)) (Pin.lng (row x))
                           <=? rad)%float)
                (retrievedPage p st))
           (prisma.pin.count (wherePins p) st)), st) /\
  length (retrievedPage p st) <= default 50 (limit p) /\
  (forall res st', run (PinService.getPins p) st = (Ok res, st') ->
   length (pinViews res) <= length (retrievedPage p st)) /\
  (forall lat1 lon1 lat2 lon2,
   PinService.calculateDistance lat1 lon1 lat2 lon2 =
     (6371 * (2 * Math_atan2 (Math_sqrt (haversineTerm lat1 lon1 lat2 lon2))
                             (Math_sqrt (1 - haversineTerm lat1 lon1 lat2 lon2))))%float).
Proof.
  intros Hla Hlo Hrad Hopen.
  assert (run (PinService.getPins p) st =
    (Ok (mkPinList
           (PinService.withLikeStatus (requestingUserId p) <$>
              List.filter
                (fun x => (PinService.calculateDistance la lo (Pin.lat (row x)) (Pin.lng (row x))
                           <=? rad)%float)
                (retrievedPage p st))
           (prisma.pin.count (wherePins p) st)), st)) as Hrun.
  { rewrite getPins_run, Hopen. unfold PinService.filterByLocation.
    by rewrite Hla, Hlo, Hrad. }
  split; [|split; [exact Hrun|split; [|split]]].
  - rewrite getPins_run.
    change (authorGateBlocks (withoutLocation p) st) with (authorGateBlocks p st).
    by rewrite Hopen.
  - apply length_findMany.
  - intros res st'. rewrite Hrun. intros [= <- _]. simpl.
    rewrite length_fmap. apply length_filter_le.
  - reflexivity.
Qed.

End WithMath.

(* ===================================================================== *)
(** ** The statements at concrete stores *)
(* ===================================================================== *)

(** The guard order on three calls: a self-follow of an unknown user, an
    edge to a user that is gone, and an unknown target. *)
Lemma followUser_guard_order_witness :
  run (FollowService.followUser "u9" "u9") emptyRelations
    = (Thrown SelfFollowError, emptyRelations) /\
  run (FollowService.followUser "u2" "u9") danglingEdgeStore
    = (Thrown AlreadyFollowingError, danglingEdgeStore) /\
  run (FollowService.followUser "u2" "u9") emptyRelations
    = (Thrown TargetNotFoundError, emptyRelations).
Proof.
  split; [|split].
  - destruct (followUser_guard_order emptyRelations "u9" "u9") as (H & _ & _).
    apply H. reflexivity.
  - destruct (followUser_guard_order danglingEdgeStore "u2" "u9") as (_ & H & _).
    apply H; [discriminate|]. vm_compute. eexists. reflexivity.
  - destruct (followUser_guard_order emptyRelations "u2" "u9") as (_ & _ & H).
    apply H; [discriminate|reflexivity|reflexivity].
Defined.

(** [u2] asks to follow the private [u3]: with no request row, with a
    pending one, with a rejected one, and after [u3] rejected the
    pending one. *)
Lemma followUser_private_target_witness :
  (exists request,
     run (FollowService.followUser "u2" "u3") emptyRelations =
       (Ok (RequestResult request),
        with_followRequests emptyRelations (followRequests emptyRelations ++ [request])) /\
     type (RequestResult request) = "request" /\
     (FollowRequest.id request ∉ FollowRequest.id <$> followRequests emptyRelations) /\
     requestKey request = ("u2", "u3") /\ FollowRequest.status request = PENDING) /\
  run (FollowService.followUser "u2" "u3") pendingStore
    = (Thrown RequestAlreadyPendingError, pendingStore) /\
  (exists request st',
     run (FollowService.followUser "u2" "u3") rejectedStore = (Ok (RequestResult request), st') /\
     FollowRequest.id request = "r1" /\ FollowRequest.status request = PENDING /\
     length (followRequests st') = 1) /\
  prisma.followRequest.findUnique "u2" "u3"
    (commit (FollowService.followUser "u2" "u3")
       (commit (FollowService.rejectFollowRequest "u3" "r1") pendingStore))
  = Some (FollowRequest.mk "r1" "u2" "u3" PENDING).
Proof.
  split; [|split; [|split]].
  - destruct (followUser_private_target emptyRelations "u2" "u3" (User.mk "u3" true)
                ltac:(discriminate) eq_refl eq_refl eq_refl eq_refl) as (H & _ & _ & _).
    apply H. reflexivity.
  - destruct (followUser_private_target pendingStore "u2" "u3" (User.mk "u3" true)
                ltac:(discriminate) eq_refl eq_refl eq_refl eq_refl) as (_ & H & _ & _).
    apply (H (FollowRequest.mk "r1" "u2" "u3" PENDING)); reflexivity.
  - destruct (followUser_private_target rejectedStore "u2" "u3" (User.mk "u3" true)
                ltac:(discriminate) eq_refl eq_refl eq_refl eq_refl) as (_ & _ & H & _).
    destruct (H (FollowRequest.mk "r1" "u2" "u3" REJECTED) eq_refl eq_refl)
      as (request & st' & Hrun & _ & Hid & Hst & _ & _ & Hids & _).
    exists request, st'. repeat split; try assumption.
    rewrite <- (length_fmap FollowRequest.id), Hids. reflexivity.
  - destruct (followUser_private_target pendingStore "u2" "u3" (User.mk "u3" true)
                ltac:(discriminate) eq_refl eq_refl eq_refl eq_refl) as (_ & _ & _ & H).
    destruct (H (FollowRequest.mk "r1" "u2" "u3" PENDING) eq_refl eq_refl eq_refl)
      as (_ & H2 & _).
    exact H2.
Defined.

(** [u2] follows the public [u1]. *)
Lemma followUser_public_target_witness :
  exists follow st',
    run (FollowService.followUser "u2" "u1") emptyRelations
      = (Ok (FollowingResult follow), st') /\
    type (FollowingResult follow) = "follow" /\
    followKey follow = ("u2", "u1") /\
    follows st' = follows emptyRelations ++ [follow] /\
    edgeCount st' "u2" "u1" = 1 /\
    followRequests st' = followRequests emptyRelations /\
    requestCount st' "u2" "u1" = requestCount emptyRelations "u2" "u1".
Proof.
  apply (followUser_public_target emptyRelations "u2" "u1" (User.mk "u1" false));
    try reflexivity. discriminate.
Defined.

(** Two concurrent follows of the public [u1] by [u2]. *)
Lemma followUser_lost_race_witness :
  run_interleaved [id; id; commit (FollowService.followUser "u2" "u1")]
                  (FollowService.followUser "u2" "u1") emptyRelations =
    (Thrown P2002, commit (FollowService.followUser "u2" "u1") emptyRelations) /\
  P2002 ≠ AlreadyFollowingError.
Proof.
  apply (followUser_lost_race emptyRelations "u2" "u1" (User.mk "u1" false)
           id id (commit (FollowService.followUser "u2" "u1")));
    try reflexivity; [discriminate|].
  vm_compute. eexists. reflexivity.
Defined.

(** [u2] tries to follow [u3] again after accept and unfollow. *)
Lemma followUser_accepted_row_blocks_witness :
  run (FollowService.followUser "u2" "u3") acceptedThenUnfollowedStore
    = (Thrown P2002, acceptedThenUnfollowedStore) /\
  run (FollowService.followUser "u2" "u3")
      (Nat.iter 3 (commit (FollowService.followUser "u2" "u3")) acceptedThenUnfollowedStore)
    = (Thrown P2002, acceptedThenUnfollowedStore).
Proof.
  destruct (followUser_accepted_row_blocks acceptedThenUnfollowedStore "u2" "u3"
              (User.mk "u3" true) (FollowRequest.mk "r1" "u2" "u3" ACCEPTED)
              ltac:(discriminate) eq_refl eq_refl eq_refl eq_refl eq_refl)
    as (_ & _ & H & _ & Hn).
  split; [exact H|exact (Hn 3)].
Defined.

(** [u3] accepts the pending request of [u2]. *)
Lemma acceptFollowRequest_atomic_witness :
  exists edge,
    followKey edge = ("u2", "u3") /\
    run (FollowService.acceptFollowRequest "u3" "r1") pendingStore
      = (Ok edge, accepted pendingStore "r1" edge) /\
    run (FollowService.isFollowing "u2" "u3") (accepted pendingStore "r1" edge)
      = (Ok true, accepted pendingStore "r1" edge) /\
    FollowRequest.status <$>
      prisma.followRequest.findUniqueById "r1" (accepted pendingStore "r1" edge)
    = Some ACCEPTED.
Proof.
  assert (schema_ok pendingStore) as Hok by solve_schema_ok.
  destruct (acceptFollowRequest_atomic pendingStore "u3" "r1" Hok) as (_ & _ & _ & H & _).
  apply (H (FollowRequest.mk "r1" "u2" "u3" PENDING)); reflexivity.
Defined.

(** The unique index after [u2] asks again to follow [u3]. *)
Lemma follow_requests_unique_invariant_witness :
  NoDup (requestKey <$> followRequests (perform (OpFollowUser "u2" "u3") rejectedStore)) /\
  requestCount (perform (OpFollowUser "u2" "u3") rejectedStore) "u2" "u3" <= 1.
Proof.
  assert (NoDup (requestKey <$> followRequests rejectedStore)) as Hk.
  { apply (bool_decide_unpack _). vm_compute. exact I. }
  destruct (follow_requests_unique_invariant (OpFollowUser "u2" "u3") rejectedStore Hk)
    as (H1 & H2 & _).
  split; [exact H1|exact (H2 "u2" "u3")].
Defined.

(** The non-public pin of [u3] is withheld from [u2] until [u2] follows [u3]. *)
Lemma getPinById_visibility_witness :
  run (PinService.getPinById "p1" (Some "u2")) pinStore = (Ok None, pinStore) /\
  exists liked,
    run (PinService.getPinById "p1" (Some "u2")) pinStoreFollowed
      = (Ok (Some (mkPinView portoPin liked)), pinStoreFollowed).
Proof.
  split.
  - destruct (getPinById_visibility pinStore "p1" (Some "u2") portoPin
                ltac:(discriminate) eq_refl) as (_ & H & _).
    apply H. intros [Hpub|[Hauthor|(u & Hu & [f Hf])]]; [discriminate..|].
    injection Hu as <-. discriminate Hf.
  - destruct (getPinById_visibility pinStoreFollowed "p1" (Some "u2") portoPin
                ltac:(discriminate) eq_refl) as (H & _).
    apply H. right; right. exists "u2". split; [reflexivity|].
    vm_compute. eexists. reflexivity.
Defined.

(** An anonymous requester lists the pins of the private [u3]; the
    author lists them with [isPublic] set. *)
Lemma getPins_author_gate_witness :
  run (PinService.getPins (M:=smallAngleMath) anonymousListing) pinStore
    = (Ok (mkPinList [] 0), pinStore).
Proof.
  destruct (getPins_author_gate (M:=smallAngleMath) anonymousListing pinStore "u3"
              eq_refl ltac:(discriminate)) as (H & _).
  apply (H (User.mk "u3" true)); [reflexivity|reflexivity|discriminate|].
  intros r Hr. discriminate Hr.
Defined.

(** One row per page around Porto: the page holds the newer pin, in
    Lisbon, which the filter drops; the pin in Porto is in range and
    counted in the total, but not on the page. *)
Lemma getPins_distance_filter_witness :
  inRange (M:=smallAngleMath) nearPorto portoPin = true /\
  row <$> retrievedPage nearPorto pinStore = [lisbonPin] /\
  run (PinService.getPins (M:=smallAngleMath) nearPorto) pinStore
    = (Ok (mkPinList [] 2), pinStore).
Proof.
  split; [reflexivity|]. split; [reflexivity|].
  destruct (getPins_distance_filter (M:=smallAngleMath) nearPorto pinStore
              41.125%float (-8.625)%float 5%float eq_refl eq_refl eq_refl eq_refl)
    as (_ & H & _).
  exact H.
Defined.

(* ===================================================================== *)
(** ** Sequencing, [try]/[catch] *)
(* ===================================================================== *)

Lemma run_bind {A B : Type} (p : Async A) (k : A -> Async B) (st : Store) :
  run (bind p k) st =
    match run p st with
    | (Ok a, st') => run (k a) st'
    | (Thrown e, st') => (Thrown e, st')
    end.
Proof.
  revert st. induction p as [a|e|C q k' IH]; intros st; simpl; [done|done|].
  destruct (q st) as [[c st']|e]; [apply IH|done].
Qed.

Lemma run_tryCatch {A : Type} (p : Async A) (handler : Exception -> Async A) (st : Store) :
  run (tryCatch p handler) st =
    match run p st with
    | (Ok a, st') => (Ok a, st')
    | (Thrown e, st') => run (handler e) st'
    end.
Proof.
  revert st. induction p as [a|e|C q k' IH]; intros st; simpl; [done|done|].
  destruct (q st) as [[c st']|e]; [apply IH|done].
Qed.

(* ===================================================================== *)
(** ** Rows and their keys *)
(* ===================================================================== *)

Section Keys.
Context {A K : Type} (key : A -> K).

(** Two rows of a table with the same value of a unique key are the same row. *)
Lemma NoDup_key_inj (l : list A) (x y : A) :
  NoDup (key <$> l) -> x ∈ l -> y ∈ l -> key x = key y -> x = y.
Proof.
  induction l as [|z l IH]; [by intros _ ?%elem_of_nil|].
  rewrite fmap_cons, NoDup_cons. intros [Hz Hl] Hx Hy Hk.
  apply elem_of_cons in Hx as [->|Hx]; apply elem_of_cons in Hy as [->|Hy]; try done.
  - exfalso. apply Hz. rewrite Hk. apply list_elem_of_fmap. by exists y.
  - exfalso. apply Hz. rewrite <- Hk. apply list_elem_of_fmap. by exists x.
  - by apply IH.
Qed.

Lemma find_filter_same (P Q : A -> bool) (l : list A) :
  (forall x, x ∈ l -> P x = true -> Q x = true) ->
  List.find P (List.filter Q l) = List.find P l.
Proof.
  induction l as [|z l IH]; [done|]. intros H. simpl.
  assert (List.find P (List.filter Q l) = List.find P l) as IH'.
  { apply IH. intros x Hx. apply H. by right. }
  destruct (Q z) eqn:HQ; simpl.
  - by rewrite IH'.
  - destruct (P z) eqn:HP; [|done].
    rewrite (H z) in HQ; [done|by left|done].
Qed.

Lemma find_filter_none (P Q : A -> bool) (l : list A) :
  (forall x, x ∈ l -> P x = true -> Q x = false) ->
  List.find P (List.filter Q l) = None.
Proof.
  induction l as [|z l IH]; [done|]. intros H. simpl.
  assert (List.find P (List.filter Q l) = None) as IH'.
  { apply IH. intros x Hx. apply H. by right. }
  destruct (Q z) eqn:HQ; simpl; [|done].
  destruct (P z) eqn:HP; [|done].
  rewrite (H z) in HQ; [done|by left|done].
Qed.

Lemma filter_all (Q : A -> bool) (l : list A) :
  (forall x, x ∈ l -> Q x = true) -> List.filter Q l = l.
Proof.
  induction l as [|z l IH]; [done|]. intros H. simpl.
  rewrite (H z) by (by left). f_equal. apply IH. intros x Hx. apply H. by right.
Qed.

Lemma find_by_key `{EqDecision K} (l : list A) (x : A) :
  NoDup (key <$> l) -> x ∈ l ->
  List.find (fun y => bool_decide (key y = key x)) l = Some x.
Proof.
  intros Hl Hx.
  destruct (List.find _ l) as [y|] eqn:Hy.
  - destruct (find_some_in _ _ _ Hy) as [Hin Hk%bool_decide_eq_true].
    f_equal. by apply (NoDup_key_inj l).
  - apply find_none_existsb in Hy.
    assert (existsb (fun y => bool_decide (key y = key x)) l = true) as Hex; [|congruence].
    apply existsb_exists. exists x. split; [by apply list_elem_of_In|].
    by apply bool_decide_eq_true_2.
Qed.

End Keys.

(** A row whose key was just generated is the only one of that key. *)
Lemma filter_fresh_snoc {A : Type} (key : A -> string) (l : list A) (x : A) :
  key x ∉ key <$> l ->
  List.filter (fun y => negb (bool_decide (key y = key x))) (l ++ [x]) = l.
Proof.
  intros Hx. rewrite List.filter_app. simpl.
  rewrite bool_decide_eq_true_2 by done. simpl. rewrite app_nil_r.
  apply filter_all. intros y Hy. apply negb_true_iff, bool_decide_eq_false_2.
  intros Hk. apply Hx. rewrite <- Hk. apply list_elem_of_fmap. by exists y.
Qed.

Lemma find_fresh_snoc {A : Type} (key : A -> string) (l : list A) (x : A) :
  key x ∉ key <$> l ->
  List.find (fun y => bool_decide (key y = key x)) (l ++ [x]) = Some x.
Proof.
  intros Hx. rewrite find_app_none.
  - by rewrite bool_decide_eq_true_2.
  - destruct (List.find _ l) as [y|] eqn:Hy; [|done].
    destruct (find_some_in _ _ _ Hy) as [Hin Hk%bool_decide_eq_true].
    exfalso. apply Hx. rewrite <- Hk. apply list_elem_of_fmap. by exists y.
Qed.

Lemma store_eta (st : Store) :
  mkStore (users st) (follows st) (followRequests st) (pins st) (likes st) = st.
Proof. by destruct st. Qed.

(* ===================================================================== *)
(** ** [unfollowUser], [removeFollower], [cancelFollowRequest], [rejectFollowRequest] *)
(* ===================================================================== *)

(** What [unfollowUser] does when the edge is there. *)
Lemma unfollowUser_run (st : Store) (a b : string) (f : Follow.t) :
  prisma.follow.findUnique a b st = Some f ->
  run (FollowService.unfollowUser a b) st =
    (Ok true,
     with_follows st
       (List.filter (fun x => negb (bool_decide (Follow.id x = Follow.id f))) (follows st))).
Proof.
  intros Hf. unfold FollowService.unfollowUser. rewrite run_read, Hf. simpl.
  unfold prisma.follow.delete.
  destruct (find_some_in _ _ _ Hf) as [Hin _].
  destruct (List.find (fun x => bool_decide (Follow.id x = Follow.id f)) (follows st))
    as [f'|] eqn:Hid; [done|].
  apply find_none_existsb in Hid.
  assert (existsb (fun x => bool_decide (Follow.id x = Follow.id f)) (follows st) = true)
    as Hex; [|congruence].
  apply existsb_exists. exists f. split; [by apply list_elem_of_In|].
  by apply bool_decide_eq_true_2.
Qed.

(** X1. [unfollowUser] on a valid store: without an edge [a -> b] it
    fails with NotFollowingError and writes nothing; with one it removes
    exactly that edge: [a] no longer follows [b], every other pair is as
    before, and requests and users are untouched. *)
Theorem unfollowUser_removes_the_edge (st : Store) (a b : string) :
  schema_ok st ->
  (prisma.follow.findUnique a b st = None ->
   run (FollowService.unfollowUser a b) st = (Thrown NotFollowingError, st)) /\
  (forall f, prisma.follow.findUnique a b st = Some f ->
   exists st',
     run (FollowService.unfollowUser a b) st = (Ok true, st') /\
     run (FollowService.isFollowing a b) st' = (Ok false, st') /\
     (forall c d, (c, d) ≠ (a, b) ->
      prisma.follow.findUnique c d st' = prisma.follow.findUnique c d st) /\
     length (follows st') + 1 = length (follows st) /\
     followRequests st' = followRequests st /\ users st' = users st).
Proof.
  intros Hok. split.
  - intros Hnone. unfold FollowService.unfollowUser. by rewrite run_read, Hnone.
  - intros f Hf. eexists. split; [by apply unfollowUser_run|].
    destruct (find_some_in _ _ _ Hf) as [Hin Hm%follow_matches_iff].
    pose proof (follows_pkey st Hok) as Hpk.
    pose proof (follows_follower_id_following_id_key st Hok) as Huk.
    assert (forall x, x ∈ follows st -> Follow.id x = Follow.id f -> x = f) as Hsame.
    { intros x Hx Hid. by apply (NoDup_key_inj Follow.id (follows st)). }
    split; [|split; [|split]].
    + unfold FollowService.isFollowing. rewrite run_read. simpl.
      unfold prisma.follow.findUnique. simpl.
      rewrite find_filter_none; [by rewrite bool_decide_eq_false_2 by (by intros [? ?])|].
      intros x Hx Hxm%follow_matches_iff.
      apply negb_false_iff, bool_decide_eq_true_2. f_equal.
      apply (NoDup_key_inj followKey (follows st)); [done..|congruence].
    + intros c d Hne. unfold prisma.follow.findUnique. simpl.
      apply find_filter_same. intros x Hx Hxm%follow_matches_iff.
      apply negb_true_iff, bool_decide_eq_false_2. intros Hid.
      apply Hsame in Hid; [|done]. subst x. congruence.
    + simpl.
      assert (forall l : list Follow.t, f ∈ l -> NoDup (Follow.id <$> l) ->
        length (List.filter (fun x => negb (bool_decide (Follow.id x = Follow.id f))) l) + 1
        = length l) as Hlen.
      { clear. induction l as [|z l IH]; [by intros ?%elem_of_nil|].
        rewrite fmap_cons, NoDup_cons. intros Hf [Hz Hl]. simpl.
        destruct (bool_decide_reflect (Follow.id z = Follow.id f)) as [Hid|Hid]; simpl.
        - rewrite filter_all; [lia|]. intros x Hx.
          apply negb_true_iff, bool_decide_eq_false_2. intros Hxid.
          apply Hz. rewrite Hid, <- Hxid. apply list_elem_of_fmap. by exists x.
        - apply elem_of_cons in Hf as [->|Hf]; [done|]. rewrite <- (IH Hf Hl). lia. }
      by apply Hlen.
    + done.
Qed.

(** X2. [removeFollower(user, follower)] is [unfollowUser(follower,
    user)] under another name: it leaves the same store, succeeds in the
    same cases, and fails with "User is not following you" where the
    other fails with "Not following this user". *)
Theorem removeFollower_mirrors_unfollowUser (st : Store) (userId followerId : string) :
  run (FollowService.removeFollower userId followerId) st =
    match run (FollowService.unfollowUser followerId userId) st with
    | (Ok done, st') => (Ok done, st')
    | (Thrown e, st') =>
        (Thrown (if bool_decide (e = NotFollowingError) then NotAFollowerError else e), st')
    end.
Proof.
  unfold FollowService.removeFollower, FollowService.unfollowUser.
  rewrite !run_read.
  destruct (prisma.follow.findUnique followerId userId st) as [f|]; [|done].
  simpl. unfold prisma.follow.delete.
  by destruct (List.find _ (follows st)).
Qed.

(** A request row found for a pair is found by its key on a valid store. *)
Lemma request_found_by_id (st : Store) (s r : string) (q : FollowRequest.t) :
  schema_ok st -> prisma.followRequest.findUnique s r st = Some q ->
  prisma.followRequest.findUniqueById (FollowRequest.id q) st = Some q.
Proof.
  intros Hok Hq. destruct (find_some_in _ _ _ Hq) as [Hin _].
  apply (find_by_key FollowRequest.id); [apply (follow_requests_pkey st Hok)|done].
Qed.

(** X3. [cancelFollowRequest] on a valid store: without a request row
    of the pair it fails with "Follow request not found"; with a row that
    is ACCEPTED or REJECTED it fails with "Can only cancel pending
    requests"; both write nothing. A PENDING row is deleted: the status of
    the pair reads null afterwards, the rows of all other pairs and the
    edges are as before. *)
Theorem cancelFollowRequest_only_while_pending (st : Store) (s r : string) :
  schema_ok st ->
  (prisma.followRequest.findUnique s r st = None ->
   run (FollowService.cancelFollowRequest s r) st = (Thrown RequestNotFoundError, st)) /\
  (forall q, prisma.followRequest.findUnique s r st = Some q ->
   FollowRequest.status q ≠ PENDING ->
   run (FollowService.cancelFollowRequest s r) st = (Thrown CancelNotPendingError, st)) /\
  (forall q, prisma.followRequest.findUnique s r st = Some q ->
   FollowRequest.status q = PENDING ->
   exists st',
     run (FollowService.cancelFollowRequest s r) st = (Ok true, st') /\
     run (FollowService.getFollowRequestStatus s r) st' = (Ok None, st') /\
     (forall c d, (c, d) ≠ (s, r) ->
      prisma.followRequest.findUnique c d st' = prisma.followRequest.findUnique c d st) /\
     length (followRequests st') + 1 = length (followRequests st) /\
     follows st' = follows st /\ users st' = users st).
Proof.
  intros Hok. unfold FollowService.cancelFollowRequest. split; [|split].
  - intros Hnone. by rewrite run_read, Hnone.
  - intros q Hq Hs. rewrite run_read, Hq. by rewrite bool_decide_eq_true_2.
  - intros q Hq Hs. rewrite run_read, Hq.
    rewrite bool_decide_eq_false_2 by (intros H; by apply H).
    simpl. unfold prisma.followRequest.delete.
    rewrite (request_found_by_id st s r q Hok Hq).
    eexists. split; [done|].
    destruct (find_some_in _ _ _ Hq) as [Hin Hm%request_matches_iff].
    pose proof (follow_requests_pkey st Hok) as Hpk.
    pose proof (follow_requests_sender_id_receiver_id_key st Hok) as Huk.
    split; [|split; [|split]].
    + unfold prisma.followRequest.findUnique. simpl.
      rewrite find_filter_none; [done|].
      intros x Hx Hxm%request_matches_iff.
      apply negb_false_iff, bool_decide_eq_true_2. f_equal.
      apply (NoDup_key_inj requestKey (followRequests st)); [done..|congruence].
    + intros c d Hne. unfold prisma.followRequest.findUnique. simpl.
      apply find_filter_same. intros x Hx Hxm%request_matches_iff.
      apply negb_true_iff, bool_decide_eq_false_2. intros Hid.
      apply (NoDup_key_inj FollowRequest.id (followRequests st)) in Hid; [|done..].
      subst x. congruence.
    + simpl.
      assert (forall l : list FollowRequest.t, q ∈ l -> NoDup (FollowRequest.id <$> l) ->
        length (List.filter
                  (fun x => negb (bool_decide (FollowRequest.id x = FollowRequest.id q))) l) + 1
        = length l) as Hlen.
      { clear. induction l as [|z l IH]; [by intros ?%elem_of_nil|].
        rewrite fmap_cons, NoDup_cons. intros Hf [Hz Hl]. simpl.
        destruct (bool_decide_reflect (FollowRequest.id z = FollowRequest.id q)) as [Hid|Hid];
          simpl.
        - rewrite filter_all; [lia|]. intros x Hx.
          apply negb_true_iff, bool_decide_eq_false_2. intros Hxid.
          apply Hz. rewrite Hid, <- Hxid. apply list_elem_of_fmap. by exists x.
        - apply elem_of_cons in Hf as [->|Hf]; [done|]. rewrite <- (IH Hf Hl). lia. }
      by apply Hlen.
    + done.
Qed.

(** Rows of another key are not touched by an update of a key. *)
Lemma findUniqueById_markStatus_ne (rows : list FollowRequest.t) i j s :
  i ≠ j ->
  List.find (fun x => bool_decide (FollowRequest.id x = i))
            (prisma.followRequest.markStatus j s rows)
  = List.find (fun x => bool_decide (FollowRequest.id x = i)) rows.
Proof.
  intros Hne. induction rows as [|x l IH]; [done|].
  unfold prisma.followRequest.markStatus in *. rewrite fmap_cons. simpl.
  destruct (bool_decide_reflect (FollowRequest.id x = j)) as [Hj|Hj]; simpl.
  - rewrite !bool_decide_eq_false_2 by congruence. apply IH.
  - destruct (bool_decide (FollowRequest.id x = i)); [done|apply IH].
Qed.

(** X4. [rejectFollowRequest] checks, in this order, that the request
    exists ("Follow request not found"), that the caller is its receiver
    ("Unauthorized") and that it is PENDING ("Request is not pending"),
    and writes nothing when a check fails. Otherwise the request becomes
    REJECTED; no edge is created or removed and the requests of all other
    keys are as before. *)
Theorem rejectFollowRequest_rejects (st : Store) (receiver requestId : string) :
  (prisma.followRequest.findUniqueById requestId st = None ->
   run (FollowService.rejectFollowRequest receiver requestId) st =
     (Thrown RequestNotFoundError, st)) /\
  (forall q, prisma.followRequest.findUniqueById requestId st = Some q ->
   FollowRequest.receiverId q ≠ receiver ->
   run (FollowService.rejectFollowRequest receiver requestId) st =
     (Thrown UnauthorizedError, st)) /\
  (forall q, prisma.followRequest.findUniqueById requestId st = Some q ->
   FollowRequest.receiverId q = receiver -> FollowRequest.status q ≠ PENDING ->
   run (FollowService.rejectFollowRequest receiver requestId) st =
     (Thrown NotPendingError, st)) /\
  (forall q, prisma.followRequest.findUniqueById requestId st = Some q ->
   FollowRequest.receiverId q = receiver -> FollowRequest.status q = PENDING ->
   exists st',
     run (FollowService.rejectFollowRequest receiver requestId) st = (Ok true, st') /\
     prisma.followRequest.findUniqueById requestId st'
       = Some (prisma.followRequest.setStatus REJECTED q) /\
     (forall i, i ≠ requestId ->
      prisma.followRequest.findUniqueById i st' = prisma.followRequest.findUniqueById i st) /\
     follows st' = follows st /\ users st' = users st).
Proof.
  unfold FollowService.rejectFollowRequest. split; [|split; [|split]].
  - intros Hnone. by rewrite run_read, Hnone.
  - intros q Hq Hne. rewrite run_read, Hq. by rewrite bool_decide_eq_true_2.
  - intros q Hq Heq Hs. rewrite run_read, Hq.
    rewrite bool_decide_eq_false_2 by (intros ?; congruence).
    by rewrite bool_decide_eq_true_2.
  - intros q Hq Heq Hs. rewrite run_read, Hq.
    rewrite bool_decide_eq_false_2 by (intros ?; congruence).
    rewrite bool_decide_eq_false_2 by (intros ?; congruence).
    simpl. unfold prisma.followRequest.update. rewrite Hq.
    eexists. split; [done|]. split; [|split; [|done]].
    + unfold prisma.followRequest.findUniqueById. simpl.
      by apply findUniqueById_markStatus.
    + intros i Hi. unfold prisma.followRequest.findUniqueById. simpl.
      by apply findUniqueById_markStatus_ne.
Qed.

(** X5. Following a public user and unfollowing again (or being removed
    by that user) brings back the very store one started from. *)
Theorem follow_then_unfollow_restores (st : Store) (a b : string) (u : User.t) :
  a ≠ b ->
  prisma.userExists st a = true ->
  prisma.user.findUnique b st = Some u -> User.isPrivate u = false ->
  prisma.follow.findUnique a b st = None ->
  run (FollowService.unfollowUser a b) (commit (FollowService.followUser a b) st)
    = (Ok true, st) /\
  run (FollowService.removeFollower b a) (commit (FollowService.followUser a b) st)
    = (Ok true, st).
Proof.
  intros Hab Ha Hu Hpub Hedge.
  pose proof (followUser_public st a b u Hab Hedge Hu Hpub) as Hrun.
  rewrite (follow_create_ok st a b Hedge Ha (user_findUnique_exists _ _ _ Hu)) in Hrun.
  set (edge := Follow.mk (prisma.newId (Follow.id <$> follows st)) a b) in *.
  assert (run (FollowService.unfollowUser a b) (commit (FollowService.followUser a b) st)
          = (Ok true, st)) as Hback.
  { unfold commit. rewrite Hrun. cbn [snd].
    assert (prisma.follow.findUnique a b (with_follows st (follows st ++ [edge])) = Some edge)
      as Hfound.
    { unfold prisma.follow.findUnique in *. simpl. rewrite (find_app_none _ _ edge Hedge).
      pose proof (follow_matches_self edge) as Hm. simpl in Hm. by rewrite Hm. }
    rewrite (unfollowUser_run _ a b edge Hfound). f_equal.
    unfold with_follows. cbn [users follows followRequests pins likes].
    rewrite (filter_fresh_snoc Follow.id (follows st) edge); [apply store_eta|].
    apply newId_fresh. }
  split; [exact Hback|].
  revert Hback. unfold FollowService.unfollowUser, FollowService.removeFollower.
  rewrite !run_read.
  destruct (prisma.follow.findUnique a b (commit (FollowService.followUser a b) st)) as [f|].
  - intros H. exact H.
  - intros H. discriminate H.
Qed.

(** What [cancelFollowRequest] does to a pending row found by its key. *)
Lemma cancelFollowRequest_run (st : Store) (s r : string) (q : FollowRequest.t) :
  prisma.followRequest.findUnique s r st = Some q ->
  FollowRequest.status q = PENDING ->
  run (FollowService.cancelFollowRequest s r) st =
    (Ok true,
     with_followRequests st
       (List.filter (fun x => negb (bool_decide (FollowRequest.id x = FollowRequest.id q)))
                    (followRequests st))).
Proof.
  intros Hq Hs. unfold FollowService.cancelFollowRequest. rewrite run_read, Hq.
  rewrite bool_decide_eq_false_2 by (intros H; by apply H).
  simpl. unfold prisma.followRequest.delete.
  destruct (find_some_in _ _ _ Hq) as [Hin _].
  by destruct (findUniqueById_in st q Hin) as [q' ->].
Qed.

(** X6. Asking to follow a private user and cancelling the request
    brings back the very store one started from. *)
Theorem request_then_cancel_restores (st : Store) (a b : string) (u : User.t) :
  a ≠ b ->
  prisma.userExists st a = true ->
  prisma.user.findUnique b st = Some u -> User.isPrivate u = true ->
  prisma.follow.findUnique a b st = None ->
  prisma.followRequest.findUnique a b st = None ->
  run (FollowService.cancelFollowRequest a b) (commit (FollowService.followUser a b) st)
    = (Ok true, st).
Proof.
  intros Hab Ha Hu Hpriv Hedge Hreq.
  pose proof (followUser_private st a b u Hab Hedge Hu Hpriv) as Hrun.
  rewrite Hreq in Hrun.
  rewrite (followRequest_create_ok st a b Hreq Ha (user_findUnique_exists _ _ _ Hu)) in Hrun.
  set (row := FollowRequest.mk (prisma.newId (FollowRequest.id <$> followRequests st)) a b PENDING)
    in *.
  unfold commit. rewrite Hrun. cbn [snd].
  assert (prisma.followRequest.findUnique a b
            (with_followRequests st (followRequests st ++ [row])) = Some row) as Hfound.
  { unfold prisma.followRequest.findUnique in *. simpl. rewrite (find_app_none _ _ row Hreq).
    pose proof (request_matches_self row) as Hm. simpl in Hm. by rewrite Hm. }
  rewrite (cancelFollowRequest_run _ a b row Hfound eq_refl). f_equal.
  unfold with_followRequests. cbn [users follows followRequests pins likes].
  rewrite (filter_fresh_snoc FollowRequest.id (followRequests st) row); [apply store_eta|].
  apply newId_fresh.
Qed.

(** What [acceptFollowRequest] does to a pending request of the caller
    when the edge is not there yet and both users exist. *)
Lemma acceptFollowRequest_run (st : Store) (requestId : string) (q : FollowRequest.t) :
  prisma.followRequest.findUniqueById requestId st = Some q ->
  FollowRequest.status q = PENDING ->
  prisma.follow.findUnique (FollowRequest.senderId q) (FollowRequest.receiverId q) st = None ->
  prisma.userExists st (FollowRequest.senderId q) = true ->
  prisma.userExists st (FollowRequest.receiverId q) = true ->
  let edge := Follow.mk (prisma.newId (Follow.id <$> follows st))
                        (FollowRequest.senderId q) (FollowRequest.receiverId q) in
  run (FollowService.acceptFollowRequest (FollowRequest.receiverId q) requestId) st
    = (Ok edge, accepted st requestId edge).
Proof.
  intros Hq Hs Hedge Hs1 Hs2 edge. unfold FollowService.acceptFollowRequest.
  rewrite run_read, Hq.
  rewrite bool_decide_eq_false_2 by (intros H; by apply H).
  rewrite bool_decide_eq_false_2 by (intros H; by apply H).
  simpl. unfold prisma.transaction.
  rewrite (follow_create_ok st _ _ Hedge Hs1 Hs2). fold edge.
  unfold prisma.followRequest.update.
  change (prisma.followRequest.findUniqueById requestId (with_follows st (follows st ++ [edge])))
    with (prisma.followRequest.findUniqueById requestId st).
  by rewrite Hq.
Qed.

(** X7. The life of a pair that ends blocked: [a] asks to follow the
    private [b], [b] accepts, [a] unfollows. Then [a] does not follow [b],
    the request row is still there as ACCEPTED, and a new [followUser(a,
    b)] is rejected by the unique index with P2002, leaving the store as
    it is. *)
Theorem accept_then_unfollow_blocks_refollow (st : Store) (a b : string) (u : User.t) :
  a ≠ b ->
  prisma.userExists st a = true ->
  prisma.user.findUnique b st = Some u -> User.isPrivate u = true ->
  prisma.follow.findUnique a b st = None ->
  prisma.followRequest.findUnique a b st = None ->
  exists request,
    run (FollowService.followUser a b) st
      = (Ok (RequestResult request), commit (FollowService.followUser a b) st) /\
    let st1 := commit (FollowService.followUser a b) st in
    let st2 := commit (FollowService.acceptFollowRequest b (FollowRequest.id request)) st1 in
    let st3 := commit (FollowService.unfollowUser a b) st2 in
    run (FollowService.isFollowing a b) st2 = (Ok true, st2) /\
    run (FollowService.isFollowing a b) st3 = (Ok false, st3) /\
    run (FollowService.getFollowRequestStatus a b) st3 = (Ok (Some ACCEPTED), st3) /\
    run (FollowService.followUser a b) st3 = (Thrown P2002, st3).
Proof.
  intros Hab Ha Hu Hpriv Hedge Hreq.
  pose proof (user_findUnique_exists _ _ _ Hu) as Hb.
  pose proof (followUser_private st a b u Hab Hedge Hu Hpriv) as Hrun.
  rewrite Hreq, (followRequest_create_ok st a b Hreq Ha Hb) in Hrun.
  set (row := FollowRequest.mk (prisma.newId (FollowRequest.id <$> followRequests st)) a b PENDING)
    in *.
  exists row. split; [unfold commit; by rewrite Hrun|].
  cbv zeta.
  set (st1 := commit (FollowService.followUser a b) st).
  set (st2 := commit (FollowService.acceptFollowRequest b (FollowRequest.id row)) st1).
  set (st3 := commit (FollowService.unfollowUser a b) st2).
  assert (st1 = with_followRequests st (followRequests st ++ [row])) as Hst1.
  { unfold st1, commit. by rewrite Hrun. }
  assert (prisma.followRequest.findUniqueById (FollowRequest.id row) st1 = Some row) as Hid.
  { rewrite Hst1. unfold prisma.followRequest.findUniqueById.
    cbn [followRequests with_followRequests].
    apply (find_fresh_snoc FollowRequest.id). apply newId_fresh. }
  assert (prisma.followRequest.findUnique a b st1 = Some row) as Hpair.
  { rewrite Hst1. unfold prisma.followRequest.findUnique in *.
    cbn [followRequests with_followRequests]. rewrite (find_app_none _ _ row Hreq).
    pose proof (request_matches_self row) as Hm. simpl in Hm. by rewrite Hm. }
  set (edge := Follow.mk (prisma.newId (Follow.id <$> follows st)) a b).
  assert (st2 = accepted st1 (FollowRequest.id row) edge) as Hst2.
  { assert (prisma.follow.findUnique a b st1 = None) as He1 by (by rewrite Hst1).
    assert (prisma.userExists st1 a = true) as Ha1 by (by rewrite Hst1).
    assert (prisma.userExists st1 b = true) as Hb1 by (by rewrite Hst1).
    pose proof (acceptFollowRequest_run st1 (FollowRequest.id row) row
                  Hid eq_refl He1 Ha1 Hb1) as Hacc.
    cbv zeta in Hacc.
    change (FollowRequest.receiverId row) with b in Hacc.
    change (FollowRequest.senderId row) with a in Hacc.
    unfold st2, commit. rewrite Hacc. cbn [snd]. by rewrite Hst1. }
  assert (prisma.follow.findUnique a b st2 = Some edge) as Hfound.
  { rewrite Hst2, Hst1. unfold prisma.follow.findUnique in *. simpl.
    rewrite (find_app_none _ _ edge Hedge).
    pose proof (follow_matches_self edge) as Hm. simpl in Hm. by rewrite Hm. }
  assert (st3 = with_follows st2 (follows st)) as Hst3.
  { unfold st3, commit. rewrite (unfollowUser_run st2 a b edge Hfound). cbn [snd].
    f_equal. rewrite Hst2, Hst1. unfold accepted. cbn [users follows followRequests pins likes with_followRequests].
    apply (filter_fresh_snoc Follow.id (follows st) edge). apply newId_fresh. }
  assert (prisma.followRequest.findUnique a b st3
          = Some (prisma.followRequest.setStatus ACCEPTED row)) as Hacc.
  { rewrite Hst3, Hst2. apply (findUnique_markStatus st1 a b row ACCEPTED Hpair). }
  assert (prisma.follow.findUnique a b st3 = None) as Hedge3.
  { by rewrite Hst3. }
  assert (prisma.user.findUnique b st3 = Some u) as Hu3.
  { by rewrite Hst3, Hst2, Hst1. }
  split; [|split; [|split]].
  - unfold FollowService.isFollowing. rewrite run_read, Hfound.
    by rewrite bool_decide_eq_true_2.
  - unfold FollowService.isFollowing. rewrite run_read, Hedge3.
    by rewrite bool_decide_eq_false_2 by (by intros [? ?]).
  - unfold FollowService.getFollowRequestStatus. by rewrite run_read, Hacc.
  - rewrite (followUser_private st3 a b u Hab Hedge3 Hu3 Hpriv), Hacc. simpl.
    rewrite followRequest_create_dup; [done|]. by rewrite Hacc.
Qed.

(** X8. After [a] followed the public [b], the follower count of [b]
    and the following count of [a] are one higher, and all other counts
    are what they were. *)
Theorem followUser_counts (st : Store) (a b : string) (u : User.t) :
  a ≠ b ->
  prisma.userExists st a = true ->
  prisma.user.findUnique b st = Some u -> User.isPrivate u = false ->
  prisma.follow.findUnique a b st = None ->
  let st' := commit (FollowService.followUser a b) st in
  forall c followers following,
    run (FollowService.getFollowCounts c) st = (Ok (followers, following), st) ->
    run (FollowService.getFollowCounts c) st'
      = (Ok (followers + (if bool_decide (c = b) then 1 else 0),
             following + (if bool_decide (c = a) then 1 else 0)), st').
Proof.
  intros Hab Ha Hu Hpub Hedge st' c followers following.
  pose proof (followUser_public st a b u Hab Hedge Hu Hpub) as Hrun.
  rewrite (follow_create_ok st a b Hedge Ha (user_findUnique_exists _ _ _ Hu)) in Hrun.
  assert (st' = with_follows st
            (follows st ++ [Follow.mk (prisma.newId (Follow.id <$> follows st)) a b])) as ->.
  { unfold st', commit. by rewrite Hrun. }
  unfold FollowService.getFollowCounts. rewrite !run_read. simpl.
  intros [= <- <-]. unfold prisma.follow.countFollowing, prisma.follow.countFollower.
  simpl. rewrite !filter_app_length. simpl.
  do 2 f_equal. f_equal; f_equal.
  - destruct (bool_decide_reflect (b = c)), (bool_decide_reflect (c = b)); congruence.
  - destruct (bool_decide_reflect (a = c)), (bool_decide_reflect (c = a)); congruence.
Qed.

(* ===================================================================== *)
(** ** Requests and edges stay consistent *)
(* ===================================================================== *)

(** Each operation has one of the effects of [Effect]. *)
Lemma perform_effect (op : Operation) (st : Store) : Effect st (perform op st).
Proof.
  destruct op as [a b|recv i|recv i|s r|a b|u f]; simpl; unfold commit.
  - unfold FollowService.followUser.
    destruct (bool_decide (a = b)); [constructor|].
    rewrite run_read.
    destruct (prisma.follow.findUnique a b st) as [e|] eqn:Hedge; [constructor|].
    rewrite run_read.
    destruct (prisma.user.findUnique b st) as [u|] eqn:Hu; [|constructor].
    destruct (User.isPrivate u) eqn:Hpriv.
    + rewrite run_read.
      assert (Effect st (snd (run (request ← await prisma.followRequest.create a b;
                                   Return (RequestResult request)) st))) as Hcreate.
      { simpl. unfold prisma.followRequest.create.
        destruct (existsb _ _); [constructor|]. destruct (negb _); [constructor|].
        simpl. by apply (RequestAdded st a b u). }
      destruct (prisma.followRequest.findUnique a b st) as [r|] eqn:Hr; [|exact Hcreate].
      destruct (bool_decide (FollowRequest.status r = PENDING)); [constructor|].
      destruct (bool_decide (FollowRequest.status r = REJECTED)); [|exact Hcreate].
      simpl. unfold prisma.followRequest.update.
      destruct (prisma.followRequest.findUniqueById _ st); [|constructor].
      simpl. by apply (RequestRevived st a b r).
    + simpl. unfold prisma.follow.create.
      destruct (existsb _ _); [constructor|]. destruct (negb _); [constructor|].
      simpl. by apply (EdgeAdded st a b u).
  - unfold FollowService.acceptFollowRequest. rewrite run_read.
    destruct (prisma.followRequest.findUniqueById i st) as [q|] eqn:Hq; [|constructor].
    destruct (bool_decide _); [constructor|].
    destruct (bool_decide_reflect (FollowRequest.status q ≠ PENDING)) as [|Hs]; [constructor|].
    assert (FollowRequest.status q = PENDING) as Hs'.
    { destruct (decide (FollowRequest.status q = PENDING)); [done|by destruct Hs]. }
    simpl. unfold prisma.transaction, prisma.follow.create.
    destruct (existsb _ _); [constructor|]. destruct (negb _); [constructor|].
    unfold prisma.followRequest.update, prisma.followRequest.findUniqueById.
    cbn [followRequests with_follows].
    unfold prisma.followRequest.findUniqueById in Hq. rewrite Hq. simpl.
    by apply (RequestAccepted st i q).
  - unfold FollowService.rejectFollowRequest. rewrite run_read.
    destruct (prisma.followRequest.findUniqueById i st) as [q|] eqn:Hq; [|constructor].
    destruct (bool_decide _); [constructor|].
    destruct (bool_decide_reflect (FollowRequest.status q ≠ PENDING)) as [|Hs]; [constructor|].
    assert (FollowRequest.status q = PENDING) as Hs'.
    { destruct (decide (FollowRequest.status q = PENDING)); [done|by destruct Hs]. }
    simpl. unfold prisma.followRequest.update. rewrite Hq. simpl.
    by apply (RequestRejected st i q).
  - unfold FollowService.cancelFollowRequest. rewrite run_read.
    destruct (prisma.followRequest.findUnique s r st) as [q|]; [|constructor].
    destruct (bool_decide _); [constructor|].
    simpl. unfold prisma.followRequest.delete.
    destruct (prisma.followRequest.findUniqueById _ st); [|constructor].
    simpl. apply RequestCancelled.
  - unfold FollowService.unfollowUser. rewrite run_read.
    destruct (prisma.follow.findUnique a b st) as [e|]; [|constructor].
    simpl. unfold prisma.follow.delete.
    destruct (List.find _ (follows st)); [|constructor].
    simpl. apply EdgeRemoved.
  - unfold FollowService.removeFollower. rewrite run_read.
    destruct (prisma.follow.findUnique f u st) as [e|]; [|constructor].
    simpl. unfold prisma.follow.delete.
    destruct (List.find _ (follows st)); [|constructor].
    simpl. apply EdgeRemoved.
Qed.

Lemma find_filter_stays_none {A : Type} (P Q : A -> bool) (l : list A) :
  List.find P l = None -> List.find P (List.filter Q l) = None.
Proof.
  induction l as [|z l IH]; [done|]. simpl.
  destruct (P z) eqn:HP; [done|]. intros H.
  destruct (Q z); simpl; [rewrite HP|]; by apply IH.
Qed.

Lemma elem_of_filter_list {A : Type} (Q : A -> bool) (l : list A) (x : A) :
  x ∈ List.filter Q l -> x ∈ l.
Proof. intros H. apply list_elem_of_In, List.filter_In in H as [H _]. by apply list_elem_of_In. Qed.

(** A row found by its key carries that key and is in the table. *)
Lemma findUniqueById_some (st : Store) (i : string) (q : FollowRequest.t) :
  prisma.followRequest.findUniqueById i st = Some q ->
  q ∈ followRequests st /\ FollowRequest.id q = i.
Proof.
  intros Hq. destruct (find_some_in _ _ _ Hq) as [Hin Hid%bool_decide_eq_true]. done.
Qed.

(** The effects keep the request rows in order on a valid store. *)
Lemma effect_in_order (st st' : Store) :
  schema_ok st -> Forall (requestInOrder st) (followRequests st) ->
  Effect st st' -> Forall (requestInOrder st') (followRequests st').
Proof.
  intros Hok Hall Heff. rewrite Forall_forall in Hall.
  pose proof (follow_requests_pkey st Hok) as Hpk.
  pose proof (follow_requests_sender_id_receiver_id_key st Hok) as Huk.
  destruct Heff as [|a b u Hedge Hu Hpub|a b u Hedge Hu Hpriv|a b r Hedge Hr
                    |i q Hq Hs|i q Hq Hs|i|i]; rewrite Forall_forall.
  - done.
  - (* an edge to a public user *)
    intros x Hx. destruct (Hall x Hx) as [Hrecv Hno]. split; [done|].
    intros Hst. unfold prisma.follow.findUnique in *. simpl.
    rewrite (find_app_none _ _ _ (Hno Hst)).
    destruct (prisma.follow.matches _ _ _) eqn:Hm; [|done].
    apply follow_matches_iff in Hm. injection Hm as _ Hb.
    destruct Hrecv as (u' & Hu' & Hpriv'). congruence.
  - (* a new pending request *)
    intros x Hx. simpl in Hx. apply elem_of_app in Hx as [Hx|Hx].
    + by apply Hall.
    + apply list_elem_of_singleton in Hx as ->. split; simpl; [by exists u|done].
  - (* a rejected request set back to pending *)
    intros x Hx. simpl in Hx. unfold prisma.followRequest.markStatus in Hx.
    apply list_elem_of_fmap in Hx as (y & -> & Hy).
    destruct (find_some_in _ _ _ Hr) as [Hrin Hkey%request_matches_iff].
    destruct (bool_decide_reflect (FollowRequest.id y = FollowRequest.id r)) as [Hid|Hid];
      [|by apply Hall].
    assert (y = r) as -> by (by apply (NoDup_key_inj FollowRequest.id (followRequests st))).
    destruct (Hall r Hrin) as [Hrecv _]. split; [done|]. intros _. simpl.
    by injection Hkey as -> ->.
  - (* accepted *)
    intros x Hx. simpl in Hx. unfold prisma.followRequest.markStatus in Hx.
    apply list_elem_of_fmap in Hx as (y & -> & Hy).
    destruct (findUniqueById_some st i q Hq) as [Hqin Hqid].
    destruct (Hall y Hy) as [Hrecv Hno].
    destruct (bool_decide_reflect (FollowRequest.id y = i)) as [Hid|Hid]; [by split|].
    split; [done|]. intros Hst. unfold prisma.follow.findUnique in *. simpl.
    rewrite (find_app_none _ _ _ (Hno Hst)).
    destruct (prisma.follow.matches _ _ _) eqn:Hm; [|done].
    apply follow_matches_iff in Hm. exfalso. apply Hid. rewrite <- Hqid. f_equal.
    apply (NoDup_key_inj requestKey (followRequests st)); [done..|].
    unfold requestKey. unfold followKey in Hm. simpl in Hm. congruence.
  - (* rejected *)
    intros x Hx. simpl in Hx. unfold prisma.followRequest.markStatus in Hx.
    apply list_elem_of_fmap in Hx as (y & -> & Hy).
    destruct (findUniqueById_some st i q Hq) as [Hqin Hqid].
    destruct (bool_decide_reflect (FollowRequest.id y = i)) as [Hid|Hid];
      [|by apply Hall].
    assert (y = q) as -> by (apply (NoDup_key_inj FollowRequest.id (followRequests st));
                             [done..|congruence]).
    destruct (Hall q Hqin) as [Hrecv Hno]. split; [done|]. intros _. simpl.
    apply Hno. by rewrite Hs.
  - (* cancelled *)
    intros x Hx. simpl in Hx. apply elem_of_filter_list in Hx. by apply Hall.
  - (* an edge removed *)
    intros x Hx. destruct (Hall x Hx) as [Hrecv Hno]. split; [done|].
    intros Hst. unfold prisma.follow.findUnique. simpl.
    apply find_filter_stays_none. by apply Hno.
Qed.

(** One operation keeps a store consistent. *)
Lemma perform_consistent (op : Operation) (st : Store) :
  consistent st -> consistent (perform op st).
Proof.
  intros [Hok Hall]. split.
  - by apply (operations_keep op st).
  - apply (effect_in_order st); [done..|apply perform_effect].
Qed.

Lemma performAll_consistent (ops : list Operation) (st : Store) :
  consistent st -> consistent (performAll ops st).
Proof.
  unfold performAll. revert st. induction ops as [|op ops IH]; intros st Hc; [done|].
  simpl. apply IH. by apply perform_consistent.
Qed.

(** X9. The six operations keep a store consistent, one by one and in
    any sequence: the schema stays valid, every request row points at a
    private receiver, and a request that is PENDING or REJECTED never sits
    next to an edge of its pair. *)
Theorem operations_keep_consistent (ops : list Operation) (st : Store) :
  consistent st ->
  consistent (performAll ops st) /\
  forall a b r,
    prisma.followRequest.findUnique a b (performAll ops st) = Some r ->
    FollowRequest.status r ≠ ACCEPTED ->
    prisma.follow.findUnique a b (performAll ops st) = None.
Proof.
  intros Hc. pose proof (performAll_consistent ops st Hc) as Hc'.
  split; [exact Hc'|].
  intros a b r Hr Hs. destruct Hc' as [_ Hall]. rewrite Forall_forall in Hall.
  destruct (find_some_in _ _ _ Hr) as [Hin Hkey%request_matches_iff].
  destruct (Hall r Hin) as [_ Hno]. specialize (Hno Hs).
  injection Hkey as Ha Hb. by rewrite Ha, Hb in Hno.
Qed.

(** A store with users only is consistent. *)
Lemma users_only_consistent (st : Store) :
  NoDup (User.id <$> users st) -> follows st = [] -> followRequests st = [] ->
  consistent st.
Proof.
  intros Hu Hf Hr. split.
  - constructor; rewrite ?Hf, ?Hr; simpl; try done; constructor.
  - rewrite Hr. constructor.
Qed.

(** X10. On every store reached from one with users only by the six
    operations, in any number and order, a PENDING request is accepted
    by its receiver: the call succeeds, the edge from the sender to the
    receiver is created and the request is marked ACCEPTED. *)
Theorem accept_succeeds_on_reachable (st0 : Store) (ops : list Operation)
    (receiver requestId : string) (q : FollowRequest.t) :
  NoDup (User.id <$> users st0) -> follows st0 = [] -> followRequests st0 = [] ->
  let st := performAll ops st0 in
  prisma.followRequest.findUniqueById requestId st = Some q ->
  FollowRequest.receiverId q = receiver -> FollowRequest.status q = PENDING ->
  exists edge,
    followKey edge = (FollowRequest.senderId q, receiver) /\
    run (FollowService.acceptFollowRequest receiver requestId) st
      = (Ok edge, accepted st requestId edge) /\
    run (FollowService.isFollowing (FollowRequest.senderId q) receiver)
        (accepted st requestId edge) = (Ok true, accepted st requestId edge) /\
    run (FollowService.getFollowRequestStatus (FollowRequest.senderId q) receiver)
        (accepted st requestId edge) = (Ok (Some ACCEPTED), accepted st requestId edge).
Proof.
  intros Hu Hf Hr st Hq <- Hs.
  destruct (performAll_consistent ops st0 (users_only_consistent st0 Hu Hf Hr))
    as [Hok Hall]. fold st in Hok, Hall.
  destruct (findUniqueById_some st requestId q Hq) as [Hin Hid].
  rewrite Forall_forall in Hall. destruct (Hall q Hin) as [_ Hno].
  assert (prisma.follow.findUnique (FollowRequest.senderId q) (FollowRequest.receiverId q) st
          = None) as Hedge by (apply Hno; by rewrite Hs).
  pose proof (follow_requests_fkeys st Hok) as Hfk. rewrite Forall_forall in Hfk.
  destruct (Hfk q Hin) as [Hs1 Hs2].
  pose proof (acceptFollowRequest_run st requestId q Hq Hs Hedge Hs1 Hs2) as Hrun.
  cbv zeta in Hrun. eexists. split; [|split; [exact Hrun|split]].
  - done.
  - unfold FollowService.isFollowing. rewrite run_read.
    unfold prisma.follow.findUnique in *. simpl.
    rewrite (find_app_none _ _ _ Hedge).
    match goal with |- context [prisma.follow.matches _ _ ?e] =>
      pose proof (follow_matches_self e) as Hm end.
    simpl in Hm. rewrite Hm. by rewrite bool_decide_eq_true_2.
  - unfold FollowService.getFollowRequestStatus. rewrite run_read.
    assert (prisma.followRequest.findUnique (FollowRequest.senderId q)
              (FollowRequest.receiverId q) st = Some q) as Hpair.
    { unfold prisma.followRequest.findUnique.
      destruct (List.find _ (followRequests st)) as [y|] eqn:Hy.
      - destruct (find_some_in _ _ _ Hy) as [Hyin Hym%request_matches_iff]. f_equal.
        apply (NoDup_key_inj requestKey (followRequests st));
          [apply (follow_requests_sender_id_receiver_id_key st Hok)|done..].
      - apply find_none_existsb in Hy.
        assert (existsb (prisma.followRequest.matches (FollowRequest.senderId q)
                           (FollowRequest.receiverId q)) (followRequests st) = true) as Hex;
          [|congruence].
        apply existsb_exists. exists q. split; [by apply list_elem_of_In|].
        apply request_matches_self. }
    pose proof (findUnique_markStatus st _ _ q ACCEPTED Hpair) as Hfound.
    rewrite Hid in Hfound.
    change (prisma.followRequest.findUnique (FollowRequest.senderId q)
              (FollowRequest.receiverId q) (accepted st requestId ?e))
      with (prisma.followRequest.findUnique (FollowRequest.senderId q)
              (FollowRequest.receiverId q)
              (with_followRequests st
                 (prisma.followRequest.markStatus requestId ACCEPTED (followRequests st)))).
    by rewrite Hfound.
Qed.

(** X11. On every store reached from one with users only by the six
    operations, nobody follows somebody and has an open request to the
    same user: when [isFollowing(a, b)] answers true, the request status
    of the pair is null or ACCEPTED, never PENDING or REJECTED. *)
Theorem following_excludes_open_request (st0 : Store) (ops : list Operation)
    (a b : string) :
  NoDup (User.id <$> users st0) -> follows st0 = [] -> followRequests st0 = [] ->
  let st := performAll ops st0 in
  run (FollowService.isFollowing a b) st = (Ok true, st) ->
  run (FollowService.getFollowRequestStatus a b) st = (Ok None, st) \/
  run (FollowService.getFollowRequestStatus a b) st = (Ok (Some ACCEPTED), st).
Proof.
  intros Hu Hf Hr st.
  destruct (performAll_consistent ops st0 (users_only_consistent st0 Hu Hf Hr))
    as [Hok Hall]. fold st in Hok, Hall.
  unfold FollowService.isFollowing, FollowService.getFollowRequestStatus.
  rewrite !run_read. intros [= Hfol]. apply bool_decide_eq_true in Hfol as [e He].
  destruct (prisma.followRequest.findUnique a b st) as [q|] eqn:Hq; [|by left].
  right. simpl. do 3 f_equal.
  destruct (find_some_in _ _ _ Hq) as [Hin Hkey%request_matches_iff].
  rewrite Forall_forall in Hall. destruct (Hall q Hin) as [_ Hno].
  destruct (decide (FollowRequest.status q = ACCEPTED)) as [|Hne]; [done|].
  specialize (Hno Hne). injection Hkey as Hs Hrcv. rewrite Hs, Hrcv in Hno. congruence.
Qed.

(** X24. Two concurrent accepts of the same request: when the second
    commits between the lookup and the transaction of the first, the
    transaction of the first is rejected as a whole by the unique index
    on the edge; the first call ends with P2002 and the store is the one
    the second left, with the edge and the ACCEPTED request. *)
Theorem double_accept_race (st : Store) (receiver requestId : string) (q : FollowRequest.t) :
  prisma.followRequest.findUniqueById requestId st = Some q ->
  FollowRequest.receiverId q = receiver -> FollowRequest.status q = PENDING ->
  prisma.follow.findUnique (FollowRequest.senderId q) receiver st = None ->
  prisma.userExists st (FollowRequest.senderId q) = true ->
  prisma.userExists st receiver = true ->
  let winner := commit (FollowService.acceptFollowRequest receiver requestId) in
  run_interleaved [id; winner] (FollowService.acceptFollowRequest receiver requestId) st
    = (Thrown P2002, winner st) /\
  run (FollowService.isFollowing (FollowRequest.senderId q) receiver) (winner st)
    = (Ok true, winner st) /\
  FollowRequest.status <$> prisma.followRequest.findUniqueById requestId (winner st)
    = Some ACCEPTED.
Proof.
  intros Hq <- Hs Hedge Hs1 Hs2 winner.
  pose proof (acceptFollowRequest_run st requestId q Hq Hs Hedge Hs1 Hs2) as Hrun.
  cbv zeta in Hrun.
  set (edge := Follow.mk (prisma.newId (Follow.id <$> follows st))
                         (FollowRequest.senderId q) (FollowRequest.receiverId q)) in *.
  assert (winner st = accepted st requestId edge) as Hw.
  { unfold winner, commit. by rewrite Hrun. }
  assert (prisma.follow.findUnique (FollowRequest.senderId q) (FollowRequest.receiverId q)
            (accepted st requestId edge) = Some edge) as Hfound.
  { unfold prisma.follow.findUnique in *. simpl.
    rewrite (find_app_none _ _ edge Hedge).
    pose proof (follow_matches_self edge) as Hm. simpl in Hm. by rewrite Hm. }
  split; [|split].
  - unfold FollowService.acceptFollowRequest. cbn [run_interleaved tail].
    unfold read at 1. unfold id. rewrite Hq.
    rewrite bool_decide_eq_false_2 by (intros H; by apply H).
    rewrite bool_decide_eq_false_2 by (intros H; by apply H).
    cbn [run_interleaved tail]. rewrite Hw. unfold prisma.transaction.
    rewrite follow_create_dup; [done|]. by rewrite Hfound.
  - rewrite Hw. unfold FollowService.isFollowing. rewrite run_read, Hfound.
    by rewrite bool_decide_eq_true_2.
  - rewrite Hw. unfold prisma.followRequest.findUniqueById. simpl.
    unfold prisma.followRequest.findUniqueById in Hq.
    by rewrite (findUniqueById_markStatus _ _ _ ACCEPTED Hq).
Qed.

(* ===================================================================== *)
(** ** The follow handlers *)
(* ===================================================================== *)

(** [UserController.followUser] by the outcome of the service. *)
Lemma UserController_followUser_run (st : Store) (a b : string) :
  run (UserController.followUser a b) st =
    match run (FollowService.followUser a b) st with
    | (Ok (RequestResult request), st') =>
        (Ok (mkReply 201 (RequestSentPayload "Follow request sent" request)), st')
    | (Ok (FollowingResult follow), st') =>
        (Ok (mkReply 201 (FollowedPayload "Successfully followed user" follow)), st')
    | (Thrown e, st') =>
        (Ok (if messageIs e "Already following this user" ||
                messageIs e "Follow request already pending" ||
                messageIs e "You cannot follow yourself"
             then mkReply 400 (ErrorPayload (errorMessage e))
             else if messageIs e "User not found"
             then mkReply 404 (ErrorPayload (errorMessage e))
             else internalServerError), st')
    end.
Proof.
  unfold UserController.followUser. rewrite run_tryCatch, run_bind.
  destruct (run (FollowService.followUser a b) st) as [[[request|follow]|e] st']; try done.
  simpl. destruct (_ || _); [done|]. by destruct (messageIs e "User not found").
Qed.

(** X12. [UserController.followUser] from the state of the store to the
    HTTP reply. It answers 400 "You cannot follow yourself" for a
    self-follow, 400 "Already following this user" when the edge exists,
    404 "User not found" for an unknown target, 400 "Follow request
    already pending" for a private target with a PENDING request, and 500
    "Internal server error" for a private target whose request row is
    ACCEPTED; in all these cases nothing is written. It answers 201 when
    the edge or the request is created or revived. It never throws. *)
Theorem UserController_followUser_replies (st : Store) (a b : string) :
  (exists reply st', run (UserController.followUser a b) st = (Ok reply, st')) /\
  (a = b ->
   run (UserController.followUser a b) st
     = (Ok (mkReply 400 (ErrorPayload "You cannot follow yourself")), st)) /\
  (a ≠ b -> is_Some (prisma.follow.findUnique a b st) ->
   run (UserController.followUser a b) st
     = (Ok (mkReply 400 (ErrorPayload "Already following this user")), st)) /\
  (a ≠ b -> prisma.follow.findUnique a b st = None -> prisma.user.findUnique b st = None ->
   run (UserController.followUser a b) st
     = (Ok (mkReply 404 (ErrorPayload "User not found")), st)) /\
  (forall u r, a ≠ b -> prisma.follow.findUnique a b st = None ->
   prisma.user.findUnique b st = Some u -> User.isPrivate u = true ->
   prisma.followRequest.findUnique a b st = Some r ->
   match FollowRequest.status r with
   | PENDING =>
       run (UserController.followUser a b) st
         = (Ok (mkReply 400 (ErrorPayload "Follow request already pending")), st)
   | ACCEPTED =>
       run (UserController.followUser a b) st = (Ok internalServerError, st)
   | REJECTED =>
       exists request st',
         run (UserController.followUser a b) st
           = (Ok (mkReply 201 (RequestSentPayload "Follow request sent" request)), st') /\
         FollowRequest.id request = FollowRequest.id r /\
         FollowRequest.status request = PENDING
   end) /\
  (forall u, a ≠ b -> prisma.userExists st a = true ->
   prisma.follow.findUnique a b st = None ->
   prisma.user.findUnique b st = Some u ->
   if User.isPrivate u then
     prisma.followRequest.findUnique a b st = None ->
     exists request st',
       run (UserController.followUser a b) st
         = (Ok (mkReply 201 (RequestSentPayload "Follow request sent" request)), st') /\
       requestKey request = (a, b) /\ FollowRequest.status request = PENDING
   else
     exists follow st',
       run (UserController.followUser a b) st
         = (Ok (mkReply 201 (FollowedPayload "Successfully followed user" follow)), st') /\
       followKey follow = (a, b)).
Proof.
  split; [|split; [|split; [|split; [|split]]]].
  - rewrite UserController_followUser_run.
    destruct (run (FollowService.followUser a b) st) as [[[request|follow]|e] st'];
      by do 2 eexists.
  - intros ->. rewrite UserController_followUser_run.
    unfold FollowService.followUser. by rewrite bool_decide_eq_true_2.
  - intros Hab [f Hf]. rewrite UserController_followUser_run.
    unfold FollowService.followUser. rewrite bool_decide_eq_false_2 by done.
    by rewrite run_read, Hf.
  - intros Hab Hf Hu. rewrite UserController_followUser_run.
    unfold FollowService.followUser. rewrite bool_decide_eq_false_2 by done.
    by rewrite run_read, Hf, run_read, Hu.
  - intros u r Hab Hf Hu Hpriv Hr. rewrite UserController_followUser_run.
    rewrite (followUser_private st a b u Hab Hf Hu Hpriv), Hr.
    destruct (FollowRequest.status r) eqn:Hs.
    + done.
    + rewrite followRequest_create_dup; [done|by rewrite Hr].
    + destruct (followUser_resurrects st a b u r Hab Hu Hpriv Hf Hr Hs)
        as (request & Hrun & Hid & Hst).
      rewrite (followUser_private st a b u Hab Hf Hu Hpriv), Hr, Hs in Hrun.
      rewrite Hrun. by do 2 eexists.
  - intros u Hab Ha Hf Hu. pose proof (user_findUnique_exists _ _ _ Hu) as Hb.
    destruct (User.isPrivate u) eqn:Hpriv.
    + intros Hr. rewrite UserController_followUser_run.
      rewrite (followUser_private st a b u Hab Hf Hu Hpriv), Hr.
      rewrite (followRequest_create_ok st a b Hr Ha Hb). by do 2 eexists.
    + rewrite UserController_followUser_run.
      rewrite (followUser_public st a b u Hab Hf Hu Hpriv).
      rewrite (follow_create_ok st a b Hf Ha Hb). by do 2 eexists.
Qed.

(** X13. The handlers for accepting and for rejecting a request answer
    the failed guards alike and write nothing: 400 "Follow request not
    found" for an unknown request, 403 "Unauthorized" when the caller is
    not its receiver (whatever its status), 400 "Request is not pending"
    when it is the caller's but not PENDING. *)
Theorem accept_reject_handlers_guards (st : Store) (receiver requestId : string) :
  (prisma.followRequest.findUniqueById requestId st = None ->
   run (UserController.acceptFollowRequest receiver requestId) st
     = (Ok (mkReply 400 (ErrorPayload "Follow request not found")), st) /\
   run (UserController.rejectFollowRequest receiver requestId) st
     = (Ok (mkReply 400 (ErrorPayload "Follow request not found")), st)) /\
  (forall q, prisma.followRequest.findUniqueById requestId st = Some q ->
   FollowRequest.receiverId q ≠ receiver ->
   run (UserController.acceptFollowRequest receiver requestId) st
     = (Ok (mkReply 403 (ErrorPayload "Unauthorized")), st) /\
   run (UserController.rejectFollowRequest receiver requestId) st
     = (Ok (mkReply 403 (ErrorPayload "Unauthorized")), st)) /\
  (forall q, prisma.followRequest.findUniqueById requestId st = Some q ->
   FollowRequest.receiverId q = receiver -> FollowRequest.status q ≠ PENDING ->
   run (UserController.acceptFollowRequest receiver requestId) st
     = (Ok (mkReply 400 (ErrorPayload "Request is not pending")), st) /\
   run (UserController.rejectFollowRequest receiver requestId) st
     = (Ok (mkReply 400 (ErrorPayload "Request is not pending")), st)).
Proof.
  unfold UserController.acceptFollowRequest, UserController.rejectFollowRequest.
  unfold FollowService.acceptFollowRequest, FollowService.rejectFollowRequest.
  split; [|split].
  - intros Hq. rewrite !run_tryCatch, !run_bind, !run_read, Hq. done.
  - intros q Hq Hne. rewrite !run_tryCatch, !run_bind, !run_read, Hq.
    rewrite !bool_decide_eq_true_2 by done. done.
  - intros q Hq Heq Hs. rewrite !run_tryCatch, !run_bind, !run_read, Hq.
    rewrite (bool_decide_eq_false_2 (FollowRequest.receiverId q ≠ receiver))
      by (intros ?; congruence).
    rewrite !bool_decide_eq_true_2 by done. done.
Qed.

(** X14. [PinController.getPin] does not tell a pin the viewer may not
    see from a pin that does not exist: for a viewer to whom a pin of the
    store is not visible the reply is the 404 "Pin not found or you don't
    have access to it" given for an unknown key; for a viewer to whom it
    is visible the reply is 200 with the pin. *)
Theorem getPin_hides_existence (st : Store) (pinId unknownId : string)
    (v : option string) (P : Pin.t) :
  v ≠ Some "" ->
  List.find (fun p => bool_decide (Pin.id p = pinId)) (pins st) = Some P ->
  List.find (fun p => bool_decide (Pin.id p = unknownId)) (pins st) = None ->
  run (PinController.getPin unknownId v) st
    = (Ok (mkReply 404 (ErrorPayload "Pin not found or you don't have access to it")), st) /\
  (~ visibleTo st v P ->
   run (PinController.getPin pinId v) st = run (PinController.getPin unknownId v) st) /\
  (visibleTo st v P ->
   exists liked,
     run (PinController.getPin pinId v) st = (Ok (mkReply 200 (PinPayload (mkPinView P liked))), st)).
Proof.
  intros Hv HP Hunknown.
  assert (run (PinController.getPin unknownId v) st
    = (Ok (mkReply 404 (ErrorPayload "Pin not found or you don't have access to it")), st))
    as Hmissing.
  { unfold PinController.getPin, PinService.getPinById.
    rewrite run_tryCatch, run_bind, run_read. unfold prisma.pin.findUnique.
    by rewrite Hunknown. }
  split; [exact Hmissing|].
  assert (run (PinService.getPinById pinId v) st =
    if Pin.isPublic P then
      (Ok (Some (PinService.withLikeStatus v (prisma.pin.includeLikes v st P))), st)
    else if bool_decide (v = Some (Pin.authorId P)) then
      (Ok (Some (PinService.withLikeStatus v (prisma.pin.includeLikes v st P))), st)
    else match v with
         | Some u =>
             if prisma.follow.findUnique u (Pin.authorId P) st is Some _ then
               (Ok (Some (PinService.withLikeStatus v (prisma.pin.includeLikes v st P))), st)
             else (Ok None, st)
         | None => (Ok None, st)
         end) as Hrun.
  { unfold PinService.getPinById.
    rewrite run_read. unfold prisma.pin.findUnique. rewrite HP. simpl.
    destruct (Pin.isPublic P); simpl; [done|].
    destruct (bool_decide_reflect (v = Some (Pin.authorId P))) as [->|Hne].
    - by rewrite bool_decide_eq_false_2 by (intros H; by apply H).
    - rewrite bool_decide_eq_true_2 by done.
      destruct v as [u|]; [|done].
      assert (u ≠ "") as Hu by (intros ->; by apply Hv).
      unfold truthy. rewrite bool_decide_eq_true_2 by done.
      rewrite run_read. by destruct (prisma.follow.findUnique u (Pin.authorId P) st). }
  split.
  - intros Hvis. rewrite Hmissing. unfold PinController.getPin.
    rewrite run_tryCatch, run_bind, Hrun.
    destruct (Pin.isPublic P) eqn:Hpub; [exfalso; apply Hvis; by left|].
    destruct (bool_decide_reflect (v = Some (Pin.authorId P))) as [->|Hne];
      [exfalso; apply Hvis; right; by left|].
    destruct v as [u|]; [|done].
    destruct (prisma.follow.findUnique u (Pin.authorId P) st) as [f|] eqn:Hf; [|done].
    exfalso; apply Hvis. right; right. exists u. by rewrite Hf.
  - intros Hvis. unfold PinController.getPin. rewrite run_tryCatch, run_bind, Hrun.
    destruct (Pin.isPublic P) eqn:Hpub; [by eexists|].
    destruct (bool_decide_reflect (v = Some (Pin.authorId P))) as [->|Hne]; [by eexists|].
    destruct Hvis as [?|[?|(u & -> & [f Hf])]]; [congruence|done|].
    rewrite Hf. by eexists.
Qed.

(* ===================================================================== *)
(** ** Likes *)
(* ===================================================================== *)

Lemma like_matches_iff pinId userId (l : Like.t) :
  prisma_like.matches pinId userId l = true <-> Like.pinId l = pinId /\ Like.userId l = userId.
Proof. unfold prisma_like.matches. by rewrite andb_true_iff, !bool_decide_eq_true. Qed.

(** What [likePin] does, by the outcome of the insert. *)
Lemma likePin_run (st : Store) (pinId userId : string) :
  run (PinWrites.likePin pinId userId) st =
    match prisma_like.create pinId userId st with
    | Ok (like, st') => (Ok (Some like), st')
    | Thrown e =>
        (match e with
         | PrismaClientKnownRequestError code =>
             if bool_decide (code = "P2002") then Ok None else Thrown e
         | Error _ => Thrown e
         end, st)
    end.
Proof.
  unfold PinWrites.likePin. rewrite run_tryCatch. simpl.
  destruct (prisma_like.create pinId userId st) as [[like st']|[m|code]]; try done.
  simpl. by destruct (bool_decide (code = "P2002")).
Qed.

(** X15. [likePin]: a first like of an existing pin by an existing user
    adds one row and returns it; a like that is already there gives null
    and writes nothing (the unique-constraint fault is swallowed); a like
    of an unknown pin or by an unknown user throws the foreign-key fault
    P2003. Liking twice therefore leaves the store of the first like. *)
Theorem likePin_at_most_once (st : Store) (pinId userId : string) :
  (is_Some (List.find (prisma_like.matches pinId userId) (likes st)) ->
   run (PinWrites.likePin pinId userId) st = (Ok None, st)) /\
  (List.find (prisma_like.matches pinId userId) (likes st) = None ->
   prisma_like.pinExists st pinId && prisma.userExists st userId = false ->
   run (PinWrites.likePin pinId userId) st = (Thrown P2003, st)) /\
  (List.find (prisma_like.matches pinId userId) (likes st) = None ->
   prisma_like.pinExists st pinId && prisma.userExists st userId = true ->
   exists like,
     run (PinWrites.likePin pinId userId) st = (Ok (Some like), with_likes st (likes st ++ [like])) /\
     Like.pinId like = pinId /\ Like.userId like = userId /\
     (Like.id like ∉ Like.id <$> likes st) /\
     run (PinWrites.likePin pinId userId) (with_likes st (likes st ++ [like]))
       = (Ok None, with_likes st (likes st ++ [like]))).
Proof.
  split; [|split].
  - intros [l Hl]. rewrite likePin_run. unfold prisma_like.create.
    by rewrite (find_some_existsb _ _ _ Hl).
  - intros Hnone Hfk. rewrite likePin_run. unfold prisma_like.create.
    by rewrite (find_none_existsb _ _ Hnone), Hfk.
  - intros Hnone Hfk. rewrite likePin_run. unfold prisma_like.create.
    rewrite (find_none_existsb _ _ Hnone), Hfk. cbn [negb].
    eexists. split; [done|]. repeat split; [apply newId_fresh|].
    rewrite likePin_run. unfold prisma_like.create. cbn [likes with_likes].
    rewrite existsb_app. cbn [existsb]. unfold prisma_like.matches at 2.
    cbn [Like.pinId Like.userId].
    rewrite !bool_decide_eq_true_2 by done. cbn [andb orb]. by rewrite orb_true_r.
Qed.

(** X16. After a [likePin] that did not throw, whether it added the
    like or found it, every view of the pin that [getPinById] hands to
    that user says [isLiked = true]. *)
Theorem likePin_then_isLiked (st : Store) (pinId userId : string)
    (outcome : option Like.t) (st' : Store) (view : PinView) :
  userId ≠ "" ->
  run (PinWrites.likePin pinId userId) st = (Ok outcome, st') ->
  run (PinService.getPinById pinId (Some userId)) st' = (Ok (Some view), st') ->
  isLiked view = true.
Proof.
  intros Hu Hlike Hget.
  assert (exists l, l ∈ likes st' /\ Like.pinId l = pinId /\ Like.userId l = userId) as Hrow.
  { rewrite likePin_run in Hlike. unfold prisma_like.create in Hlike.
    destruct (existsb _ (likes st)) eqn:Hex.
    - simpl in Hlike. injection Hlike as _ <-.
      apply existsb_exists in Hex as (l & Hin & Hm%like_matches_iff).
      exists l. split; [by apply list_elem_of_In|done].
    - destruct (negb _); [done|]. injection Hlike as _ <-.
      eexists. split; [apply elem_of_app; right; by apply list_elem_of_singleton|done]. }
  destruct Hrow as (l & Hin & Hp & Hlu).
  unfold PinService.getPinById in Hget. rewrite run_read in Hget.
  unfold prisma.pin.findUnique in Hget.
  destruct (List.find _ (pins st')) as [P|] eqn:HP; [|done].
  destruct (find_some_in _ _ _ HP) as [_ Hid%bool_decide_eq_true].
  assert (PinService.withLikeStatus (Some userId) (prisma.pin.includeLikes (Some userId) st' P)
          = mkPinView P true) as Hview.
  { unfold PinService.withLikeStatus, prisma.pin.includeLikes, truthy.
    rewrite bool_decide_eq_true_2 by done. simpl. f_equal.
    apply bool_decide_eq_true_2.
    assert (l ∈ List.filter (fun x => bool_decide (Like.pinId x = Pin.id P) &&
                                      bool_decide (Like.userId x = userId)) (likes st')) as Hl.
    { apply list_elem_of_In, List.filter_In. split; [by apply list_elem_of_In|].
      rewrite !bool_decide_eq_true_2 by congruence. done. }
    destruct (List.filter _ (likes st')); [by apply elem_of_nil in Hl|simpl; lia]. }
  simpl in Hget. rewrite Hview in Hget.
  destruct (negb _ && _).
  - unfold truthy in Hget. rewrite bool_decide_eq_true_2 in Hget by done.
    rewrite run_read in Hget.
    destruct (prisma.follow.findUnique _ _ st'); [|done]. by injection Hget as <-.
  - by injection Hget as <-.
Qed.

(** What [unlikePin] does. *)
Lemma unlikePin_run (st : Store) (pinId userId : string) :
  run (PinWrites.unlikePin pinId userId) st =
    match List.find (prisma_like.matches pinId userId) (likes st) with
    | Some _ =>
        (Ok true,
         with_likes st (List.filter (fun l => negb (prisma_like.matches pinId userId l)) (likes st)))
    | None => (Ok false, st)
    end.
Proof.
  unfold PinWrites.unlikePin. rewrite run_tryCatch. simpl. unfold prisma_like.delete.
  by destruct (List.find _ (likes st)).
Qed.

(** X17. [unlikePin] never throws: it answers false and writes nothing
    when the user has no like on the pin; otherwise it answers true and
    the like is gone while the likes of other pins and users stay. A like
    followed by an unlike brings back the very store one started from. *)
Theorem unlikePin_undoes_likePin (st : Store) (pinId userId : string) :
  (List.find (prisma_like.matches pinId userId) (likes st) = None ->
   run (PinWrites.unlikePin pinId userId) st = (Ok false, st)) /\
  (is_Some (List.find (prisma_like.matches pinId userId) (likes st)) ->
   exists st',
     run (PinWrites.unlikePin pinId userId) st = (Ok true, st') /\
     List.find (prisma_like.matches pinId userId) (likes st') = None /\
     (forall l, l ∈ likes st ->
      prisma_like.matches pinId userId l = false -> l ∈ likes st')) /\
  (List.find (prisma_like.matches pinId userId) (likes st) = None ->
   prisma_like.pinExists st pinId && prisma.userExists st userId = true ->
   run (PinWrites.unlikePin pinId userId) (commit (PinWrites.likePin pinId userId) st)
     = (Ok true, st)).
Proof.
  split; [|split].
  - intros Hnone. by rewrite unlikePin_run, Hnone.
  - intros [l Hl]. rewrite unlikePin_run, Hl. eexists. split; [done|]. simpl. split.
    + apply find_filter_none. intros x _ Hx. by rewrite Hx.
    + intros x Hx Hm. apply list_elem_of_In, List.filter_In.
      split; [by apply list_elem_of_In|by rewrite Hm].
  - intros Hnone Hfk. unfold commit. rewrite likePin_run. unfold prisma_like.create.
    rewrite (find_none_existsb _ _ Hnone), Hfk. cbn [negb snd].
    rewrite unlikePin_run. cbn [likes with_likes].
    rewrite (find_app_none _ _ _ Hnone).
    unfold prisma_like.matches at 1. cbn [Like.pinId Like.userId].
    rewrite !bool_decide_eq_true_2 by done. cbn [andb]. f_equal.
    unfold with_likes. cbn [users follows followRequests pins likes].
    rewrite List.filter_app. cbn [List.filter].
    unfold prisma_like.matches at 2. cbn [Like.pinId Like.userId].
    rewrite !bool_decide_eq_true_2 by done. cbn [andb negb]. rewrite app_nil_r.
    rewrite filter_all; [apply store_eta|].
    intros x Hx. apply negb_true_iff.
    destruct (prisma_like.matches pinId userId x) eqn:Hm; [|done].
    apply find_none_existsb in Hnone.
    assert (existsb (prisma_like.matches pinId userId) (likes st) = true) as Hex;
      [|congruence].
    apply existsb_exists. exists x. split; [by apply list_elem_of_In|done].
Qed.

(* ===================================================================== *)
(** ** Writing pins *)
(* ===================================================================== *)

(** [getPinById] on a pin of the store, for a viewer that is absent or
    has a non-empty key. *)
Lemma getPinById_run (st : Store) (pinId : string) (v : option string) (P : Pin.t) :
  v ≠ Some "" ->
  List.find (fun p => bool_decide (Pin.id p = pinId)) (pins st) = Some P ->
  run (PinService.getPinById pinId v) st =
    (if Pin.isPublic P || bool_decide (v = Some (Pin.authorId P)) ||
        (if v is Some u then bool_decide (is_Some (prisma.follow.findUnique u (Pin.authorId P) st))
         else false)
     then Ok (Some (PinService.withLikeStatus v (prisma.pin.includeLikes v st P)))
     else Ok None, st).
Proof.
  intros Hv HP. unfold PinService.getPinById.
  rewrite run_read. unfold prisma.pin.findUnique. rewrite HP. simpl.
  destruct (Pin.isPublic P); simpl; [done|].
  destruct (bool_decide_reflect (v = Some (Pin.authorId P))) as [->|Hne].
  - by rewrite bool_decide_eq_false_2 by (intros H; by apply H).
  - rewrite bool_decide_eq_true_2 by done. simpl.
    destruct v as [u|]; [|done].
    assert (u ≠ "") as Hu by (intros ->; by apply Hv).
    unfold truthy. rewrite bool_decide_eq_true_2 by done.
    rewrite run_read. destruct (prisma.follow.findUnique u (Pin.authorId P) st).
    + by rewrite bool_decide_eq_true_2.
    + by rewrite bool_decide_eq_false_2 by (by intros [? ?]).
Qed.

Lemma getPinById_missing (st : Store) (pinId : string) (v : option string) :
  List.find (fun p => bool_decide (Pin.id p = pinId)) (pins st) = None ->
  run (PinService.getPinById pinId v) st = (Ok None, st).
Proof.
  intros H. unfold PinService.getPinById. rewrite run_read.
  unfold prisma.pin.findUnique. by rewrite H.
Qed.

(** X18. [deletePin] answers false and writes nothing for an unknown
    pin and for a pin of another author. For the author it answers true;
    afterwards the pin is gone for every viewer, none of its likes is
    left, and the other pins, the edges and the requests are as before. *)
Theorem deletePin_owner_only (st : Store) (pinId userId : string) :
  (prisma_pin.findUnique pinId st = None ->
   run (PinWrites.deletePin pinId userId) st = (Ok false, st)) /\
  (forall P, prisma_pin.findUnique pinId st = Some P -> Pin.authorId P ≠ userId ->
   run (PinWrites.deletePin pinId userId) st = (Ok false, st)) /\
  (forall P, prisma_pin.findUnique pinId st = Some P -> Pin.authorId P = userId ->
   exists st',
     run (PinWrites.deletePin pinId userId) st = (Ok true, st') /\
     (forall v, run (PinService.getPinById pinId v) st' = (Ok None, st')) /\
     (forall l, l ∈ likes st' -> Like.pinId l ≠ pinId) /\
     (forall j, j ≠ pinId -> prisma_pin.findUnique j st' = prisma_pin.findUnique j st) /\
     follows st' = follows st /\ followRequests st' = followRequests st /\
     users st' = users st).
Proof.
  unfold PinWrites.deletePin. split; [|split].
  - intros Hnone. by rewrite run_read, Hnone.
  - intros P HP Hne. rewrite run_read, HP. by rewrite bool_decide_eq_true_2.
  - intros P HP Heq. rewrite run_read, HP.
    rewrite bool_decide_eq_false_2 by (intros ?; congruence).
    simpl. unfold prisma_pin.delete. rewrite HP.
    eexists. split; [done|]. split; [|split; [|split; [|done]]].
    + intros v. apply getPinById_missing. simpl.
      apply find_filter_none. intros x _ Hx. by rewrite Hx.
    + intros l Hl. simpl in Hl.
      apply list_elem_of_In, List.filter_In in Hl as [_ Hl].
      by apply negb_true_iff, bool_decide_eq_false in Hl.
    + intros j Hj. unfold prisma_pin.findUnique. simpl.
      apply find_filter_same. intros x _ Hx%bool_decide_eq_true.
      apply negb_true_iff, bool_decide_eq_false_2. congruence.
Qed.

Lemma find_update_pin (l : list Pin.t) (i : string) (data : PinUpdateInput) (P : Pin.t) :
  List.find (fun p => bool_decide (Pin.id p = i)) l = Some P ->
  List.find (fun p => bool_decide (Pin.id p = i))
    ((fun p => if bool_decide (Pin.id p = i) then prisma_pin.applyUpdate data p else p) <$> l)
  = Some (prisma_pin.applyUpdate data P).
Proof.
  induction l as [|x l IH]; [done|]. rewrite fmap_cons. simpl.
  destruct (bool_decide_reflect (Pin.id x = i)) as [Hx|Hx]; simpl.
  - intros [= ->]. by rewrite bool_decide_eq_true_2.
  - rewrite bool_decide_eq_false_2 by done. apply IH.
Qed.

Lemma find_update_pin_ne (l : list Pin.t) (i j : string) (data : PinUpdateInput) :
  j ≠ i ->
  List.find (fun p => bool_decide (Pin.id p = j))
    ((fun p => if bool_decide (Pin.id p = i) then prisma_pin.applyUpdate data p else p) <$> l)
  = List.find (fun p => bool_decide (Pin.id p = j)) l.
Proof.
  intros Hne. induction l as [|x l IH]; [done|]. rewrite fmap_cons. simpl.
  destruct (bool_decide_reflect (Pin.id x = i)) as [Hx|Hx]; simpl.
  - rewrite !bool_decide_eq_false_2 by congruence. apply IH.
  - destruct (bool_decide (Pin.id x = j)); [done|apply IH].
Qed.

(** X19. [updatePin] answers null and writes nothing for an unknown pin
    and for a pin of another author. For the author it updates that pin
    and no other; once the author has set [isPublic] to true, every
    viewer, also an anonymous one, gets the pin from [getPinById]. *)
Theorem updatePin_owner_only (st : Store) (pinId userId : string) (data : PinUpdateInput) :
  (prisma_pin.findUnique pinId st = None ->
   run (PinWrites.updatePin pinId userId data) st = (Ok None, st)) /\
  (forall P, prisma_pin.findUnique pinId st = Some P -> Pin.authorId P ≠ userId ->
   run (PinWrites.updatePin pinId userId data) st = (Ok None, st)) /\
  (forall P, prisma_pin.findUnique pinId st = Some P -> Pin.authorId P = userId ->
   exists st',
     run (PinWrites.updatePin pinId userId data) st
       = (Ok (Some (prisma_pin.applyUpdate data P)), st') /\
     prisma_pin.findUnique pinId st' = Some (prisma_pin.applyUpdate data P) /\
     (forall j, j ≠ pinId -> prisma_pin.findUnique j st' = prisma_pin.findUnique j st) /\
     follows st' = follows st /\ likes st' = likes st /\
     (data_isPublic data = Some true ->
      forall v, exists liked,
        run (PinService.getPinById pinId v) st'
          = (Ok (Some (mkPinView (prisma_pin.applyUpdate data P) liked)), st'))).
Proof.
  unfold PinWrites.updatePin. split; [|split].
  - intros Hnone. by rewrite run_read, Hnone.
  - intros P HP Hne. rewrite run_read, HP. by rewrite bool_decide_eq_true_2.
  - intros P HP Heq.
    set (st' := with_pins st
           ((fun p => if bool_decide (Pin.id p = pinId)
                      then prisma_pin.applyUpdate data p else p) <$> pins st)).
    exists st'. split; [|split; [|split; [|split; [done|split; [done|]]]]].
    + rewrite run_read, HP.
      rewrite bool_decide_eq_false_2 by (intros ?; congruence).
      cbn [run]. unfold prisma_pin.update. by rewrite HP.
    + unfold prisma_pin.findUnique, st'. cbn [pins with_pins]. by apply find_update_pin.
    + intros j Hj. unfold prisma_pin.findUnique, st'. cbn [pins with_pins].
      by apply find_update_pin_ne.
    + intros Hpub v. unfold PinService.getPinById. rewrite run_read.
      unfold prisma.pin.findUnique, st'. cbn [pins with_pins].
      unfold prisma_pin.findUnique in HP.
      rewrite (find_update_pin _ _ data P HP). simpl.
      rewrite Hpub. simpl. by eexists.
Qed.

(** X20. A pin created without [isPublic] is not public: [getPinById]
    withholds it from an anonymous viewer and from a user who does not
    follow the author, and hands it to the author. With an author who is
    no user the creation fails with the foreign-key fault P2003. *)
Theorem createPin_private_by_default (st : Store) (author : string)
    (lat lng : float) (now : Z) :
  (prisma.userExists st author = false ->
   run (PinWrites.createPin author lat lng None now) st = (Thrown P2003, st)) /\
  (prisma.userExists st author = true ->
   exists P st',
     run (PinWrites.createPin author lat lng None now) st = (Ok P, st') /\
     Pin.isPublic P = false /\ Pin.authorId P = author /\
     (Pin.id P ∉ Pin.id <$> pins st) /\
     run (PinService.getPinById (Pin.id P) None) st' = (Ok None, st') /\
     (forall v, v ≠ "" -> v ≠ author -> prisma.follow.findUnique v author st = None ->
      run (PinService.getPinById (Pin.id P) (Some v)) st' = (Ok None, st')) /\
     exists liked,
       run (PinService.getPinById (Pin.id P) (Some author)) st'
         = (Ok (Some (mkPinView P liked)), st')).
Proof.
  unfold PinWrites.createPin. split.
  - intros Hu. simpl. unfold prisma_pin.create. by rewrite Hu.
  - intros Hu.
    set (P := Pin.mk (prisma.newId (Pin.id <$> pins st)) author lat lng (default false None) now).
    exists P, (with_pins st (pins st ++ [P])).
    split; [simpl; unfold prisma_pin.create; by rewrite Hu|].
    assert (List.find (fun p => bool_decide (Pin.id p = Pin.id P))
              (pins (with_pins st (pins st ++ [P]))) = Some P) as Hfound.
    { cbn [pins with_pins]. apply (find_fresh_snoc Pin.id). apply newId_fresh. }
    split; [done|]. split; [done|]. split; [apply newId_fresh|].
    split; [|split].
    + by rewrite (getPinById_run _ _ None P ltac:(done) Hfound).
    + intros v Hv Hne Hnofollow.
      rewrite (getPinById_run _ _ (Some v) P); [|congruence|done].
      cbn [Pin.isPublic Pin.authorId P orb default].
      rewrite bool_decide_eq_false_2 by congruence.
      change (prisma.follow.findUnique v author (with_pins st (pins st ++ [P])))
        with (prisma.follow.findUnique v author st).
      rewrite Hnofollow. by rewrite bool_decide_eq_false_2 by (by intros [? ?]).
    + unfold PinService.getPinById. rewrite run_read.
      unfold prisma.pin.findUnique. rewrite Hfound. simpl.
      rewrite bool_decide_eq_false_2 by (intros H; by apply H). simpl. by eexists.
Qed.

(* ===================================================================== *)
(** ** The pin handlers that write *)
(* ===================================================================== *)

(** X25. [PinController.likePin] from the store to the reply: 201 with
    the like for a first like of an existing pin, 400 "Pin already liked"
    when the like is there, and 500 "Internal server error" (not a 404)
    when the pin does not exist; the last two write nothing. *)
Theorem PinController_likePin_replies (st : Store) (pinId userId : string) :
  (is_Some (List.find (prisma_like.matches pinId userId) (likes st)) ->
   run (PinController.likePin pinId userId) st
     = (Ok (mkReply 400 (ErrorPayload "Pin already liked")), st)) /\
  (List.find (prisma_like.matches pinId userId) (likes st) = None ->
   prisma_like.pinExists st pinId = false ->
   run (PinController.likePin pinId userId) st = (Ok internalServerError, st)) /\
  (List.find (prisma_like.matches pinId userId) (likes st) = None ->
   prisma_like.pinExists st pinId && prisma.userExists st userId = true ->
   exists like st',
     run (PinController.likePin pinId userId) st = (Ok (mkReply 201 (LikePayload like)), st') /\
     Like.pinId like = pinId /\ Like.userId like = userId /\
     likes st' = likes st ++ [like]).
Proof.
  unfold PinController.likePin. split; [|split].
  - intros [l Hl]. rewrite run_tryCatch, run_bind, likePin_run. unfold prisma_like.create.
    by rewrite (find_some_existsb _ _ _ Hl).
  - intros Hnone Hpin. rewrite run_tryCatch, run_bind, likePin_run. unfold prisma_like.create.
    by rewrite (find_none_existsb _ _ Hnone), Hpin.
  - intros Hnone Hfk. rewrite run_tryCatch, run_bind, likePin_run. unfold prisma_like.create.
    rewrite (find_none_existsb _ _ Hnone), Hfk. cbn [negb]. by do 2 eexists.
Qed.

(** X26. [PinController.deletePin] answers a pin of another author with
    the very 404 it gives for an unknown pin and writes nothing in either
    case; for the author it answers 200 and the pin is gone. *)
Theorem PinController_deletePin_replies (st : Store) (pinId unknownId userId : string)
    (P : Pin.t) :
  prisma_pin.findUnique pinId st = Some P ->
  prisma_pin.findUnique unknownId st = None ->
  run (PinController.deletePin unknownId userId) st
    = (Ok (mkReply 404
             (ErrorPayload "Pin not found or you don't have permission to delete it")), st) /\
  (Pin.authorId P ≠ userId ->
   run (PinController.deletePin pinId userId) st
     = run (PinController.deletePin unknownId userId) st) /\
  (Pin.authorId P = userId ->
   exists st',
     run (PinController.deletePin pinId userId) st
       = (Ok (mkReply 200 (MessagePayload "Pin deleted successfully")), st') /\
     prisma_pin.findUnique pinId st' = None).
Proof.
  intros HP Hunknown. unfold PinController.deletePin, PinWrites.deletePin.
  split; [|split].
  - by rewrite run_tryCatch, run_bind, run_read, Hunknown.
  - intros Hne. rewrite !run_tryCatch, !run_bind, !run_read, HP, Hunknown.
    by rewrite bool_decide_eq_true_2.
  - intros Heq. rewrite run_tryCatch, run_bind, run_read, HP.
    rewrite bool_decide_eq_false_2 by (intros ?; congruence).
    cbn [run]. unfold prisma_pin.delete. rewrite HP. cbn [run].
    eexists. split; [done|]. unfold prisma_pin.findUnique. simpl.
    apply find_filter_none. intros x _ Hx. by rewrite Hx.
Qed.

(* ===================================================================== *)
(** ** More on the listing *)
(* ===================================================================== *)




Section WithMath.
Context {M : MathLib}.




End WithMath.

(* ===================================================================== *)
(** ** The further statements at concrete stores *)
(* ===================================================================== *)

Lemma unfollowUser_removes_the_edge_witness :
  run (FollowService.unfollowUser "u3" "u1") followingStore
    = (Thrown NotFollowingError, followingStore) /\
  exists st',
    run (FollowService.unfollowUser "u2" "u1") followingStore = (Ok true, st') /\
    run (FollowService.isFollowing "u2" "u1") st' = (Ok false, st').
Proof.
  assert (schema_ok followingStore) as Hok by solve_schema_ok.
  destruct (unfollowUser_removes_the_edge followingStore "u3" "u1" Hok) as [H1 _].
  destruct (unfollowUser_removes_the_edge followingStore "u2" "u1" Hok) as [_ H2].
  split; [apply H1; reflexivity|].
  destruct (H2 (Follow.mk "f1" "u2" "u1") eq_refl) as (st' & Hrun & Hno & _).
  exists st'. split; assumption.
Defined.

Lemma cancelFollowRequest_only_while_pending_witness :
  run (FollowService.cancelFollowRequest "u2" "u3") rejectedStore
    = (Thrown CancelNotPendingError, rejectedStore) /\
  exists st',
    run (FollowService.cancelFollowRequest "u2" "u3") pendingStore = (Ok true, st') /\
    run (FollowService.getFollowRequestStatus "u2" "u3") st' = (Ok None, st').
Proof.
  split.
  - assert (schema_ok rejectedStore) as Hok by solve_schema_ok.
    destruct (cancelFollowRequest_only_while_pending rejectedStore "u2" "u3" Hok)
      as (_ & H & _).
    apply (H (FollowRequest.mk "r1" "u2" "u3" REJECTED)); [reflexivity|discriminate].
  - assert (schema_ok pendingStore) as Hok by solve_schema_ok.
    destruct (cancelFollowRequest_only_while_pending pendingStore "u2" "u3" Hok)
      as (_ & _ & H).
    destruct (H (FollowRequest.mk "r1" "u2" "u3" PENDING) eq_refl eq_refl)
      as (st' & Hrun & Hstatus & _).
    exists st'. split; assumption.
Defined.

Lemma rejectFollowRequest_rejects_witness :
  run (FollowService.rejectFollowRequest "u2" "r1") pendingStore
    = (Thrown UnauthorizedError, pendingStore) /\
  exists st',
    run (FollowService.rejectFollowRequest "u3" "r1") pendingStore = (Ok true, st') /\
    prisma.followRequest.findUniqueById "r1" st'
      = Some (FollowRequest.mk "r1" "u2" "u3" REJECTED) /\
    follows st' = [].
Proof.
  destruct (rejectFollowRequest_rejects pendingStore "u2" "r1") as (_ & H1 & _).
  destruct (rejectFollowRequest_rejects pendingStore "u3" "r1") as (_ & _ & _ & H2).
  split.
  - apply (H1 (FollowRequest.mk "r1" "u2" "u3" PENDING)); [reflexivity|discriminate].
  - destruct (H2 (FollowRequest.mk "r1" "u2" "u3" PENDING) eq_refl eq_refl eq_refl)
      as (st' & Hrun & Hfound & _ & Hf & _).
    exists st'. repeat split; assumption.
Defined.

Lemma follow_then_unfollow_restores_witness :
  run (FollowService.unfollowUser "u2" "u1")
      (commit (FollowService.followUser "u2" "u1") emptyRelations)
    = (Ok true, emptyRelations).
Proof.
  apply (follow_then_unfollow_restores emptyRelations "u2" "u1" (User.mk "u1" false)
           ltac:(discriminate) eq_refl eq_refl eq_refl eq_refl).
Defined.

Lemma request_then_cancel_restores_witness :
  run (FollowService.cancelFollowRequest "u2" "u3")
      (commit (FollowService.followUser "u2" "u3") emptyRelations)
    = (Ok true, emptyRelations).
Proof.
  apply (request_then_cancel_restores emptyRelations "u2" "u3" (User.mk "u3" true)
           ltac:(discriminate) eq_refl eq_refl eq_refl eq_refl eq_refl).
Defined.

Lemma accept_then_unfollow_blocks_refollow_witness :
  exists request,
    run (FollowService.followUser "u2" "u3") emptyRelations
      = (Ok (RequestResult request),
         commit (FollowService.followUser "u2" "u3") emptyRelations) /\
    let st1 := commit (FollowService.followUser "u2" "u3") emptyRelations in
    let st2 := commit (FollowService.acceptFollowRequest "u3" (FollowRequest.id request)) st1 in
    let st3 := commit (FollowService.unfollowUser "u2" "u3") st2 in
    run (FollowService.isFollowing "u2" "u3") st2 = (Ok true, st2) /\
    run (FollowService.isFollowing "u2" "u3") st3 = (Ok false, st3) /\
    run (FollowService.getFollowRequestStatus "u2" "u3") st3 = (Ok (Some ACCEPTED), st3) /\
    run (FollowService.followUser "u2" "u3") st3 = (Thrown P2002, st3).
Proof.
  apply (accept_then_unfollow_blocks_refollow emptyRelations "u2" "u3" (User.mk "u3" true)
           ltac:(discriminate) eq_refl eq_refl eq_refl eq_refl eq_refl).
Defined.

Lemma followUser_counts_witness :
  run (FollowService.getFollowCounts "u1")
      (commit (FollowService.followUser "u2" "u1") emptyRelations)
    = (Ok (1, 0), commit (FollowService.followUser "u2" "u1") emptyRelations).
Proof.
  apply (followUser_counts emptyRelations "u2" "u1" (User.mk "u1" false)
           ltac:(discriminate) eq_refl eq_refl eq_refl eq_refl "u1" 0 0 eq_refl).
Defined.

Lemma operations_keep_consistent_witness :
  consistent (performAll [OpFollowUser "u2" "u3"; OpAcceptFollowRequest "u3" "0";
                          OpUnfollowUser "u2" "u3"; OpFollowUser "u2" "u1"] emptyRelations).
Proof.
  apply operations_keep_consistent. apply users_only_consistent; [|reflexivity..].
  apply (bool_decide_unpack _). vm_compute. exact I.
Defined.

Lemma accept_succeeds_on_reachable_witness :
  exists edge,
    followKey edge = ("u2", "u3") /\
    run (FollowService.acceptFollowRequest "u3" "0")
        (performAll [OpFollowUser "u2" "u3"] emptyRelations)
      = (Ok edge, accepted (performAll [OpFollowUser "u2" "u3"] emptyRelations) "0" edge).
Proof.
  assert (NoDup (User.id <$> users emptyRelations)) as Hu.
  { apply (bool_decide_unpack _). vm_compute. exact I. }
  destruct (accept_succeeds_on_reachable emptyRelations [OpFollowUser "u2" "u3"] "u3" "0"
              (FollowRequest.mk "0" "u2" "u3" PENDING) Hu eq_refl eq_refl eq_refl eq_refl eq_refl)
    as (edge & Hkey & Hrun & _).
  exists edge. split; assumption.
Defined.

Lemma following_excludes_open_request_witness :
  run (FollowService.getFollowRequestStatus "u2" "u1")
      (performAll [OpFollowUser "u2" "u1"] emptyRelations)
    = (Ok None, performAll [OpFollowUser "u2" "u1"] emptyRelations) \/
  run (FollowService.getFollowRequestStatus "u2" "u1")
      (performAll [OpFollowUser "u2" "u1"] emptyRelations)
    = (Ok (Some ACCEPTED), performAll [OpFollowUser "u2" "u1"] emptyRelations).
Proof.
  assert (NoDup (User.id <$> users emptyRelations)) as Hu.
  { apply (bool_decide_unpack _). vm_compute. exact I. }
  apply (following_excludes_open_request emptyRelations [OpFollowUser "u2" "u1"] "u2" "u1"
           Hu eq_refl eq_refl eq_refl).
Defined.

Lemma double_accept_race_witness :
  run_interleaved [id; commit (FollowService.acceptFollowRequest "u3" "r1")]
                  (FollowService.acceptFollowRequest "u3" "r1") pendingStore
    = (Thrown P2002, commit (FollowService.acceptFollowRequest "u3" "r1") pendingStore).
Proof.
  destruct (double_accept_race pendingStore "u3" "r1" (FollowRequest.mk "r1" "u2" "u3" PENDING)
              eq_refl eq_refl eq_refl eq_refl eq_refl eq_refl) as (H & _).
  exact H.
Defined.

Lemma UserController_followUser_replies_witness :
  run (UserController.followUser "u2" "u2") emptyRelations
    = (Ok (mkReply 400 (ErrorPayload "You cannot follow yourself")), emptyRelations) /\
  run (UserController.followUser "u2" "u1") followingStore
    = (Ok (mkReply 400 (ErrorPayload "Already following this user")), followingStore) /\
  run (UserController.followUser "u2" "u9") emptyRelations
    = (Ok (mkReply 404 (ErrorPayload "User not found")), emptyRelations) /\
  run (UserController.followUser "u2" "u3") acceptedThenUnfollowedStore
    = (Ok internalServerError, acceptedThenUnfollowedStore) /\
  exists follow st',
    run (UserController.followUser "u2" "u1") emptyRelations
      = (Ok (mkReply 201 (FollowedPayload "Successfully followed user" follow)), st').
Proof.
  split; [|split; [|split; [|split]]].
  - destruct (UserController_followUser_replies emptyRelations "u2" "u2") as (_ & H & _).
    apply H. reflexivity.
  - destruct (UserController_followUser_replies followingStore "u2" "u1") as (_ & _ & H & _).
    apply H; [discriminate|]. vm_compute. eexists. reflexivity.
  - destruct (UserController_followUser_replies emptyRelations "u2" "u9")
      as (_ & _ & _ & H & _).
    apply H; [discriminate|reflexivity|reflexivity].
  - destruct (UserController_followUser_replies acceptedThenUnfollowedStore "u2" "u3")
      as (_ & _ & _ & _ & H & _).
    apply (H (User.mk "u3" true) (FollowRequest.mk "r1" "u2" "u3" ACCEPTED)
             ltac:(discriminate) eq_refl eq_refl eq_refl eq_refl).
  - destruct (UserController_followUser_replies emptyRelations "u2" "u1")
      as (_ & _ & _ & _ & _ & H).
    destruct (H (User.mk "u1" false) ltac:(discriminate) eq_refl eq_refl eq_refl)
      as (follow & st' & Hrun & _).
    exists follow, st'. exact Hrun.
Defined.

Lemma accept_reject_handlers_guards_witness :
  run (UserController.acceptFollowRequest "u2" "r1") pendingStore
    = (Ok (mkReply 403 (ErrorPayload "Unauthorized")), pendingStore) /\
  run (UserController.rejectFollowRequest "u3" "r1") rejectedStore
    = (Ok (mkReply 400 (ErrorPayload "Request is not pending")), rejectedStore) /\
  run (UserController.acceptFollowRequest "u3" "r9") pendingStore
    = (Ok (mkReply 400 (ErrorPayload "Follow request not found")), pendingStore).
Proof.
  split; [|split].
  - destruct (accept_reject_handlers_guards pendingStore "u2" "r1") as (_ & H & _).
    apply (H (FollowRequest.mk "r1" "u2" "u3" PENDING)); [reflexivity|discriminate].
  - destruct (accept_reject_handlers_guards rejectedStore "u3" "r1") as (_ & _ & H).
    apply (H (FollowRequest.mk "r1" "u2" "u3" REJECTED)); [reflexivity..|discriminate].
  - destruct (accept_reject_handlers_guards pendingStore "u3" "r9") as (H & _).
    apply H. reflexivity.
Defined.

Lemma getPin_hides_existence_witness :
  run (PinController.getPin "p1" (Some "u2")) pinStore
    = run (PinController.getPin "p9" (Some "u2")) pinStore /\
  exists liked,
    run (PinController.getPin "p1" (Some "u3")) pinStore
      = (Ok (mkReply 200 (PinPayload (mkPinView portoPin liked))), pinStore).
Proof.
  split.
  - destruct (getPin_hides_existence pinStore "p1" "p9" (Some "u2") portoPin
                ltac:(discriminate) eq_refl eq_refl) as (_ & H & _).
    apply H. intros [Hpub|[Hauthor|(u & Hu & [f Hf])]]; [discriminate..|].
    injection Hu as <-. discriminate Hf.
  - destruct (getPin_hides_existence pinStore "p1" "p9" (Some "u3") portoPin
                ltac:(discriminate) eq_refl eq_refl) as (_ & _ & H).
    apply H. right. left. reflexivity.
Defined.

Lemma likePin_at_most_once_witness :
  run (PinWrites.likePin "p2" "u2") likedStore = (Ok None, likedStore) /\
  run (PinWrites.likePin "p9" "u2") pinStore = (Thrown P2003, pinStore) /\
  exists like,
    run (PinWrites.likePin "p2" "u2") pinStore
      = (Ok (Some like), with_likes pinStore (likes pinStore ++ [like])) /\
    Like.pinId like = "p2" /\ Like.userId like = "u2".
Proof.
  split; [|split].
  - destruct (likePin_at_most_once likedStore "p2" "u2") as (H & _).
    apply H. vm_compute. eexists. reflexivity.
  - destruct (likePin_at_most_once pinStore "p9" "u2") as (_ & H & _).
    apply H; reflexivity.
  - destruct (likePin_at_most_once pinStore "p2" "u2") as (_ & _ & H).
    destruct (H eq_refl eq_refl) as (like & Hrun & Hp & Hu & _).
    exists like. repeat split; assumption.
Defined.

Lemma likePin_then_isLiked_witness :
  isLiked (mkPinView lisbonPin true) = true.
Proof.
  apply (likePin_then_isLiked pinStore "p2" "u2" (Some (Like.mk "0" "p2" "u2"))
           (with_likes pinStore [Like.mk "0" "p2" "u2"]) (mkPinView lisbonPin true)
           ltac:(discriminate) eq_refl eq_refl).
Defined.

Lemma unlikePin_undoes_likePin_witness :
  run (PinWrites.unlikePin "p2" "u3") likedStore = (Ok false, likedStore) /\
  run (PinWrites.unlikePin "p2" "u2") (commit (PinWrites.likePin "p2" "u2") pinStore)
    = (Ok true, pinStore).
Proof.
  split.
  - destruct (unlikePin_undoes_likePin likedStore "p2" "u3") as (H & _).
    apply H. reflexivity.
  - destruct (unlikePin_undoes_likePin pinStore "p2" "u2") as (_ & _ & H).
    apply H; reflexivity.
Defined.

Lemma deletePin_owner_only_witness :
  run (PinWrites.deletePin "p2" "u2") likedStore = (Ok false, likedStore) /\
  exists st',
    run (PinWrites.deletePin "p2" "u3") likedStore = (Ok true, st') /\
    run (PinService.getPinById "p2" (Some "u3")) st' = (Ok None, st') /\
    forall l, l ∈ likes st' -> Like.pinId l ≠ "p2".
Proof.
  split.
  - destruct (deletePin_owner_only likedStore "p2" "u2") as (_ & H & _).
    apply (H lisbonPin); [reflexivity|discriminate].
  - destruct (deletePin_owner_only likedStore "p2" "u3") as (_ & _ & H).
    destruct (H lisbonPin eq_refl eq_refl) as (st' & Hrun & Hgone & Hlikes & _).
    exists st'. split; [exact Hrun|]. split; [apply Hgone|exact Hlikes].
Defined.

Lemma updatePin_owner_only_witness :
  run (PinWrites.updatePin "p1" "u2" (mkPinUpdate (Some true))) pinStore
    = (Ok None, pinStore) /\
  exists st' liked,
    run (PinWrites.updatePin "p1" "u3" (mkPinUpdate (Some true))) pinStore
      = (Ok (Some (prisma_pin.applyUpdate (mkPinUpdate (Some true)) portoPin)), st') /\
    run (PinService.getPinById "p1" None) st'
      = (Ok (Some (mkPinView (prisma_pin.applyUpdate (mkPinUpdate (Some true)) portoPin) liked)),
         st').
Proof.
  split.
  - destruct (updatePin_owner_only pinStore "p1" "u2" (mkPinUpdate (Some true)))
      as (_ & H & _).
    apply (H portoPin); [reflexivity|discriminate].
  - destruct (updatePin_owner_only pinStore "p1" "u3" (mkPinUpdate (Some true)))
      as (_ & _ & H).
    destruct (H portoPin eq_refl eq_refl) as (st' & Hrun & _ & _ & _ & _ & Hpub).
    destruct (Hpub eq_refl None) as (liked & Hget).
    exists st', liked. split; assumption.
Defined.

Lemma createPin_private_by_default_witness :
  run (PinWrites.createPin "u9" 0 0 None 300) emptyRelations = (Thrown P2003, emptyRelations) /\
  exists P st',
    run (PinWrites.createPin "u3" 0 0 None 300) emptyRelations = (Ok P, st') /\
    Pin.isPublic P = false /\
    run (PinService.getPinById (Pin.id P) None) st' = (Ok None, st').
Proof.
  split.
  - destruct (createPin_private_by_default emptyRelations "u9" 0 0 300) as (H & _).
    apply H. reflexivity.
  - destruct (createPin_private_by_default emptyRelations "u3" 0 0 300) as (_ & H).
    destruct (H eq_refl) as (P & st' & Hrun & Hpub & _ & _ & Hanon & _).
    exists P, st'. repeat split; assumption.
Defined.



Lemma PinController_likePin_replies_witness :
  run (PinController.likePin "p2" "u2") likedStore
    = (Ok (mkReply 400 (ErrorPayload "Pin already liked")), likedStore) /\
  run (PinController.likePin "p9" "u2") pinStore = (Ok internalServerError, pinStore) /\
  exists like st',
    run (PinController.likePin "p2" "u2") pinStore
      = (Ok (mkReply 201 (LikePayload like)), st').
Proof.
  split; [|split].
  - destruct (PinController_likePin_replies likedStore "p2" "u2") as (H & _).
    apply H. vm_compute. eexists. reflexivity.
  - destruct (PinController_likePin_replies pinStore "p9" "u2") as (_ & H & _).
    apply H; reflexivity.
  - destruct (PinController_likePin_replies pinStore "p2" "u2") as (_ & _ & H).
    destruct (H eq_refl eq_refl) as (like & st' & Hrun & _).
    exists like, st'. exact Hrun.
Defined.

Lemma PinController_deletePin_replies_witness :
  run (PinController.deletePin "p1" "u2") pinStore
    = run (PinController.deletePin "p9" "u2") pinStore /\
  exists st',
    run (PinController.deletePin "p1" "u3") pinStore
      = (Ok (mkReply 200 (MessagePayload "Pin deleted successfully")), st').
Proof.
  split.
  - destruct (PinController_deletePin_replies pinStore "p1" "p9" "u2" portoPin eq_refl eq_refl)
      as (_ & H & _).
    apply H. discriminate.
  - destruct (PinController_deletePin_replies pinStore "p1" "p9" "u3" portoPin eq_refl eq_refl)
      as (_ & _ & H).
    destruct (H eq_refl) as (st' & Hrun & _).
    exists st'. exact Hrun.
Defined.
